(** * pylmdb: a sample-indexed tensor store on top of LMDB and MessagePack

    Shallow embedding of [src/pylmdb/pylmdb.py] (classes [Reader] and
    [Writer], functions [merge_db] and [repair_windows_size]) together with
    the statements of the specification that concern them.

    Conventions of the embedding.
    - A Python [bytes] value is a [string] (a sequence of 8-bit characters).
    - A Python [str] value is represented by the byte string of its UTF-8
      encoding.
    - A Python [int] is a [Z]; the limit of CPython on the number of digits
      in [str(n)] and [int(s)] is not modelled.
    - A Python [float] is a [Q], the number it stands for; the conversion
      and the division of the capacity check are rounded to the nearest
      [float] ([gigabytes]), and its comparison is exact, as Python's is.
    - A Python [dict] with [str] keys is a [gmap string _]; a [set] of [str]
      is a [gset string].
    - An LMDB named database is a [gmap] from key bytes to value bytes. The
      engine refuses a key of length zero ([BadValsizeError]); its refusal
      of a key of more than 511 bytes in a put is not modelled (the key of
      a sample is that long from index [10 ^ 511] on).
    - Raising an exception is a value [Raise e] of the type [result];
      methods of [Writer], which mutate the handle and the store, are
      functions [writer -> result A * writer].
    - MessagePack, NumPy and the capacity of the engine, at a put and at
      the commit of a write transaction, are the fields of the class
      [Backend].
    - Console output ([print]) is left out; the line that [input] returns
      is an argument.
    - [Reader_getitem] is the integer branch of [Reader.__getitem__] on a
      store whose count is not negative; [Reader_getitem_key] is the method
      with its three kinds of key and with the [ValueError] of the built-in
      [len] on a negative count, which has its own type [outcome] of
      results together with [KeyError] and the errors of slicing. The
      [__repr__] methods and the context-manager methods are left out. *)

From Stdlib Require Import ZArith QArith Ascii String Lia.
From stdpp Require Import base option strings gmap list fin_maps.

Open Scope string_scope.
Open Scope Z_scope.

(* ===================================================================== *)
(** * Exceptions and results                                              *)
(* ===================================================================== *)

(** What a [ValueError] was raised for. [UnicodeDecodeError] is a subclass
    of [ValueError] in Python, and is caught by [except ValueError]. *)
Inductive value_error :=
  | InvalidLiteralForInt      (* int("...") on a non-numeric string *)
  | UnicodeDecode             (* bytes.decode on bytes that are not UTF-8 *)
  | MapSizeNotPositive        (* Writer.__init__ *)
  | RamLimitNotPositive       (* Writer.__init__ *)
  | UnsupportedDataType       (* a sample value is not a numpy.ndarray *)
  | RamLimitExceeded          (* payload larger than ram_gb_limit *)
  | KeyNotBelowSize.          (* change_db_value *)

Inductive exn :=
  | ValueError (why : value_error)
  | IndexError
  | TypeError
  | UnpackError               (* any exception of msgpack.unpackb *)
  | AttributeError            (* put_samples: LMDB map_size too small *)
  | MapFullError              (* lmdb.MapFullError, uncaught *)
  | SystemExit                (* sys.exit(0) *)
  | BadValsizeError           (* lmdb.BadValsizeError: a zero-length key *)
  | LmdbError.                (* another lmdb.Error of a commit *)

Inductive result (A : Type) :=
  | Ok (a : A)
  | Raise (e : exn).
Arguments Ok {A} a.
Arguments Raise {A} e.

Definition rbind {A B} (r : result A) (k : A -> result B) : result B :=
  match r with
  | Ok a => k a
  | Raise e => Raise e
  end.

Declare Scope result_scope.
Delimit Scope result_scope with res.
Notation "'let*' x ':=' r 'in' k" := (rbind r (fun x => k))
  (at level 10, x name, r at level 100, k at level 200) : result_scope.

(** [try: r except ValueError: h] *)
Definition except_ValueError {A} (r : result A) (h : A) : result A :=
  match r with
  | Raise (ValueError _) => Ok h
  | _ => r
  end.

(* ===================================================================== *)
(** * Python built-ins on strings and integers                            *)
(* ===================================================================== *)

Definition code (c : ascii) : Z := Z.of_N (N_of_ascii c).

(** The character of a decimal digit [0 <= d <= 9]. *)
Definition digit (d : Z) : ascii := ascii_of_N (Z.to_N (48 + d)).

Definition is_digit (c : ascii) : bool := (48 <=? code c) && (code c <=? 57).

Definition digit_val (c : ascii) : Z := code c - 48.

(** The [w] low decimal digits of [n], most significant first. *)
Fixpoint fixed_digits (w : nat) (n : Z) : string :=
  match w with
  | O => EmptyString
  | S w' => String (digit (n / 10 ^ Z.of_nat w'))
                   (fixed_digits w' (n mod 10 ^ Z.of_nat w'))
  end.

(** Number of decimal digits of [n >= 0] (1 for [n < 10]); each division
    by ten at least halves [n], so [fuel > log2 n] is enough. *)
Fixpoint ndigits_go (fuel : nat) (n : Z) : nat :=
  match fuel with
  | O => 1%nat
  | S f => if n <? 10 then 1%nat else S (ndigits_go f (n / 10))
  end.

Definition ndigits (n : Z) : nat := ndigits_go (S (Z.to_nat (Z.log2 n))) n.

(** Decimal digits of [n >= 0] without leading zeros. *)
Definition decimal (n : Z) : string := fixed_digits (ndigits n) n.

Fixpoint zeros (k : nat) : string :=
  match k with
  | O => EmptyString
  | S k' => String "0" (zeros k')
  end.

(** [str(z)] for a Python [int]. *)
Definition py_str_int (z : Z) : string :=
  if z <? 0 then String "-" (decimal (Z.abs z)) else decimal z.

(** ["{:010}".format(z)] for a Python [int]: sign first, then zeros up to
    a total width of 10, then the digits; never truncated. *)
Definition format_010 (z : Z) : string :=
  let d := decimal (Z.abs z) in
  if z <? 0
  then String "-" (zeros (10 - 1 - String.length d) +:+ d)
  else zeros (10 - String.length d) +:+ d.

Fixpoint all_chars (p : ascii -> bool) (s : string) : bool :=
  match s with
  | EmptyString => true
  | String c r => p c && all_chars p r
  end.

Definition is_ascii (c : ascii) : bool := code c <=? 127.

(** White space that [int] skips around the literal of an ASCII [str]:
    TAB, LF, VT, FF, CR and the space. *)
Definition is_space (c : ascii) : bool :=
  let n := code c in
  ((9 <=? n) && (n <=? 13)) || (n =? 32).

Fixpoint lstrip (s : string) : string :=
  match s with
  | EmptyString => EmptyString
  | String c r => if is_space c then lstrip r else s
  end.

Fixpoint rstrip (s : string) : string :=
  match s with
  | EmptyString => EmptyString
  | String c r =>
      match rstrip r with
      | EmptyString => if is_space c then EmptyString else String c EmptyString
      | r' => String c r'
      end
  end.

(** An ASCII [str] without the white space that [int] skips. *)
Definition int_strip (s : string) : string := rstrip (lstrip s).

(** The number of bytes of the UTF-8 sequence that a byte leads. *)
Definition lead_len (c : ascii) : nat :=
  let n := code c in
  if n <? 192 then 1%nat
  else if n <? 224 then 2%nat
  else if n <? 240 then 3%nat
  else 4%nat.

Fixpoint split_at (n : nat) (s : string) : string * string :=
  match n, s with
  | S n', String c r => let '(h, t) := split_at n' r in (String c h, t)
  | _, _ => (EmptyString, s)
  end.

(** The characters of a [str], each as the bytes of its UTF-8 sequence. *)
Fixpoint code_points_go (fuel : nat) (s : string) : list string :=
  match fuel, s with
  | S f, String c _ =>
      let '(h, t) := split_at (lead_len c) s in h :: code_points_go f t
  | _, _ => []
  end.

Definition code_points (s : string) : list string :=
  code_points_go (String.length s) s.

(** The code point of one well-formed UTF-8 sequence. *)
Definition code_point (cp : string) : Z :=
  match cp with
  | String c0 EmptyString => if code c0 <? 128 then code c0 else -1
  | String c0 (String c1 EmptyString) =>
      (code c0 - 192) * 64 + (code c1 - 128)
  | String c0 (String c1 (String c2 EmptyString)) =>
      (code c0 - 224) * 4096 + (code c1 - 128) * 64 + (code c2 - 128)
  | String c0 (String c1 (String c2 (String c3 EmptyString))) =>
      (code c0 - 240) * 262144 + (code c1 - 128) * 4096
      + (code c2 - 128) * 64 + (code c3 - 128)
  | _ => -1
  end.

(** [ch.isspace()], the white space that [str.strip] removes: U+0009 to
    U+000D, U+001C to U+0020, U+0085, U+00A0, U+1680, U+2000 to U+200A,
    U+2028, U+2029, U+202F, U+205F and U+3000. *)
Definition is_unicode_space (cp : string) : bool :=
  let n := code_point cp in
  ((9 <=? n) && (n <=? 13)) || ((28 <=? n) && (n <=? 32))
  || (n =? 133) || (n =? 160) || (n =? 5760)
  || ((8192 <=? n) && (n <=? 8202))
  || (n =? 8232) || (n =? 8233) || (n =? 8239) || (n =? 8287)
  || (n =? 12288).

Fixpoint drop_spaces (l : list string) : list string :=
  match l with
  | [] => []
  | cp :: l' => if is_unicode_space cp then drop_spaces l' else l
  end.

(** [s.strip()] *)
Definition py_strip (s : string) : string :=
  String.concat ""
    (rev (drop_spaces (rev (drop_spaces (code_points s))))).

Definition lower_char (c : ascii) : ascii :=
  if (65 <=? code c) && (code c <=? 90)
  then ascii_of_N (Z.to_N (code c + 32)) else c.

(** [s.lower()], on ASCII letters. No character outside ASCII lowers to
    a letter of ["yes"], the one string the result is compared with. *)
Fixpoint py_lower (s : string) : string :=
  match s with
  | EmptyString => EmptyString
  | String c r => String (lower_char c) (py_lower r)
  end.

(** Digits of an integer literal after the sign: digits, with single
    underscores allowed between two digits. *)
Fixpoint int_digits (s : string) (acc : Z) (after_digit : bool) : option Z :=
  match s with
  | EmptyString => if after_digit then Some acc else None
  | String c r =>
      if is_digit c then int_digits r (10 * acc + digit_val c) true
      else if Ascii.eqb c "_"
           then (if after_digit then int_digits r acc false else None)
           else None
  end.

(** The digits of an integer literal, by their grammar: decimal digits
    with single underscores between two of them. *)
Inductive digits_body : string -> Prop :=
  | body_last c :
      is_digit c = true -> digits_body (String c EmptyString)
  | body_digit c r :
      is_digit c = true -> digits_body r -> digits_body (String c r)
  | body_underscore c r :
      is_digit c = true -> digits_body r ->
      digits_body (String c (String "_" r)).

(** The ASCII strings that [int] reads as an integer, by their grammar:
    optional white space, an optional sign, the digits, optional white
    space. *)
Definition int_literal (s : string) : Prop :=
  exists ws1 sign body ws2,
    s = ws1 +:+ sign +:+ body +:+ ws2 /\
    all_chars is_space ws1 = true /\
    all_chars is_space ws2 = true /\
    (sign = "" \/ sign = "+" \/ sign = "-") /\
    digits_body body.

(** [str(None)] *)
Definition str_None : string := "None".

(* ===================================================================== *)
(** * The helper module [tools]                                           *)
(* ===================================================================== *)

(** Modelled from the spec: [tools.py] is not among the sources; the spec
    describes [encode_str]/[decode_str] as the UTF-8 round trip for
    metadata strings and key strings. *)

(** Well-formed UTF-8 (RFC 3629), over the character codes. *)
Definition is_cont (c : ascii) : bool := (128 <=? code c) && (code c <=? 191).

Definition in_range (lo hi : Z) (c : ascii) : bool :=
  (lo <=? code c) && (code c <=? hi).

Fixpoint utf8_valid (s : string) : bool :=
  match s with
  | EmptyString => true
  | String c0 r0 =>
      if code c0 <=? 127 then utf8_valid r0
      else
        match r0 with
        | EmptyString => false
        | String c1 r1 =>
            if in_range 194 223 c0 then is_cont c1 && utf8_valid r1
            else
              match r1 with
              | EmptyString => false
              | String c2 r2 =>
                  if in_range 224 239 c0 then
                    (if code c0 =? 224 then in_range 160 191 c1
                     else if code c0 =? 237 then in_range 128 159 c1
                     else is_cont c1)
                    && is_cont c2 && utf8_valid r2
                  else
                    match r2 with
                    | EmptyString => false
                    | String c3 r3 =>
                        in_range 240 244 c0
                        && (if code c0 =? 240 then in_range 144 191 c1
                            else if code c0 =? 244 then in_range 128 143 c1
                            else is_cont c1)
                        && is_cont c2 && is_cont c3 && utf8_valid r3
                    end
              end
        end
  end.

(** Modelled from the spec: [tools.encode_str], UTF-8 encoding of a [str].
    With a [str] represented by its UTF-8 bytes this is the identity. *)
Definition encode_str (s : string) : string := s.

(** Modelled from the spec: [tools.decode_str], UTF-8 decoding of [bytes];
    raises [UnicodeDecodeError] on bytes that are not UTF-8. *)
Definition decode_str (b : string) : result string :=
  if utf8_valid b then Ok b else Raise (ValueError UnicodeDecode).

(** Modelled from the spec: [tools.NB_SAMPLES], the reserved metadata key
    of the sample count; [check_db_stats] and [merge_db] spell it out as
    the literal ["nb_samples"]. *)
Definition NB_SAMPLES : string := "nb_samples".

(* ===================================================================== *)
(** * Data model                                                          *)
(* ===================================================================== *)

(** A [numpy.ndarray]: element type, shape and the raw element bytes. *)
Record ndarray := {
  dtype : string;
  shape : list N;
  data  : string
}.

(** [a.nbytes] *)
Definition nbytes (a : ndarray) : Z := Z.of_nat (String.length (data a)).

(** The Python values that can sit in a sample mapping. *)
Inductive pyobj :=
  | PArr (a : ndarray)
  | PInt (z : Z)
  | PStr (s : string)
  | PNone.

(** [isinstance(v, np.ndarray)] *)
Definition is_ndarray (v : pyobj) : bool :=
  match v with
  | PArr _ => true
  | _ => false
  end.

(** A [str] or [bytes] argument, as the metadata methods accept. *)
Inductive py_key :=
  | KStr (s : string)
  | KBytes (b : string).

(** [_key = encode_str(key) if isinstance(key, str) else key] *)
Definition key_bytes (key : py_key) : string :=
  match key with
  | KStr s => encode_str s
  | KBytes b => b
  end.

(** One LMDB environment: the two named databases of a store. *)
Record lmdb_env := {
  data_db : gmap string string;
  meta_db : gmap string string
}.

(** The environment of a directory in which no store was written yet. *)
Definition empty_env : lmdb_env := {| data_db := ∅; meta_db := ∅ |}.

Inductive db_name := DATA_DB | META_DB.

(** [txn.put(key, value)] on the named database, inside a transaction whose
    view of the environment is [txn]. *)
Definition txn_put (db : db_name) (key value : string) (txn : lmdb_env)
  : lmdb_env :=
  match db with
  | DATA_DB => {| data_db := <[key := value]> (data_db txn);
                  meta_db := meta_db txn |}
  | META_DB => {| data_db := data_db txn;
                  meta_db := <[key := value]> (meta_db txn) |}
  end.

(** The key of sample [i] in [data_db]:
    [encode_str("{:010}".format(i))]. *)
Definition sample_key (i : Z) : string := encode_str (format_010 i).

(** The default key order of LMDB: byte by byte on the unsigned values, a
    proper prefix before its extensions. *)
Fixpoint key_compare (a b : string) : comparison :=
  match a, b with
  | EmptyString, EmptyString => Eq
  | EmptyString, String _ _ => Lt
  | String _ _, EmptyString => Gt
  | String x a', String y b' =>
      match code x ?= code y with
      | Eq => key_compare a' b'
      | c => c
      end
  end.

(** What the commit of a write transaction can raise. *)
Inductive commit_failure :=
  | CommitMapFull             (* lmdb.MapFullError *)
  | CommitError.              (* another lmdb.Error *)

Definition commit_exn (f : commit_failure) : exn :=
  match f with
  | CommitMapFull => MapFullError
  | CommitError => LmdbError
  end.

(** The external collaborators: MessagePack with the array hooks
    [tools.encode_data]/[tools.decode_data], NumPy's coercion, and the
    capacity signal of the LMDB engine.

    Modelled from the spec: the hooks come from [tools.py], which is not
    among the sources; the spec requires that an array serializes to a
    self-describing blob and deserializes back to an equal array, and
    assumes a pack/unpack primitive for containers. *)
Class Backend := {
  (** [msgpack.packb(obj, use_bin_type=True, default=encode_data)] *)
  packb_array : ndarray -> string;
  (** [msgpack.unpackb(b, raw=False, use_list=False,
      object_hook=decode_data)] *)
  unpackb_value : string -> result pyobj;
  (** [msgpack.packb(msg_pkgs, use_bin_type=True)] on a [dict] from field
      names to blobs *)
  packb_dict : gmap string string -> string;
  (** [msgpack.unpackb(b, raw=False, use_list=True)] on an outer blob *)
  unpackb_dict : string -> result (gmap string string);
  (** [np.array(obj)] *)
  np_array : pyobj -> ndarray;
  (** [int(s)] for a [str] with a character outside ASCII, [None] for a
      [ValueError] *)
  int_unicode : string -> option Z;
  (** whether [txn.put] raises [lmdb.MapFullError], for an environment
      opened with [map_size] bytes *)
  map_full : Z -> lmdb_env -> db_name -> string -> string -> bool;
  (** whether the commit of a write transaction raises, and what, for an
      environment opened with [map_size] bytes and the view [txn] of the
      transaction *)
  txn_commit : Z -> lmdb_env -> option commit_failure;
  unpackb_packb_array :
    forall a, unpackb_value (packb_array a) = Ok (PArr a);
  unpackb_packb_dict :
    forall m, unpackb_dict (packb_dict m) = Ok m
}.

(** The exceptions of the introspection methods and of slicing: those of
    [exn], the [KeyError] of [get_data_value], the [ValueError] of the
    built-in [len], and the two [ValueError]s of [slice.indices]. *)
Inductive py_exn :=
  | Of (e : exn)
  | KeyError
  | NegativeLen               (* __len__() should return >= 0 *)
  | SliceStepZero             (* slice step cannot be zero *)
  | LengthNegative.           (* length should not be negative *)

Inductive outcome (A : Type) :=
  | Returns (a : A)
  | Throws (e : py_exn).
Arguments Returns {A} a.
Arguments Throws {A} e.

Definition outcome_of {A} (r : result A) : outcome A :=
  match r with
  | Ok a => Returns a
  | Raise e => Throws (Of e)
  end.

Section Store.
Context `{B : Backend}.

Local Open Scope result_scope.

(** [int(s)] for a [str], base 10. Python accepts the decimal digits and
    the white space of every script; strings with a character outside
    ASCII are left to [int_unicode]. *)
Definition py_int (s : string) : result Z :=
  let body :=
    if all_chars is_ascii s then
      match int_strip s with
      | EmptyString => None
      | String c r =>
          if Ascii.eqb c "+" then int_digits r 0 false
          else if Ascii.eqb c "-" then Z.opp <$> int_digits r 0 false
          else int_digits (String c r) 0 false
      end
    else int_unicode s in
  match body with
  | Some z => Ok z
  | None => Raise (ValueError InvalidLiteralForInt)
  end.

(* ===================================================================== *)
(** * Reader                                                              *)
(* ===================================================================== *)

Record reader := {
  r_env : lmdb_env;          (* self._lmdb_env with data_db and meta_db *)
  r_nb_samples : Z           (* self.nb_samples *)
}.

(** [Reader.get_meta_str]; it reads [self._lmdb_env] only, and is also
    called by [__init__] before [nb_samples] exists. *)
Definition get_meta_str (e : lmdb_env) (key : py_key) : result string :=
  let _key := key_bytes key in
  if String.eqb _key "" then Raise BadValsizeError     (* txn.get(b'') *)
  else
    match meta_db e !! _key with
    | Some _k => decode_str _k
    | None => Ok str_None
    end.

(** [Reader.__init__] on the environment found at [dirpath]. *)
Definition Reader_init (e : lmdb_env) : result reader :=
  let* n := except_ValueError
              (let* s := get_meta_str e (KStr NB_SAMPLES) in py_int s) 0 in
  Ok {| r_env := e; r_nb_samples := n |}.

(** [Reader.__len__] *)
Definition Reader_len (r : reader) : Z := r_nb_samples r.

Fixpoint decode_keys (l : list (string * string)) (key_set : gset string)
  : result (gset string) :=
  match l with
  | [] => Ok key_set
  | (key, _) :: l' =>
      let* k := decode_str key in decode_keys l' ({[ k ]} ∪ key_set)
  end.

(** [Reader.get_meta_key_info] *)
Definition get_meta_key_info (r : reader) : result (gset string) :=
  decode_keys (map_to_list (meta_db (r_env r))) ∅.

(** The loop of [get_sample] over the fields of the outer mapping. *)
Fixpoint decode_fields (l : list (string * string)) (obj : gmap string pyobj)
  : result (gmap string pyobj) :=
  match l with
  | [] => Ok obj
  | (k, blob) :: l' =>
      let* v := unpackb_value blob in decode_fields l' (<[k := v]> obj)
  end.

(** [Reader.get_sample] *)
Definition get_sample (r : reader) (i : Z) : result (gmap string pyobj) :=
  if (0 >? i) || (r_nb_samples r <=? i) then Raise IndexError
  else
    let key := sample_key i in
    match data_db (r_env r) !! key with
    | None => Raise TypeError              (* msgpack.unpackb(None) *)
    | Some pkg =>
        let* _obj := unpackb_dict pkg in
        decode_fields (map_to_list _obj) ∅
    end.

(** [Reader.__getitem__] with an integer key. *)
Definition Reader_getitem (r : reader) (key : Z)
  : result (gmap string pyobj) :=
  let _key := if 0 >? key then key + Reader_len r else key in
  if (0 >? _key) || (Reader_len r <=? _key) then Raise IndexError
  else get_sample r _key.

(* ===================================================================== *)
(** * Writer                                                              *)
(* ===================================================================== *)

(** The attributes [dirpath] and [keys] are read by no method other than
    [__repr__] and are left out. *)
Record writer := {
  w_env : lmdb_env;          (* self._lmdb_env with data_db and meta_db *)
  map_size_limit : Z;        (* megabytes *)
  ram_gb_limit : Q;          (* gigabytes *)
  nb_samples : Z;
  db_stats : string
}.

Definition with_env (w : writer) (e : lmdb_env) : writer :=
  {| w_env := e; map_size_limit := map_size_limit w;
     ram_gb_limit := ram_gb_limit w; nb_samples := nb_samples w;
     db_stats := db_stats w |}.

Definition with_nb_samples (w : writer) (n : Z) : writer :=
  {| w_env := w_env w; map_size_limit := map_size_limit w;
     ram_gb_limit := ram_gb_limit w; nb_samples := n;
     db_stats := db_stats w |}.

Definition with_db_stats (w : writer) (s : string) : writer :=
  {| w_env := w_env w; map_size_limit := map_size_limit w;
     ram_gb_limit := ram_gb_limit w; nb_samples := nb_samples w;
     db_stats := s |}.

(** The map size handed to [lmdb.open]: [map_size_limit <<= 20]. *)
Definition map_size (w : writer) : Z := Z.shiftl (map_size_limit w) 20.

(** [Writer.check_db_stats]; [not _k] holds for [None] and for the empty
    byte string. *)
Definition check_db_stats (w : writer) : result writer :=
  match meta_db (w_env w) !! encode_str "nb_samples" with
  | None => Ok (with_db_stats w "create_stats")
  | Some _k =>
      if String.eqb _k "" then Ok (with_db_stats w "create_stats")
      else
        let* s := decode_str _k in
        let* n := py_int s in
        Ok (with_db_stats (with_nb_samples w n) "auto_update_stats")
  end.

(** [Writer.__init__] on the environment found (or created) at [dirpath]. *)
Definition Writer_init (e : lmdb_env) (map_size_limit : Z) (ram_gb_limit : Q)
  : result writer :=
  if map_size_limit <=? 0 then Raise (ValueError MapSizeNotPositive)
  else if Qle_bool ram_gb_limit 0 then Raise (ValueError RamLimitNotPositive)
  else check_db_stats {| w_env := e; map_size_limit := map_size_limit;
                         ram_gb_limit := ram_gb_limit; nb_samples := 0;
                         db_stats := "" |}.

(** Methods of a [Writer]: the outcome and the handle afterwards. *)
Definition W (A : Type) : Type := writer -> result A * writer.

Definition wret {A} (a : A) : W A := fun w => (Ok a, w).

Definition wraise {A} (e : exn) : W A := fun w => (Raise e, w).

Definition wbind {A C} (m : W A) (k : A -> W C) : W C :=
  fun w => match m w with
           | (Ok a, w') => k a w'
           | (Raise e, w') => (Raise e, w')
           end.

Definition wlift {A} (r : result A) : W A := fun w => (r, w).

Notation "'let!' x ':=' m 'in' k" := (wbind m (fun x => k))
  (at level 10, x name, m at level 100, k at level 200).
Notation "'do!' m 'in' k" := (wbind m (fun _ => k))
  (at level 10, m at level 100, k at level 200).

(** [Writer.set_meta_str] *)
Definition set_meta_str (key : py_key) (s : string) : W unit :=
  fun w =>
    let _key := key_bytes key in
    if String.eqb _key "" then (Raise BadValsizeError, w)  (* txn.put(b'', _) *)
    else if map_full (map_size w) (w_env w) META_DB _key (encode_str s)
    then (Raise MapFullError, w)
    else
      let txn := txn_put META_DB _key (encode_str s) (w_env w) in
      match txn_commit (map_size w) txn with
      | Some f => (Raise (commit_exn f), w)
      | None => (Ok tt, with_env w txn)
      end.

(** The first loop of [put_samples] and [change_value]: the type check and
    the byte count, a [numpy.uint64]. *)
Fixpoint payload_bytes (items : list (string * pyobj)) (gb_required : Z)
  : result Z :=
  match items with
  | [] => Ok gb_required
  | (_, v) :: rest =>
      match v with
      | PArr a => payload_bytes rest ((gb_required + nbytes a) mod 2 ^ 64)
      | _ => Raise (ValueError UnsupportedDataType)
      end
  end.

(** The integer nearest to [n / d] for [d > 0], a tie going to the even
    one. *)
Definition round_half_even (n d : Z) : Z :=
  let q := n / d in
  let r := n mod d in
  if 2 * r <? d then q
  else if d <? 2 * r then q + 1
  else if Z.even q then q else q + 1.

(** The [float] nearest to [n / d], for [n, d > 0] and a quotient in the
    range of the normal numbers: a significand [m] of 53 bits and an
    exponent [e], the value being [m * 2 ^ e]. *)
Definition float_of_quotient (n d : Z) : Z * Z :=
  let e0 := Z.log2 n - Z.log2 d - 52 in
  let num e := n * 2 ^ Z.max 0 (- e) in
  let den e := d * 2 ^ Z.max 0 e in
  let e := if num e0 <? 2 ^ 52 * den e0 then e0 - 1 else e0 in
  (round_half_even (num e) (den e), e).

Definition float_value (f : Z * Z) : Q :=
  let '(m, e) := f in
  if 0 <=? e then (m * 2 ^ e # 1)%Q else (m # Z.to_pos (2 ^ (- e)))%Q.

(** [float(gb_required / 10 ** 9)]: the byte count, a [numpy.uint64], is
    converted to [float64] and divided by [1e9], each step rounded to the
    nearest [float]; the count [0] of an empty mapping gives [0.0]. *)
Definition gigabytes (total : Z) : Q :=
  if total <=? 0 then 0%Q
  else
    let '(m, e) := float_of_quotient total 1 in
    float_value
      (float_of_quotient (m * 2 ^ Z.max 0 e)
                         (2 ^ Z.max 0 (- e) * 1000000000)).

(** [a < b] on the rationals: the limit is the number that was passed, a
    [float] or an [int], and Python compares the two exactly. *)
Definition Qltb (a b : Q) : bool := negb (Qle_bool b a).

(** [obj = samples[key]], then [obj = np.array(obj)] if
    [not isinstance(obj, np.ndarray)] *)
Definition as_ndarray (v : pyobj) : ndarray :=
  match v with
  | PArr a => a
  | _ => np_array v
  end.

(** The loop inside the write transaction of [put_samples] and
    [change_value]: every field is packed into [msg_pkgs], and the package
    built so far is put under the key of sample [num_id] at every turn. *)
Fixpoint write_fields (size num_id : Z) (items : list (string * pyobj))
    (msg_pkgs : gmap string string) (txn : lmdb_env) : result lmdb_env :=
  match items with
  | [] => Ok txn
  | (k, v) :: rest =>
      let obj := as_ndarray v in
      let msg_pkgs' := <[k := packb_array obj]> msg_pkgs in
      let key := sample_key num_id in
      let pkg := packb_dict msg_pkgs' in
      if map_full size txn DATA_DB key pkg then Raise MapFullError
      else write_fields size num_id rest msg_pkgs'
             (txn_put DATA_DB key pkg txn)
  end.

(** [Writer.put_samples] *)
Definition put_samples (samples : gmap string pyobj) : W unit :=
  fun w =>
    match payload_bytes (map_to_list samples) 0 with
    | Raise e => (Raise e, w)
    | Ok total =>
        if Qltb (ram_gb_limit w) (gigabytes total)
        then (Raise (ValueError RamLimitExceeded), w)
        else
          match write_fields (map_size w) (nb_samples w)
                  (map_to_list samples) ∅ (w_env w) with
          | Raise MapFullError => (Raise AttributeError, w)
          | Raise e => (Raise e, w)
          | Ok txn =>
              (* [self.nb_samples += 1] is the last statement of the
                 block; the commit comes after it, on leaving the block *)
              match txn_commit (map_size w) txn with
              | Some CommitMapFull =>
                  (Raise AttributeError, with_nb_samples w (nb_samples w + 1))
              | Some CommitError =>
                  (Raise LmdbError, with_nb_samples w (nb_samples w + 1))
              | None =>
                  let w' :=
                    with_nb_samples (with_env w txn) (nb_samples w + 1) in
                  set_meta_str (KStr NB_SAMPLES) (py_str_int (nb_samples w'))
                    w'
              end
          end
    end.

(** [Writer.change_value] *)
Definition change_value (num_id : Z) (samples : gmap string pyobj) : W unit :=
  fun w =>
    match payload_bytes (map_to_list samples) 0 with
    | Raise e => (Raise e, w)
    | Ok total =>
        if Qltb (ram_gb_limit w) (gigabytes total)
        then (Raise (ValueError RamLimitExceeded), w)
        else
          match write_fields (map_size w) num_id
                  (map_to_list samples) ∅ (w_env w) with
          | Raise e => (Raise e, w)
          | Ok txn =>
              match txn_commit (map_size w) txn with
              | Some f => (Raise (commit_exn f), w)
              | None => (Ok tt, with_env w txn)
              end
          end
    end.

(** [Writer.change_db_value]; [answer] is the line that [input] returns
    when the confirmation is asked for. *)
Definition change_db_value (key : Z) (value : gmap string pyobj)
    (safe_model : bool) (answer : string) : W unit :=
  fun w =>
    let num_size := nb_samples w in
    if key <? num_size then
      if safe_model && negb (String.eqb (py_lower (py_strip answer)) "yes")
      then (Raise SystemExit, w)
      else change_value key value w
    else (Raise (ValueError KeyNotBelowSize), w).

(** [Writer.close] *)
Definition Writer_close : W unit :=
  fun w => set_meta_str (KStr NB_SAMPLES) (py_str_int (nb_samples w)) w.

(* ===================================================================== *)
(** * merge_db                                                            *)
(* ===================================================================== *)

(** [range(n)] *)
Definition py_range (n : Z) : list Z := Z.of_nat <$> seq 0 (Z.to_nat n).

(** [for i in range(...): merge_db.put_samples(src[i])] *)
Fixpoint copy_samples (src : reader) (idx : list Z) : W unit :=
  match idx with
  | [] => wret tt
  | i :: rest =>
      let! s := wlift (Reader_getitem src i) in
      do! put_samples s in
      copy_samples src rest
  end.

(** [for i in keys: if i != "nb_samples": merge_db.set_meta_str(i, ...)] *)
Fixpoint copy_meta (src : reader) (keys : list string) : W unit :=
  match keys with
  | [] => wret tt
  | i :: rest =>
      if String.eqb i "nb_samples" then copy_meta src rest
      else
        let! v := wlift (get_meta_str (r_env src) (KStr i)) in
        do! set_meta_str (KStr i) v in
        copy_meta src rest
  end.

(** [merge_db] on the environments of the three directories (taken to be
    distinct); the result is the outcome and the target environment. *)
Definition merge_db (merge_env A_env B_env : lmdb_env) (map_size_limit : Z)
  : result unit * lmdb_env :=
  match Writer_init merge_env map_size_limit (3 # 1)%Q with
  | Raise e => (Raise e, merge_env)
  | Ok merge_w =>
      match Reader_init A_env with
      | Raise e => (Raise e, w_env merge_w)
      | Ok A_db =>
          match Reader_init B_env with
          | Raise e => (Raise e, w_env merge_w)
          | Ok B_db =>
              let run : W unit :=
                do! copy_samples A_db (py_range (r_nb_samples A_db)) in
                let! ka := wlift (get_meta_key_info A_db) in
                do! copy_meta A_db (elements ka) in
                do! copy_samples B_db (py_range (r_nb_samples B_db)) in
                let! kb := wlift (get_meta_key_info B_db) in
                do! copy_meta B_db (elements kb) in
                Writer_close in
              let '(r, w') := run merge_w in (r, w_env w')
          end
      end
  end.

(* ===================================================================== *)
(** * Reader: ranged retrieval, slices and introspection                  *)
(* ===================================================================== *)

(** A loop that appends [f i] to a list for every [i] of [idx], and stops
    at the first exception: [out.append(f(i))], and the list
    comprehension [[f(i) for i in idx]]. *)
Fixpoint collect {A} (f : Z -> result A) (idx : list Z) (out : list A)
  : result (list A) :=
  match idx with
  | [] => Ok out
  | i :: rest => let* x := f i in collect f rest (out ++ [x])
  end.

(** [range(lo, hi)] *)
Definition py_range_from (lo hi : Z) : list Z :=
  (fun k => lo + Z.of_nat k) <$> seq 0 (Z.to_nat (hi - lo)).

(** One turn of the loop of [get_samples]: the entry of index [_i] is
    read and decoded, with the statements of [get_sample] and without a
    bounds check. *)
Definition read_entry (e : lmdb_env) (_i : Z) : result (gmap string pyobj) :=
  let key := sample_key _i in
  match data_db e !! key with
  | None => Raise TypeError              (* msgpack.unpackb(None) *)
  | Some pkg =>
      let* obj := unpackb_dict pkg in
      decode_fields (map_to_list obj) ∅
  end.

(** [Reader.get_samples] *)
Definition get_samples (r : reader) (i size : Z)
  : result (list (gmap string pyobj)) :=
  if (0 >? i) || (r_nb_samples r <=? i + size - 1) then Raise IndexError
  else collect (read_entry (r_env r)) (py_range_from i (i + size)) [].

(** [slice(start, stop, step).indices(length)], as CPython computes it. *)
Definition slice_indices (start stop step : option Z) (length : Z)
  : outcome (Z * Z * Z) :=
  if length <? 0 then Throws LengthNegative
  else
    let st := default 1 step in
    if st =? 0 then Throws SliceStepZero
    else
      let lower := if st <? 0 then -1 else 0 in
      let upper := if st <? 0 then length - 1 else length in
      let clamp (v : Z) :=
        if v <? 0 then Z.max (v + length) lower else Z.min v upper in
      let lo := match start with
                | None => if st <? 0 then upper else lower
                | Some v => clamp v
                end in
      let hi := match stop with
                | None => if st <? 0 then lower else upper
                | Some v => clamp v
                end in
      Returns (lo, hi, st).

(** [len(range(start, stop, step))] for [step <> 0]. *)
Definition range_length (start stop step : Z) : Z :=
  if (0 <? step) && (start <? stop) then 1 + (stop - 1 - start) / step
  else if (step <? 0) && (stop <? start) then 1 + (start - 1 - stop) / (- step)
  else 0.

(** [range(start, stop, step)] *)
Definition py_range_step (start stop step : Z) : list Z :=
  (fun k => start + Z.of_nat k * step)
    <$> seq 0 (Z.to_nat (range_length start stop step)).

(** The keys that [Reader.__getitem__] tells apart: an integer, a slice,
    anything else. *)
Inductive index_key :=
  | IdxInt (k : Z)
  | IdxSlice (start stop step : option Z)
  | IdxOther.

(** What [Reader.__getitem__] returns: a sample, or a list of samples. *)
Inductive item :=
  | One (s : gmap string pyobj)
  | Many (l : list (gmap string pyobj)).

(** [len(reader)] for a count below [2 ^ 63]: the built-in refuses a
    negative [__len__]. At [2 ^ 63] and above it raises [OverflowError],
    a case that is left out: the statements about [len] are for counts
    below. *)
Definition py_len (r : reader) : outcome Z :=
  if Reader_len r <? 0 then Throws NegativeLen else Returns (Reader_len r).

(** [reader[key]] for an integer [key]. Whatever the key, [len(self)] is
    evaluated, by the wrap of a negative key or by the bounds check; where
    it returns, the branch is [Reader_getitem]. *)
Definition Reader_getitem_int (r : reader) (key : Z)
  : outcome (gmap string pyobj) :=
  match py_len r with
  | Throws e => Throws e
  | Returns _ => outcome_of (Reader_getitem r key)
  end.

(** [Reader.__getitem__]. In the slice branch [len(self)] has returned, so
    that [self[i]] is [Reader_getitem r i]. *)
Definition Reader_getitem_key (r : reader) (key : index_key) : outcome item :=
  match key with
  | IdxInt k =>
      match Reader_getitem_int r k with
      | Throws e => Throws e
      | Returns s => Returns (One s)
      end
  | IdxSlice start stop step =>
      match py_len r with
      | Throws e => Throws e
      | Returns n =>
          match slice_indices start stop step n with
          | Throws e => Throws e
          | Returns (lo, hi, st) =>
              outcome_of
                (let* l := collect (Reader_getitem r)
                             (py_range_step lo hi st) []
                 in Ok (Many l))
          end
      end
  | IdxOther => Throws (Of TypeError)
  end.

(** [Reader.get_data_keys]: the field names of sample [i], in the order of
    the mapping of the model. *)
Definition get_data_keys (r : reader) (i : Z) : outcome (list string) :=
  match Reader_getitem_int r i with
  | Throws e => Throws e
  | Returns s => Returns (map_to_list s).*1
  end.

(** [Reader.get_data_value] *)
Definition get_data_value (r : reader) (i : Z) (key : string)
  : outcome pyobj :=
  match Reader_getitem_int r i with
  | Throws e => Throws e
  | Returns s =>
      match s !! key with
      | Some v => Returns v
      | None => Throws KeyError
      end
  end.

(** The loop of [get_data_specification]: [sample[key].dtype] and
    [sample[key].shape]; a value that is not an array has neither
    attribute. *)
Fixpoint specification_of (items : list (string * pyobj))
    (spec : gmap string (string * list N))
  : result (gmap string (string * list N)) :=
  match items with
  | [] => Ok spec
  | (key, v) :: rest =>
      match v with
      | PArr a => specification_of rest (<[key := (dtype a, shape a)]> spec)
      | _ => Raise AttributeError
      end
  end.

(** [Reader.get_data_specification] *)
Definition get_data_specification (r : reader) (i : Z)
  : outcome (gmap string (string * list N)) :=
  match Reader_getitem_int r i with
  | Throws e => Throws e
  | Returns sample => outcome_of (specification_of (map_to_list sample) ∅)
  end.

(** The inner loop of [get_data_key_info]: [key_set.add(k)] for every key
    of one outer mapping. *)
Definition add_keys (dict_v : gmap string string) (key_set : gset string)
  : gset string :=
  foldl (fun ks kv => {[ kv.1 ]} ∪ ks) key_set (map_to_list dict_v).

Fixpoint scan_entries (l : list (string * string)) (key_set : gset string)
  : result (gset string) :=
  match l with
  | [] => Ok key_set
  | (_, value) :: l' =>
      let* dict_v := unpackb_dict value in
      scan_entries l' (add_keys dict_v key_set)
  end.

(** [Reader.get_data_key_info]: a scan of the whole data namespace. *)
Definition get_data_key_info (r : reader) : result (gset string) :=
  scan_entries (map_to_list (data_db (r_env r))) ∅.

(* ===================================================================== *)
(** * repair_windows_size                                                 *)
(* ===================================================================== *)

(** [repair_windows_size] on the environment of [dirpath]; the result is
    the outcome and the environment afterwards. *)
Definition repair_windows_size (e : lmdb_env) : result unit * lmdb_env :=
  match Writer_init e 1 (3 # 1)%Q with
  | Raise ex => (Raise ex, e)
  | Ok db => let '(r, db') := Writer_close db in (r, w_env db')
  end.

(* ===================================================================== *)
(** * Notions used in the statements                                      *)
(* ===================================================================== *)

(** A store without samples: no entry in the data namespace, and a count
    key that is absent, or not UTF-8, or not a decimal integer, or,
    where it can be read, says zero. *)
Definition zero_samples (e : lmdb_env) : Prop :=
  data_db e = ∅ /\
  match meta_db e !! NB_SAMPLES with
  | None => True
  | Some v =>
      match rbind (decode_str v) py_int with
      | Ok n => n = 0
      | Raise _ => True
      end
  end.


(** The outer mapping that a sample is stored as, and its blob. *)
Definition packed_fields (samples : gmap string pyobj) : gmap string string :=
  (fun v => packb_array (as_ndarray v)) <$> samples.

Definition pack_sample (samples : gmap string pyobj) : string :=
  packb_dict (packed_fields samples).

(** Every value of the mapping is an array. *)
Definition all_arrays (samples : gmap string pyobj) : Prop :=
  forall k v, samples !! k = Some v -> is_ndarray v = true.

(** The dtype and the shape of every array of a mapping. *)
Definition array_specification (samples : gmap string pyobj)
  : gmap string (string * list N) :=
  omap (fun v => match v with
                 | PArr a => Some (dtype a, shape a)
                 | _ => None
                 end) samples.

(** The payload of a mapping in bytes: the sizes of its arrays, summed. *)
Definition array_bytes (v : pyobj) : Z :=
  match v with
  | PArr a => nbytes a
  | _ => 0
  end.

Definition sum_bytes (items : list (string * pyobj)) : Z :=
  foldr (fun kv acc => array_bytes kv.2 + acc) 0 items.

Definition payload_size (samples : gmap string pyobj) : Z :=
  sum_bytes (map_to_list samples).

(** [msg_pkgs] after the loop has run over [items]. *)
Definition pack_items (items : list (string * pyobj))
    (msg_pkgs : gmap string string) : gmap string string :=
  foldl (fun m kv => <[kv.1 := packb_array (as_ndarray kv.2)]> m)
        msg_pkgs items.

(** The handle after a [put_samples] that returned normally. *)
Definition after_put (samples : gmap string pyobj) (w : writer) : writer :=
  {| w_env :=
       {| data_db :=
            if decide (samples = ∅) then data_db (w_env w)
            else <[sample_key (nb_samples w) := pack_sample samples]>
                   (data_db (w_env w));
          meta_db :=
            <[NB_SAMPLES := py_str_int (nb_samples w + 1)]>
              (meta_db (w_env w)) |};
     map_size_limit := map_size_limit w;
     ram_gb_limit := ram_gb_limit w;
     nb_samples := nb_samples w + 1;
     db_stats := db_stats w |}.

(** The data namespace holds samples as a [Writer] stores them: every
    entry is the stored form of a mapping of arrays with at least one
    field. *)
Definition stored_samples (e : lmdb_env) : Prop :=
  forall key blob,
    data_db e !! key = Some blob ->
    exists s, s <> ∅ /\ all_arrays s /\ blob = pack_sample s.

(** Successive calls [put_samples(s)] for the mappings [s] of a list. *)
Fixpoint put_all (l : list (gmap string pyobj)) : W unit :=
  match l with
  | [] => wret tt
  | s :: l' => wbind (put_samples s) (fun _ => put_all l')
  end.

End Store.

(* ===================================================================== *)
(** * A concrete backend                                                  *)
(* ===================================================================== *)

(** A small self-delimiting wire format standing in for MessagePack, so
    that the model can be run on concrete stores: a blob is a list of
    strings, every character of a string preceded by ["1"], every string
    closed by ["0"], the list closed by ["2"]. *)
Fixpoint enc_chars (s rest : string) : string :=
  match s with
  | EmptyString => rest
  | String c r => String "1" (String c (enc_chars r rest))
  end.

Fixpoint enc_strs (l : list string) : string :=
  match l with
  | [] => "2"
  | s :: l' => enc_chars s (String "0" (enc_strs l'))
  end.

Fixpoint dec_strs (b cur : string) : option (list string) :=
  match b with
  | String "1" (String c r) => dec_strs r (cur +:+ String c EmptyString)
  | String "0" r => cons cur <$> dec_strs r EmptyString
  | String "2" EmptyString =>
      match cur with
      | EmptyString => Some []
      | _ => None
      end
  | _ => None
  end.

Fixpoint flatten_items (l : list (string * string)) : list string :=
  match l with
  | [] => []
  | (k, v) :: l' => k :: v :: flatten_items l'
  end.

Fixpoint unflatten_items (l : list string) : option (list (string * string)) :=
  match l with
  | [] => Some []
  | k :: v :: l' => cons (k, v) <$> unflatten_items l'
  | _ => None
  end.

Definition toy_packb_array (a : ndarray) : string :=
  enc_strs (dtype a :: data a :: ((fun n => zeros (N.to_nat n)) <$> shape a)).

Definition toy_unpackb_value (b : string) : result pyobj :=
  match dec_strs b EmptyString with
  | Some (dt :: da :: sh) =>
      Ok (PArr {| dtype := dt;
                  shape := (fun s => N.of_nat (String.length s)) <$> sh;
                  data := da |})
  | _ => Raise UnpackError
  end.

Definition toy_packb_dict (m : gmap string string) : string :=
  enc_strs (flatten_items (map_to_list m)).

Definition toy_unpackb_dict (b : string) : result (gmap string string) :=
  match dec_strs b EmptyString ≫= unflatten_items with
  | Some l => Ok (list_to_map l)
  | None => Raise UnpackError
  end.

(** Scalars become zero-dimensional arrays. *)
Definition toy_np_array (v : pyobj) : ndarray :=
  match v with
  | PArr a => a
  | PInt z => {| dtype := "int64"; shape := []; data := py_str_int z |}
  | PStr s => {| dtype := "str"; shape := []; data := s |}
  | PNone => {| dtype := "object"; shape := []; data := EmptyString |}
  end.

Lemma sapp_nil_l (s : string) : EmptyString +:+ s = s.
Proof. reflexivity. Qed.

Lemma sapp_cons c (s t : string) : String c s +:+ t = String c (s +:+ t).
Proof. reflexivity. Qed.

Lemma sapp_nil_r (s : string) : s +:+ EmptyString = s.
Proof.
  induction s as [|c s IH]; [done|]. by rewrite sapp_cons, IH.
Qed.

Lemma sapp_assoc (a b c : string) : (a +:+ b) +:+ c = a +:+ (b +:+ c).
Proof.
  induction a as [|x a IH]; [done|]. by rewrite !sapp_cons, IH.
Qed.

Lemma dec_strs_enc_chars s rest cur :
  dec_strs (enc_chars s rest) cur = dec_strs rest (cur +:+ s).
Proof.
  revert cur. induction s as [|c s IH]; intros cur; simpl.
  - by rewrite sapp_nil_r.
  - rewrite IH. by rewrite sapp_assoc.
Qed.

Lemma dec_strs_enc_strs l : dec_strs (enc_strs l) EmptyString = Some l.
Proof.
  induction l as [|s l IH]; simpl; [done|].
  rewrite dec_strs_enc_chars. simpl. by rewrite IH.
Qed.

Lemma unflatten_flatten_items l : unflatten_items (flatten_items l) = Some l.
Proof.
  induction l as [|[k v] l IH]; simpl; [done|]. by rewrite IH.
Qed.

Lemma toy_unpackb_packb_array a :
  toy_unpackb_value (toy_packb_array a) = Ok (PArr a).
Proof.
  unfold toy_unpackb_value, toy_packb_array.
  rewrite dec_strs_enc_strs. destruct a as [dt sh da]; simpl.
  do 3 f_equal. rewrite <- list_fmap_compose.
  rewrite <- (list_fmap_id sh) at 2. apply list_fmap_ext.
  intros _ n _. simpl.
  assert (Hz : forall k, String.length (zeros k) = k)
    by (induction k; simpl; congruence).
  rewrite Hz. apply N2Nat.id.
Qed.

Lemma toy_unpackb_packb_dict m :
  toy_unpackb_dict (toy_packb_dict m) = Ok m.
Proof.
  unfold toy_unpackb_dict, toy_packb_dict.
  rewrite dec_strs_enc_strs. simpl. rewrite unflatten_flatten_items.
  by rewrite list_to_map_to_list.
Qed.

(** The toy format, NumPy-like coercion, and an engine that never runs out
    of space. *)
Definition toy_backend : Backend := {|
  packb_array := toy_packb_array;
  unpackb_value := toy_unpackb_value;
  packb_dict := toy_packb_dict;
  unpackb_dict := toy_unpackb_dict;
  np_array := toy_np_array;
  int_unicode := fun _ => None;
  map_full := fun _ _ _ _ _ => false;
  txn_commit := fun _ _ => None;
  unpackb_packb_array := toy_unpackb_packb_array;
  unpackb_packb_dict := toy_unpackb_packb_dict
|}.

(** An engine whose declared capacity is always exhausted. *)
Definition full_backend : Backend := {|
  packb_array := toy_packb_array;
  unpackb_value := toy_unpackb_value;
  packb_dict := toy_packb_dict;
  unpackb_dict := toy_unpackb_dict;
  np_array := toy_np_array;
  int_unicode := fun _ => None;
  map_full := fun _ _ _ _ _ => true;
  txn_commit := fun _ _ => None;
  unpackb_packb_array := toy_unpackb_packb_array;
  unpackb_packb_dict := toy_unpackb_packb_dict
|}.

(** An engine that takes every put and refuses every commit for lack of
    space. *)
Definition commit_full_backend : Backend := {|
  packb_array := toy_packb_array;
  unpackb_value := toy_unpackb_value;
  packb_dict := toy_packb_dict;
  unpackb_dict := toy_unpackb_dict;
  np_array := toy_np_array;
  int_unicode := fun _ => None;
  map_full := fun _ _ _ _ _ => false;
  txn_commit := fun _ _ => Some CommitMapFull;
  unpackb_packb_array := toy_unpackb_packb_array;
  unpackb_packb_dict := toy_unpackb_packb_dict
|}.

(* ===================================================================== *)
(** * Concrete stores                                                     *)
(* ===================================================================== *)

Definition ex_vector : ndarray :=
  {| dtype := "<f8"; shape := [2%N]; data := "0123456789abcdef" |}.

(** A zero-dimensional array. *)
Definition ex_scalar : ndarray :=
  {| dtype := "<i8"; shape := []; data := "12345678" |}.

Definition ex_a0 : gmap string pyobj := {[ "x" := PArr ex_vector ]}.
Definition ex_a1 : gmap string pyobj :=
  {[ "x" := PArr ex_vector; "y" := PArr ex_scalar ]}.
Definition ex_b0 : gmap string pyobj := {[ "z" := PArr ex_scalar ]}.

(** The handle that [Writer(dirpath, map_size_limit=1)] gives on a
    directory without a store. *)
Definition fresh_writer : writer :=
  {| w_env := empty_env; map_size_limit := 1; ram_gb_limit := 3 # 1;
     nb_samples := 0; db_stats := "create_stats" |}.

(** A handle with a budget of ten bytes per call. *)
Definition tight_writer : writer :=
  {| w_env := empty_env; map_size_limit := 1;
     ram_gb_limit := 10 # 1000000000;
     nb_samples := 0; db_stats := "create_stats" |}.

(** Store A: two samples and two metadata entries. *)
Definition ex_store_A : lmdb_env :=
  w_env
    (wbind (put_samples (B:=toy_backend) ex_a0) (fun _ =>
     wbind (put_samples (B:=toy_backend) ex_a1) (fun _ =>
     wbind (set_meta_str (B:=toy_backend) (KStr "origin") "A") (fun _ =>
     wbind (set_meta_str (B:=toy_backend) (KStr "note") "first") (fun _ =>
     Writer_close (B:=toy_backend))))) fresh_writer).2.

(** Store B: one sample and two metadata entries, one under a key of A. *)
Definition ex_store_B : lmdb_env :=
  w_env
    (wbind (put_samples (B:=toy_backend) ex_b0) (fun _ =>
     wbind (set_meta_str (B:=toy_backend) (KStr "origin") "B") (fun _ =>
     wbind (set_meta_str (B:=toy_backend) (KStr "extra") "second") (fun _ =>
     Writer_close (B:=toy_backend)))) fresh_writer).2.

(** The handle that [Writer(dirpath, map_size_limit=10)] gives on store
    A. *)
Definition ex_writer_A : writer :=
  {| w_env := ex_store_A; map_size_limit := 10; ram_gb_limit := 3 # 1;
     nb_samples := 2; db_stats := "auto_update_stats" |}.

Definition ex_reader_A : reader :=
  {| r_env := ex_store_A; r_nb_samples := 2 |}.

Definition ex_reader_B : reader :=
  {| r_env := ex_store_B; r_nb_samples := 1 |}.

Definition ex_merged : lmdb_env :=
  (merge_db (B:=toy_backend) empty_env ex_store_A ex_store_B 10).2.

Definition ex_reader_merged : reader :=
  {| r_env := ex_merged; r_nb_samples := 3 |}.

(** A store whose count entry is not a number, and a store with a
    metadata key that is not UTF-8. *)
Definition ex_store_bad_count : lmdb_env :=
  {| data_db := ∅; meta_db := {[ "nb_samples" := "two" ]} |}.

Definition ex_store_bad_key : lmdb_env :=
  {| data_db := ∅;
     meta_db := {[ String (ascii_of_nat 255) "" := "x" ]} |}.

(** An array of three bytes, and a handle whose limit is the [float]
    [3e-9], three bytes counted in gigabytes. *)
Definition ex_bytes3 : ndarray :=
  {| dtype := "|u1"; shape := [3%N]; data := "abc" |}.

Definition rounding_writer : writer :=
  {| w_env := empty_env; map_size_limit := 1;
     ram_gb_limit := 7253554917687775 # 2417851639229258349412352;
     nb_samples := 0; db_stats := "create_stats" |}.

(** The answer "yes" with a no-break space before it and upper case. *)
Definition ex_answer_nbsp : string :=
  String (ascii_of_nat 194) (String (ascii_of_nat 160) "YES ").

(** A store whose count entry is a negative number. *)
Definition ex_store_negative_count : lmdb_env :=
  {| data_db := ∅; meta_db := {[ "nb_samples" := "-1" ]} |}.

(** A second merge of A and B, into the store that holds the first. *)
Definition ex_merged_again : lmdb_env :=
  (merge_db (B:=toy_backend) ex_merged ex_store_A ex_store_B 10).2.

(* ===================================================================== *)
(** * Decimal rendering and the keys of the data namespace                *)
(* ===================================================================== *)

Lemma code_digit d : 0 <= d <= 9 -> code (digit d) = 48 + d.
Proof.
  intros Hd. unfold code, digit.
  rewrite N_ascii_embedding by lia. lia.
Qed.

Lemma is_digit_digit d : 0 <= d <= 9 -> is_digit (digit d) = true.
Proof.
  intros Hd. unfold is_digit. rewrite code_digit by done.
  apply andb_true_intro. split; apply Z.leb_le; lia.
Qed.

Lemma digit_val_digit d : 0 <= d <= 9 -> digit_val (digit d) = d.
Proof. intros Hd. unfold digit_val. rewrite code_digit by done. lia. Qed.

Lemma pow10_pos (w : nat) : 0 < 10 ^ Z.of_nat w.
Proof. apply Z.pow_pos_nonneg; lia. Qed.

Lemma pow10_succ (w : nat) : 10 ^ Z.of_nat (S w) = 10 * 10 ^ Z.of_nat w.
Proof. rewrite Nat2Z.inj_succ, Z.pow_succ_r; lia. Qed.

Lemma pow10_mono (v w : nat) :
  (v <= w)%nat -> 10 ^ Z.of_nat v <= 10 ^ Z.of_nat w.
Proof. intros H. apply Z.pow_le_mono_r; lia. Qed.

(** Leading digit and remainder of a number below [10 ^ (w + 1)]. *)
Lemma split_digit (w : nat) n :
  0 <= n < 10 ^ Z.of_nat (S w) ->
  0 <= n / 10 ^ Z.of_nat w <= 9 /\
  0 <= n mod 10 ^ Z.of_nat w < 10 ^ Z.of_nat w /\
  n = 10 ^ Z.of_nat w * (n / 10 ^ Z.of_nat w) + n mod 10 ^ Z.of_nat w.
Proof.
  intros [H0 H1]. rewrite pow10_succ in H1.
  pose proof (pow10_pos w) as Hp.
  pose proof (Z.div_mod n (10 ^ Z.of_nat w) ltac:(lia)) as Hdm.
  pose proof (Z.mod_pos_bound n (10 ^ Z.of_nat w) Hp) as Hm.
  assert (0 <= n / 10 ^ Z.of_nat w) by (apply Z.div_pos; lia).
  assert (n / 10 ^ Z.of_nat w < 10)
    by (apply Z.div_lt_upper_bound; lia).
  lia.
Qed.

Lemma length_fixed_digits w n : String.length (fixed_digits w n) = w.
Proof. revert n. induction w as [|w IH]; intros n; simpl; congruence. Qed.

Lemma all_digits_fixed_digits w n :
  0 <= n < 10 ^ Z.of_nat w -> all_chars is_digit (fixed_digits w n) = true.
Proof.
  revert n. induction w as [|w IH]; intros n Hn; [done|].
  destruct (split_digit w n Hn) as (Hd & Hm & _).
  cbn [fixed_digits all_chars]. by rewrite is_digit_digit, IH.
Qed.

Lemma int_digits_fixed_digits w n acc b :
  0 <= n < 10 ^ Z.of_nat w -> b = true \/ w <> O ->
  int_digits (fixed_digits w n) acc b = Some (acc * 10 ^ Z.of_nat w + n).
Proof.
  revert n acc b. induction w as [|w IH]; intros n acc b Hn Hb.
  - destruct Hb as [->|]; [|done]. simpl in *. f_equal. lia.
  - destruct (split_digit w n Hn) as (Hd & Hm & Heq).
    cbn [fixed_digits int_digits].
    rewrite is_digit_digit, digit_val_digit by done.
    rewrite IH by auto. f_equal. rewrite pow10_succ. lia.
Qed.

Lemma ndigits_go_spec fuel n :
  0 <= n < 2 ^ Z.of_nat fuel ->
  (1 <= ndigits_go fuel n)%nat /\
  n < 10 ^ Z.of_nat (ndigits_go fuel n) /\
  forall w : nat, (1 <= w)%nat -> n < 10 ^ Z.of_nat w ->
                  (ndigits_go fuel n <= w)%nat.
Proof.
  revert n. induction fuel as [|fuel IH]; intros n Hn.
  - simpl in *. repeat split; [lia..|]. intros w Hw _. lia.
  - cbn [ndigits_go]. destruct (Z.ltb_spec n 10) as [Hlt|Hge].
    + repeat split; [lia..|]. intros w Hw _. lia.
    + assert (Hq : 0 <= n / 10 < 2 ^ Z.of_nat fuel).
      { split; [apply Z.div_pos; lia|].
        apply Z.div_lt_upper_bound; [lia|].
        rewrite Nat2Z.inj_succ, Z.pow_succ_r in Hn; lia. }
      destruct (IH _ Hq) as (H1 & H2 & H3).
      pose proof (Z.div_mod n 10 ltac:(lia)) as Hdm.
      pose proof (Z.mod_pos_bound n 10 ltac:(lia)) as Hm.
      repeat split; [lia| |].
      * rewrite pow10_succ. lia.
      * intros [|w] Hw Hnw; [lia|].
        apply le_n_S. destruct w as [|w]; [simpl in Hnw; lia|].
        apply H3; [lia|]. rewrite pow10_succ in Hnw.
        apply Z.div_lt_upper_bound; lia.
Qed.

Lemma ndigits_spec n :
  0 <= n ->
  (1 <= ndigits n)%nat /\
  n < 10 ^ Z.of_nat (ndigits n) /\
  forall w : nat, (1 <= w)%nat -> n < 10 ^ Z.of_nat w -> (ndigits n <= w)%nat.
Proof.
  intros Hn. apply ndigits_go_spec. split; [done|].
  rewrite Nat2Z.inj_succ, Z2Nat.id by apply Z.log2_nonneg.
  destruct (Z.eq_dec n 0) as [->|Hne]; [done|].
  apply Z.log2_spec. lia.
Qed.

Lemma fixed_digits_pad k w n :
  0 <= n < 10 ^ Z.of_nat w ->
  fixed_digits (k + w) n = zeros k +:+ fixed_digits w n.
Proof.
  intros Hn. induction k as [|k IH]; [done|].
  cbn [Nat.add fixed_digits zeros]. rewrite sapp_cons, <- IH.
  pose proof (pow10_mono w (k + w) ltac:(lia)) as Hle.
  rewrite Z.div_small, Z.mod_small by lia. done.
Qed.

Lemma format_010_nonneg i :
  0 <= i -> format_010 i = fixed_digits (Nat.max 10 (ndigits i)) i.
Proof.
  intros Hi. unfold format_010.
  destruct (Z.ltb_spec i 0) as [|_]; [lia|].
  rewrite Z.abs_eq by done. unfold decimal.
  rewrite length_fixed_digits.
  destruct (ndigits_spec i Hi) as (H1 & H2 & H3).
  rewrite <- fixed_digits_pad by lia. f_equal. lia.
Qed.

Lemma format_010_in_range i :
  0 <= i < 10 ^ 10 -> format_010 i = fixed_digits 10 i.
Proof.
  intros [H0 H1]. rewrite format_010_nonneg by done.
  destruct (ndigits_spec i H0) as (_ & _ & H3).
  specialize (H3 10%nat ltac:(lia) H1). f_equal. lia.
Qed.

Lemma int_digits_format_010 i :
  0 <= i -> int_digits (format_010 i) 0 false = Some i.
Proof.
  intros Hi. rewrite format_010_nonneg by done.
  destruct (ndigits_spec i Hi) as (H1 & H2 & _).
  rewrite int_digits_fixed_digits; [f_equal; lia| |right; lia].
  split; [done|].
  eapply Z.lt_le_trans; [exact H2|]. apply pow10_mono. lia.
Qed.

(** The key encoding is injective on all non-negative indices, also above
    the ten-digit range. *)
Lemma sample_key_inj i j :
  0 <= i -> 0 <= j -> sample_key i = sample_key j -> i = j.
Proof.
  unfold sample_key, encode_str. intros Hi Hj Heq.
  pose proof (int_digits_format_010 i Hi) as H1.
  pose proof (int_digits_format_010 j Hj) as H2.
  rewrite Heq in H1. congruence.
Qed.

Lemma key_compare_fixed_digits w i j :
  0 <= i -> i < j -> j < 10 ^ Z.of_nat w ->
  key_compare (fixed_digits w i) (fixed_digits w j) = Lt.
Proof.
  revert i j. induction w as [|w IH]; intros i j Hi Hij Hj.
  - simpl in Hj. lia.
  - destruct (split_digit w i ltac:(lia)) as (Hdi & Hmi & Hei).
    destruct (split_digit w j ltac:(lia)) as (Hdj & Hmj & Hej).
    cbn [fixed_digits key_compare]. rewrite !code_digit by done.
    pose proof (pow10_pos w) as Hp.
    destruct (Z.compare_spec (48 + i / 10 ^ Z.of_nat w)
                             (48 + j / 10 ^ Z.of_nat w)) as [He|Hl|Hg].
    + apply IH; [lia| |lia].
      assert (Hq : i / 10 ^ Z.of_nat w = j / 10 ^ Z.of_nat w) by lia.
      rewrite Hq in Hei. lia.
    + done.
    + exfalso.
      assert (i / 10 ^ Z.of_nat w <= j / 10 ^ Z.of_nat w)
        by (apply Z.div_le_mono; lia).
      lia.
Qed.

(** C9. For sample indices [0 <= i < j < 10^10] the data-namespace keys
    have exactly ten characters, all of them ASCII decimal digits; the
    encoding is injective on that range; and the key of [i] is strictly
    below the key of [j] in the byte order of the store, so that key order
    is index order. *)
Theorem sample_key_fixed_width_ordered (i j : Z) :
  0 <= i -> i < j -> j < 10 ^ 10 ->
  String.length (sample_key i) = 10%nat /\
  String.length (sample_key j) = 10%nat /\
  all_chars is_digit (sample_key i) = true /\
  all_chars is_digit (sample_key j) = true /\
  (forall a b, 0 <= a < 10 ^ 10 -> 0 <= b < 10 ^ 10 ->
               sample_key a = sample_key b -> a = b) /\
  sample_key i <> sample_key j /\
  key_compare (sample_key i) (sample_key j) = Lt.
Proof.
  intros Hi Hij Hj. unfold sample_key, encode_str.
  rewrite !format_010_in_range by lia.
  rewrite !length_fixed_digits.
  rewrite !all_digits_fixed_digits by (change (Z.of_nat 10) with 10; lia).
  repeat split.
  - intros a b Ha Hb Heq.
    apply sample_key_inj; [lia..|]. exact Heq.
  - intros Heq.
    assert (i = j); [|lia].
    apply sample_key_inj; [lia..|]. unfold sample_key, encode_str.
    rewrite !format_010_in_range by lia. exact Heq.
  - apply key_compare_fixed_digits; [lia..|].
    change (Z.of_nat 10) with 10. lia.
Qed.

Lemma sample_key_fixed_width_ordered_witness :
  String.length (sample_key 3) = 10%nat /\
  String.length (sample_key 42) = 10%nat /\
  all_chars is_digit (sample_key 3) = true /\
  all_chars is_digit (sample_key 42) = true /\
  (forall a b, 0 <= a < 10 ^ 10 -> 0 <= b < 10 ^ 10 ->
               sample_key a = sample_key b -> a = b) /\
  sample_key 3 <> sample_key 42 /\
  key_compare (sample_key 3) (sample_key 42) = Lt.
Proof.
  apply (sample_key_fixed_width_ordered 3 42); lia.
Defined.

(* ===================================================================== *)
(** * Reading back a stored count                                         *)
(* ===================================================================== *)

Section Counts.
Context `{B : Backend}.

Lemma utf8_valid_ascii s : all_chars is_ascii s = true -> utf8_valid s = true.
Proof.
  induction s as [|c s IH]; [done|]. cbn [all_chars utf8_valid].
  intros [Hc Hs]%andb_prop. unfold is_ascii in Hc. rewrite Hc. auto.
Qed.

Lemma all_chars_impl (p q : ascii -> bool) s :
  (forall c, p c = true -> q c = true) ->
  all_chars p s = true -> all_chars q s = true.
Proof.
  intros Hpq. induction s as [|c s IH]; [done|]. cbn [all_chars].
  intros [Hc Hs]%andb_prop. by rewrite (Hpq _ Hc), IH.
Qed.

Lemma is_digit_code c : is_digit c = true -> 48 <= code c <= 57.
Proof. unfold is_digit. intros [?%Z.leb_le ?%Z.leb_le]%andb_prop. lia. Qed.

Lemma is_digit_ascii c : is_digit c = true -> is_ascii c = true.
Proof. intros H%is_digit_code. apply Z.leb_le. lia. Qed.

Lemma is_digit_not_space c : is_digit c = true -> is_space c = false.
Proof.
  intros H%is_digit_code. unfold is_space. cbv zeta.
  apply orb_false_intro.
  - apply andb_false_iff. right. apply Z.leb_gt. lia.
  - apply Z.eqb_neq. lia.
Qed.

Lemma code_eqb_false c d : code c <> code d -> Ascii.eqb c d = false.
Proof. intros H. apply Ascii.eqb_neq. congruence. Qed.

Lemma rstrip_no_space s :
  all_chars (fun c => negb (is_space c)) s = true -> rstrip s = s.
Proof.
  induction s as [|c s IH]; [done|]. cbn [all_chars rstrip].
  intros [Hc Hs]%andb_prop. rewrite (IH Hs).
  apply negb_true_iff in Hc. rewrite Hc. by destruct s.
Qed.

Lemma int_strip_no_space s :
  all_chars (fun c => negb (is_space c)) s = true -> int_strip s = s.
Proof.
  intros H. unfold int_strip.
  assert (Hl : lstrip s = s).
  { destruct s as [|c s]; [done|]. cbn [all_chars lstrip] in *.
    apply andb_prop in H as [Hc%negb_true_iff _]. by rewrite Hc. }
  rewrite Hl. by apply rstrip_no_space.
Qed.

Lemma decimal_digits n : 0 <= n -> all_chars is_digit (decimal n) = true.
Proof.
  intros Hn. destruct (ndigits_spec n Hn) as (_ & H & _).
  by apply all_digits_fixed_digits.
Qed.

Lemma int_digits_decimal n :
  0 <= n -> int_digits (decimal n) 0 false = Some n.
Proof.
  intros Hn. destruct (ndigits_spec n Hn) as (H1 & H2 & _).
  unfold decimal. rewrite int_digits_fixed_digits; [f_equal; lia|done|].
  right. lia.
Qed.

Lemma decimal_head n :
  0 <= n -> exists c r, decimal n = String c r /\ is_digit c = true.
Proof.
  intros Hn. pose proof (decimal_digits n Hn) as Hd.
  destruct (ndigits_spec n Hn) as (H1 & _ & _). unfold decimal in *.
  destruct (ndigits n) as [|w]; [lia|]. cbn [fixed_digits all_chars] in *.
  apply andb_prop in Hd as [Hc _]. eauto.
Qed.

Lemma py_str_int_ascii n : all_chars is_ascii (py_str_int n) = true.
Proof.
  unfold py_str_int. destruct (Z.ltb_spec n 0).
  - cbn [all_chars]. apply andb_true_intro. split; [done|].
    eapply all_chars_impl; [apply is_digit_ascii|]. apply decimal_digits. lia.
  - eapply all_chars_impl; [apply is_digit_ascii|]. by apply decimal_digits.
Qed.

(** [int(str(n)) == n] *)
Lemma py_int_py_str_int n : py_int (py_str_int n) = Ok n.
Proof.
  unfold py_int. rewrite py_str_int_ascii.
  unfold py_str_int. destruct (Z.ltb_spec n 0) as [Hneg|Hpos].
  - assert (Ha : 0 <= Z.abs n) by lia.
    rewrite int_strip_no_space.
    + replace (Ascii.eqb "-" "+") with false by done.
      replace (Ascii.eqb "-" "-") with true by done.
      rewrite int_digits_decimal by done. simpl. f_equal. lia.
    + cbn [all_chars]. apply andb_true_intro. split; [done|].
      eapply all_chars_impl; [|by apply decimal_digits].
      intros c Hc. by rewrite is_digit_not_space.
  - rewrite int_strip_no_space.
    + destruct (decimal_head n Hpos) as (c & r & Heq & Hc).
      pose proof (int_digits_decimal n Hpos) as Hv. rewrite Heq in *.
      apply is_digit_code in Hc.
      rewrite !code_eqb_false by (unfold code at 2; simpl; lia).
      by rewrite Hv.
    + eapply all_chars_impl; [|by apply decimal_digits].
      intros c Hc. by rewrite is_digit_not_space.
Qed.

Lemma decode_str_py_str_int n : decode_str (py_str_int n) = Ok (py_str_int n).
Proof.
  unfold decode_str. by rewrite utf8_valid_ascii by apply py_str_int_ascii.
Qed.

Lemma py_str_int_nonempty n : py_str_int n <> EmptyString.
Proof.
  unfold py_str_int. destruct (Z.ltb_spec n 0); [done|].
  destruct (decimal_head n) as (c & r & -> & _); done.
Qed.

(** [int] raises nothing but [ValueError]. *)
Lemma py_int_raises s e : py_int s = Raise e -> exists why, e = ValueError why.
Proof.
  unfold py_int. cbv zeta.
  destruct (if all_chars is_ascii s then _ else _); [done|].
  intros [= <-]. eauto.
Qed.

Lemma decode_str_raises b e :
  decode_str b = Raise e -> e = ValueError UnicodeDecode.
Proof. unfold decode_str. destruct (utf8_valid b); congruence. Qed.

Lemma decode_str_Ok b s : decode_str b = Ok s -> s = b.
Proof. unfold decode_str. destruct (utf8_valid b); congruence. Qed.

(* ===================================================================== *)
(** * Metadata lookups and the length of an empty store                   *)
(* ===================================================================== *)

(** The count lookup of [Reader.__init__] and [Writer.close]: the count
    key is not empty, so the engine takes it. *)
Lemma get_meta_str_count (e : lmdb_env) :
  get_meta_str e (KStr NB_SAMPLES)
  = match meta_db e !! NB_SAMPLES with
    | Some _k => decode_str _k
    | None => Ok str_None
    end.
Proof. reflexivity. Qed.

Lemma get_meta_str_nonempty (e : lmdb_env) key :
  key_bytes key <> "" ->
  get_meta_str e key
  = match meta_db e !! key_bytes key with
    | Some _k => decode_str _k
    | None => Ok str_None
    end.
Proof.
  intros Hk%String.eqb_neq. unfold get_meta_str. cbv zeta. by rewrite Hk.
Qed.

Lemma get_meta_str_Ok (e : lmdb_env) key s :
  get_meta_str e key = Ok s -> key_bytes key <> "".
Proof.
  unfold get_meta_str. cbv zeta.
  destruct (String.eqb_spec (key_bytes key) ""); done.
Qed.

(** C10, as the code has it. For a metadata key that is not empty and is
    absent from the store, [Reader.get_meta_str] does not raise: it
    returns the four-character string ["None"], which is also what it
    returns for a key whose stored value is the string ["None"]; the two
    stores cannot be told apart through this method. *)
Theorem get_meta_str_absent (e e' : lmdb_env) (key : py_key) :
  key_bytes key <> "" ->
  meta_db e !! key_bytes key = None ->
  meta_db e' !! key_bytes key = Some "None" ->
  get_meta_str e key = Ok "None" /\
  String.length "None" = 4%nat /\
  get_meta_str e' key = get_meta_str e key.
Proof.
  intros Hk Habs Hnone. rewrite !get_meta_str_nonempty by done.
  by rewrite Habs, Hnone.
Qed.

(** X9. Opening a [Reader] never raises, whatever the store holds. *)
Lemma Reader_init_total (e : lmdb_env) : exists r, Reader_init e = Ok r.
Proof.
  unfold Reader_init. rewrite get_meta_str_count.
  destruct (meta_db e !! NB_SAMPLES) as [v|]; [|simpl; eauto].
  destruct (decode_str v) as [s|err] eqn:Hd.
  - cbn [rbind]. destruct (py_int s) as [n|err] eqn:Hi; [simpl; eauto|].
    destruct (py_int_raises _ _ Hi) as [why ->]. simpl. eauto.
  - rewrite (decode_str_raises _ _ Hd). simpl. eauto.
Qed.

Lemma Reader_init_env (e : lmdb_env) r :
  Reader_init e = Ok r -> r_env r = e.
Proof.
  unfold Reader_init. destruct (except_ValueError _ _) as [n|]; [|done].
  by intros [= <-].
Qed.


Lemma lstrip_split s :
  exists ws, s = ws +:+ lstrip s /\ all_chars is_space ws = true.
Proof.
  induction s as [|c s (ws & Hs & Hws)]; [by exists ""|]. cbn [lstrip].
  destruct (is_space c) eqn:Hc.
  - exists (String c ws). rewrite sapp_cons, <- Hs. split; [done|].
    cbn [all_chars]. by rewrite Hc.
  - by exists "".
Qed.

Lemma rstrip_split s :
  exists ws, s = rstrip s +:+ ws /\ all_chars is_space ws = true.
Proof.
  induction s as [|c s (ws & Hs & Hws)]; [by exists ""|]. cbn [rstrip].
  destruct (rstrip s) as [|c' r'] eqn:Hr.
  - rewrite sapp_nil_l in Hs. subst s. destruct (is_space c) eqn:Hc.
    + exists (String c ws). split; [done|]. cbn [all_chars]. by rewrite Hc.
    + exists ws. by rewrite sapp_cons, sapp_nil_l.
  - exists ws. split; [|done]. rewrite sapp_cons. by rewrite <- Hs.
Qed.

(** What [int_digits] accepts is made of digits and single underscores
    between them. *)
Lemma int_digits_body s :
  (forall acc z, int_digits s acc false = Some z -> digits_body s) /\
  (forall acc z, int_digits s acc true = Some z ->
     s = "" \/ digits_body s \/
     exists r, s = String "_" r /\ digits_body r).
Proof.
  induction s as [|c s [IHf IHt]]; [split; [done|by left]|].
  assert (Hdigit : forall acc z,
            is_digit c = true ->
            int_digits s acc true = Some z -> digits_body (String c s)).
  { intros acc z Hc Hs. destruct (IHt _ _ Hs) as [->|[Hb|(r & -> & Hb)]].
    - by apply body_last.
    - by apply body_digit.
    - by apply body_underscore. }
  split; intros acc z; cbn [int_digits].
  - destruct (is_digit c) eqn:Hc.
    + intros Hs. by apply (Hdigit _ z eq_refl Hs).
    + by destruct (Ascii.eqb c "_").
  - destruct (is_digit c) eqn:Hc.
    + intros Hs. right. left. by apply (Hdigit _ z eq_refl Hs).
    + destruct (Ascii.eqb_spec c "_") as [->|]; [|done].
      intros Hs. right. right. exists s. split; [done|].
      exact (IHf _ _ Hs).
Qed.

(** An ASCII string that [int] reads is an integer literal. *)
Lemma py_int_literal s z :
  all_chars is_ascii s = true -> py_int s = Ok z -> int_literal s.
Proof.
  intros Ha. unfold py_int. rewrite Ha. unfold int_strip.
  destruct (lstrip_split s) as (ws1 & Hs1 & Hws1).
  destruct (rstrip_split (lstrip s)) as (ws2 & Hs2 & Hws2).
  rewrite Hs2 in Hs1. clear Hs2.
  assert (Hlit : forall sign body,
            rstrip (lstrip s) = sign +:+ body ->
            sign = "" \/ sign = "+" \/ sign = "-" ->
            digits_body body -> int_literal s).
  { intros sign body Hcore Hsign Hbody. exists ws1, sign, body, ws2.
    split_and!; [|done..]. rewrite Hs1, Hcore. by rewrite sapp_assoc. }
  destruct (rstrip (lstrip s)) as [|c r] eqn:Hcore; [done|].
  destruct (Ascii.eqb_spec c "+") as [->|Hplus].
  { destruct (int_digits r 0 false) as [v|] eqn:Hv; [|done]. intros _.
    apply (Hlit "+" r); [done|tauto|]. by apply (int_digits_body r) in Hv. }
  destruct (Ascii.eqb_spec c "-") as [->|Hminus].
  { destruct (int_digits r 0 false) as [v|] eqn:Hv; [|done]. intros _.
    apply (Hlit "-" r); [done|tauto|]. by apply (int_digits_body r) in Hv. }
  destruct (int_digits (String c r) 0 false) as [v|] eqn:Hv; [|done].
  intros _. apply (Hlit "" (String c r)); [done|tauto|].
  by apply (int_digits_body (String c r)) in Hv.
Qed.



End Counts.

(* ===================================================================== *)
(** * The write path                                                      *)
(* ===================================================================== *)

Section WritePath.
Context `{B : Backend}.

Lemma pack_items_cons k v items msg_pkgs :
  pack_items ((k, v) :: items) msg_pkgs
  = pack_items items (<[k := packb_array (as_ndarray v)]> msg_pkgs).
Proof. reflexivity. Qed.

Lemma pack_items_lookup items msg_pkgs k :
  NoDup items.*1 ->
  pack_items items msg_pkgs !! k =
    match (list_to_map items : gmap string pyobj) !! k with
    | Some v => Some (packb_array (as_ndarray v))
    | None => msg_pkgs !! k
    end.
Proof.
  revert msg_pkgs. induction items as [|[k0 v0] items IH]; intros msg Hnd.
  - cbn [list_to_map foldr pack_items foldl]. by rewrite lookup_empty.
  - apply NoDup_cons in Hnd as [Hk0 Hnd].
    rewrite pack_items_cons, IH by done.
    cbn [list_to_map foldr fst snd].
    destruct (decide (k = k0)) as [->|Hne].
    + rewrite lookup_insert_eq.
      rewrite (not_elem_of_list_to_map_1 (M:=gmap string)) by done.
      by rewrite lookup_insert_eq.
    + rewrite !(lookup_insert_ne _ k0 k) by done. done.
Qed.

Lemma pack_items_map_to_list samples :
  pack_items (map_to_list samples) ∅ = packed_fields samples.
Proof.
  apply map_eq. intros k.
  rewrite pack_items_lookup by apply NoDup_fst_map_to_list.
  rewrite list_to_map_to_list. unfold packed_fields.
  rewrite lookup_fmap, lookup_empty. by destruct (samples !! k).
Qed.

(** What the transaction holds when the loop has run to its end: nothing
    new for an empty mapping, and otherwise the package of all fields under
    the key of [num_id]. *)
Lemma write_fields_Ok size num_id items msg_pkgs txn txn' :
  write_fields size num_id items msg_pkgs txn = Ok txn' ->
  txn' = match items with
         | [] => txn
         | _ => txn_put DATA_DB (sample_key num_id)
                  (packb_dict (pack_items items msg_pkgs)) txn
         end.
Proof.
  revert msg_pkgs txn. induction items as [|[k v] items IH]; intros msg txn.
  - by intros [= <-].
  - cbn [write_fields]. cbv zeta.
    destruct (map_full _ _ _ _ _); [done|]. intros Hw%IH.
    rewrite Hw. destruct items as [|kv items]; [done|].
    unfold txn_put. cbn [data_db meta_db]. by rewrite insert_insert_eq.
Qed.

Lemma write_fields_raises size num_id items msg_pkgs txn e :
  write_fields size num_id items msg_pkgs txn = Raise e -> e = MapFullError.
Proof.
  revert msg_pkgs txn. induction items as [|[k v] items IH]; intros msg txn.
  - done.
  - cbn [write_fields]. cbv zeta.
    destruct (map_full _ _ _ _ _); [congruence|]. apply IH.
Qed.

Lemma payload_bytes_Ok items acc total :
  payload_bytes items acc = Ok total ->
  forall k v, (k, v) ∈ items -> is_ndarray v = true.
Proof.
  revert acc. induction items as [|[k0 v0] items IH]; intros acc Hp k v Hin.
  - by apply elem_of_nil in Hin.
  - cbn [payload_bytes] in Hp. apply elem_of_cons in Hin as [[= -> ->]|Hin].
    + by destruct v0.
    + destruct v0; try done. eauto.
Qed.

Lemma payload_bytes_raises items acc e :
  payload_bytes items acc = Raise e -> e = ValueError UnsupportedDataType.
Proof.
  revert acc. induction items as [|[k0 v0] items IH]; intros acc; [done|].
  cbn [payload_bytes]. destruct v0; try congruence. apply IH.
Qed.

Lemma payload_bytes_non_array items acc k v :
  (k, v) ∈ items -> is_ndarray v = false ->
  payload_bytes items acc = Raise (ValueError UnsupportedDataType).
Proof.
  intros Hin Hv. destruct (payload_bytes items acc) as [t|e] eqn:Hp.
  - rewrite (payload_bytes_Ok _ _ _ Hp k v Hin) in Hv. done.
  - by rewrite (payload_bytes_raises _ _ _ Hp).
Qed.

Lemma payload_bytes_all_arrays samples acc total :
  payload_bytes (map_to_list samples) acc = Ok total -> all_arrays samples.
Proof.
  intros Hp k v Hkv. eapply payload_bytes_Ok; [exact Hp|].
  by apply elem_of_map_to_list.
Qed.

Lemma write_fields_samples size num_id samples txn txn' :
  write_fields size num_id (map_to_list samples) ∅ txn = Ok txn' ->
  txn' = {| data_db := if decide (samples = ∅) then data_db txn
                       else <[sample_key num_id := pack_sample samples]>
                              (data_db txn);
            meta_db := meta_db txn |}.
Proof.
  intros Hw%write_fields_Ok. subst txn'.
  destruct (decide (samples = ∅)) as [->|Hne].
  - rewrite map_to_list_empty. by destruct txn.
  - destruct (map_to_list samples) as [|kv items] eqn:Hl.
    + by apply map_to_list_empty_iff in Hl.
    + rewrite <- Hl, pack_items_map_to_list. done.
Qed.

(** [set_meta_str] either writes the entry, or raises and leaves the
    handle as it was. *)
Lemma set_meta_str_Ok key v w w' :
  set_meta_str key v w = (Ok tt, w') ->
  key_bytes key <> "" /\
  w' = with_env w (txn_put META_DB (key_bytes key) (encode_str v) (w_env w)).
Proof.
  unfold set_meta_str. cbv zeta.
  destruct (String.eqb_spec (key_bytes key) ""); [done|].
  destruct (map_full _ _ _ _ _); [done|].
  destruct (txn_commit _ _); [done|]. by intros [= <-].
Qed.

Lemma set_meta_str_raises key v w w' e :
  set_meta_str key v w = (Raise e, w') ->
  w' = w /\
  (e = BadValsizeError /\ key_bytes key = "" \/
   key_bytes key <> "" /\ (e = MapFullError \/ e = LmdbError)).
Proof.
  unfold set_meta_str. cbv zeta.
  destruct (String.eqb_spec (key_bytes key) "") as [Hk|Hk].
  { intros [= <- <-]. split; [done|]. by left. }
  destruct (map_full _ _ _ _ _).
  { intros [= <- <-]. split; [done|]. right. split; [done|]. by left. }
  destruct (txn_commit _ _) as [[]|]; [| |done].
  - intros [= <- <-]. split; [done|]. right. split; [done|]. by left.
  - intros [= <- <-]. split; [done|]. right. split; [done|]. by right.
Qed.

(** [set_meta_str] changes nothing but the store. *)
Lemma set_meta_str_env key v w :
  (set_meta_str key v w).2 = w \/
  (set_meta_str key v w).2
  = with_env w (txn_put META_DB (key_bytes key) (encode_str v) (w_env w)).
Proof.
  destruct (set_meta_str key v w) as [[[]|e] w'] eqn:Hs.
  - right. by apply set_meta_str_Ok in Hs as [_ ->].
  - left. by apply set_meta_str_raises in Hs as [-> _].
Qed.

Lemma put_samples_Ok samples w w' :
  put_samples samples w = (Ok tt, w') ->
  all_arrays samples /\ w' = after_put samples w.
Proof.
  unfold put_samples.
  destruct (payload_bytes _ _) as [total|e] eqn:Hp; [|congruence].
  destruct (Qltb _ _); [congruence|].
  destruct (write_fields _ _ _ _ _) as [txn|e] eqn:Hw.
  - apply write_fields_samples in Hw.
    destruct (txn_commit _ _) as [[]|]; [done..|]. cbv zeta.
    intros [_ ->]%set_meta_str_Ok.
    split; [by eapply payload_bytes_all_arrays|]. subst txn. done.
  - rewrite (write_fields_raises _ _ _ _ _ _ Hw). congruence.
Qed.


End WritePath.

(* ===================================================================== *)
(** * The read path                                                       *)
(* ===================================================================== *)

Section ReadPath.
Context `{B : Backend}.

Lemma decode_fields_lookup items obj0 :
  NoDup items.*1 ->
  (forall k b, (k, b) ∈ items -> exists v, unpackb_value b = Ok v) ->
  exists obj,
    decode_fields items obj0 = Ok obj /\
    forall k,
      obj !! k =
        match (list_to_map items : gmap string string) !! k with
        | Some b => match unpackb_value b with
                    | Ok v => Some v
                    | Raise _ => None
                    end
        | None => obj0 !! k
        end.
Proof.
  revert obj0. induction items as [|[k0 b0] items IH]; intros obj0 Hnd Hun.
  - exists obj0. split; [done|]. intros k.
    cbn [list_to_map foldr]. by rewrite lookup_empty.
  - apply NoDup_cons in Hnd as [Hk0 Hnd].
    destruct (Hun k0 b0) as [v0 Hv0]; [left|].
    cbn [decode_fields]. rewrite Hv0. cbn [rbind].
    destruct (IH (<[k0 := v0]> obj0) Hnd) as (obj & Hobj & Hlook).
    { intros k b Hin. apply (Hun k b). by right. }
    exists obj. split; [done|]. intros k. rewrite Hlook.
    cbn [list_to_map foldr fst snd].
    destruct (decide (k = k0)) as [->|Hne].
    + rewrite (not_elem_of_list_to_map_1 (M:=gmap string)) by done.
      by rewrite !lookup_insert_eq, Hv0.
    + by rewrite !(lookup_insert_ne _ k0 k) by done.
Qed.

(** Decoding the stored form of a mapping of arrays gives the mapping
    back. *)
Lemma decode_fields_packed samples :
  all_arrays samples ->
  decode_fields (map_to_list (packed_fields samples)) ∅ = Ok samples.
Proof.
  intros Harr.
  destruct (decode_fields_lookup (map_to_list (packed_fields samples)) ∅)
    as (obj & Hobj & Hlook).
  - apply NoDup_fst_map_to_list.
  - intros k b Hin%elem_of_map_to_list. unfold packed_fields in Hin.
    apply lookup_fmap_Some in Hin as (v & <- & _).
    rewrite unpackb_packb_array. eauto.
  - rewrite Hobj. f_equal. apply map_eq. intros k. rewrite Hlook.
    rewrite list_to_map_to_list. unfold packed_fields.
    rewrite lookup_fmap, lookup_empty.
    destruct (samples !! k) as [v|] eqn:Hk; [|done].
    cbn [fmap option_fmap option_map].
    rewrite unpackb_packb_array. specialize (Harr k v Hk).
    by destruct v.
Qed.

(** An in-range index whose entry is the stored form of a mapping of arrays
    reads back as that mapping. *)
Lemma get_sample_stored (r : reader) i samples :
  0 <= i < r_nb_samples r ->
  data_db (r_env r) !! sample_key i = Some (pack_sample samples) ->
  all_arrays samples ->
  get_sample r i = Ok samples.
Proof.
  intros Hi Hlook Harr. unfold get_sample.
  replace ((0 >? i) || (r_nb_samples r <=? i)) with false.
  2:{ symmetry. apply orb_false_intro; [rewrite Z.gtb_ltb; apply Z.ltb_ge|
      apply Z.leb_gt]; lia. }
  cbv zeta. rewrite Hlook. unfold pack_sample.
  rewrite unpackb_packb_dict. cbn [rbind]. by apply decode_fields_packed.
Qed.

(** What [get_sample] returns from a store of stored samples is a mapping
    of arrays with at least one field. *)
Lemma get_sample_stored_samples (r : reader) i samples :
  stored_samples (r_env r) ->
  get_sample r i = Ok samples ->
  samples <> ∅ /\ all_arrays samples.
Proof.
  intros Hst. unfold get_sample.
  destruct ((0 >? i) || (r_nb_samples r <=? i)); [done|]. cbv zeta.
  destruct (data_db (r_env r) !! sample_key i) as [blob|] eqn:Hl; [|done].
  destruct (Hst _ _ Hl) as (s & Hne & Harr & ->). unfold pack_sample.
  rewrite unpackb_packb_dict. cbn [rbind].
  rewrite decode_fields_packed by done. by intros [= <-].
Qed.

(** An in-range index without an entry cannot be read. *)
Lemma get_sample_missing (r : reader) i :
  0 <= i < r_nb_samples r ->
  data_db (r_env r) !! sample_key i = None ->
  get_sample r i = Raise TypeError.
Proof.
  intros Hi Hlook. unfold get_sample.
  replace ((0 >? i) || (r_nb_samples r <=? i)) with false.
  2:{ symmetry. apply orb_false_intro; [rewrite Z.gtb_ltb; apply Z.ltb_ge|
      apply Z.leb_gt]; lia. }
  cbv zeta. by rewrite Hlook.
Qed.

Lemma get_sample_out_of_range (r : reader) i :
  i < 0 \/ r_nb_samples r <= i -> get_sample r i = Raise IndexError.
Proof.
  intros Hi. unfold get_sample.
  replace ((0 >? i) || (r_nb_samples r <=? i)) with true; [done|].
  symmetry. apply orb_true_iff. rewrite Z.gtb_ltb, Z.ltb_lt, Z.leb_le. lia.
Qed.

(** A store whose count key holds [str(n)] opens with length [n]. *)
Lemma Reader_init_count (e : lmdb_env) n :
  meta_db e !! NB_SAMPLES = Some (py_str_int n) ->
  Reader_init e = Ok {| r_env := e; r_nb_samples := n |}.
Proof.
  intros Hm. unfold Reader_init. rewrite get_meta_str_count.
  rewrite Hm, decode_str_py_str_int. cbn [rbind].
  by rewrite py_int_py_str_int.
Qed.

Lemma Reader_init_no_count (e : lmdb_env) :
  meta_db e !! NB_SAMPLES = None ->
  Reader_init e = Ok {| r_env := e; r_nb_samples := 0 |}.
Proof.
  intros Hm. unfold Reader_init. rewrite get_meta_str_count.
  by rewrite Hm.
Qed.

End ReadPath.

(* ===================================================================== *)
(** * Appending, closing and reopening                                    *)
(* ===================================================================== *)

Section Append.
Context `{B : Backend}.

Lemma wbind_Ok {A C} (m : W A) (k : A -> W C) w w' c :
  wbind m k w = (Ok c, w') ->
  exists a w1, m w = (Ok a, w1) /\ k a w1 = (Ok c, w').
Proof.
  unfold wbind. destruct (m w) as [[a|e] w1]; [eauto|congruence].
Qed.

Lemma Qle_bool_false (q : Q) : (0 < q)%Q -> Qle_bool q 0 = false.
Proof.
  intros Hq. destruct (Qle_bool q 0) eqn:Hle; [|done].
  apply Qle_bool_iff in Hle. by apply Qle_not_lt in Hle.
Qed.

Lemma Writer_init_create (e : lmdb_env) msl ram :
  0 < msl -> (0 < ram)%Q ->
  meta_db e !! NB_SAMPLES = None ->
  Writer_init e msl ram =
    Ok {| w_env := e; map_size_limit := msl; ram_gb_limit := ram;
          nb_samples := 0; db_stats := "create_stats" |}.
Proof.
  intros Hm Hr Hc. unfold Writer_init.
  destruct (Z.leb_spec msl 0); [lia|]. rewrite Qle_bool_false by done.
  unfold check_db_stats. cbn [w_env].
  change (encode_str "nb_samples") with NB_SAMPLES. by rewrite Hc.
Qed.

Lemma Writer_init_resume (e : lmdb_env) msl ram n :
  0 < msl -> (0 < ram)%Q ->
  meta_db e !! NB_SAMPLES = Some (py_str_int n) ->
  Writer_init e msl ram =
    Ok {| w_env := e; map_size_limit := msl; ram_gb_limit := ram;
          nb_samples := n; db_stats := "auto_update_stats" |}.
Proof.
  intros Hm Hr Hc. unfold Writer_init.
  destruct (Z.leb_spec msl 0); [lia|]. rewrite Qle_bool_false by done.
  unfold check_db_stats. cbn [w_env].
  change (encode_str "nb_samples") with NB_SAMPLES. rewrite Hc.
  destruct (String.eqb_spec (py_str_int n) "") as [He|_].
  { by apply py_str_int_nonempty in He. }
  rewrite decode_str_py_str_int. cbn [rbind].
  by rewrite py_int_py_str_int.
Qed.

(** A [Writer] that opens has been given positive limits. *)
Lemma Writer_init_Ok (e : lmdb_env) msl ram w :
  Writer_init e msl ram = Ok w ->
  0 < msl /\ (0 < ram)%Q /\ w_env w = e /\
  map_size_limit w = msl /\ ram_gb_limit w = ram.
Proof.
  unfold Writer_init. destruct (Z.leb_spec msl 0); [done|].
  destruct (Qle_bool ram 0) eqn:Hq; [done|].
  assert (0 < ram)%Q.
  { apply Qnot_le_lt. intros Hle%Qle_bool_iff. congruence. }
  unfold check_db_stats. cbn [w_env].
  destruct (meta_db e !! _) as [v|]; [|by intros [= <-]].
  destruct (String.eqb v ""); [by intros [= <-]|].
  destruct (decode_str v) as [s|]; [|done]. cbn [rbind].
  destruct (py_int s) as [n|]; [|done]. by intros [= <-].
Qed.

Lemma Writer_close_Ok w w' :
  Writer_close w = (Ok tt, w') ->
  w' = with_env w
         {| data_db := data_db (w_env w);
            meta_db := <[NB_SAMPLES := py_str_int (nb_samples w)]>
                         (meta_db (w_env w)) |}.
Proof.
  unfold Writer_close. by intros [_ ->]%set_meta_str_Ok.
Qed.

(** The state after a run of successful [put_samples] calls. *)
Lemma put_all_Ok l w w' :
  put_all l w = (Ok tt, w') ->
  0 <= nb_samples w ->
  nb_samples w' = nb_samples w + Z.of_nat (length l) /\
  map_size_limit w' = map_size_limit w /\
  ram_gb_limit w' = ram_gb_limit w /\
  db_stats w' = db_stats w /\
  meta_db (w_env w') =
    match l with
    | [] => meta_db (w_env w)
    | _ => <[NB_SAMPLES := py_str_int (nb_samples w + Z.of_nat (length l))]>
             (meta_db (w_env w))
    end /\
  (forall k s, l !! k = Some s -> all_arrays s) /\
  (forall k s, l !! k = Some s -> s <> ∅ ->
     data_db (w_env w') !! sample_key (nb_samples w + Z.of_nat k)
     = Some (pack_sample s)) /\
  (forall key,
     (forall k, (k < length l)%nat ->
                key <> sample_key (nb_samples w + Z.of_nat k)) ->
     data_db (w_env w') !! key = data_db (w_env w) !! key).
Proof.
  revert w. induction l as [|s l IH]; intros w Hrun Hnb.
  - injection Hrun as <-. cbn [length].
    split_and!; [lia|done..| | |done].
    + intros k s Hk. by rewrite lookup_nil in Hk.
    + intros k s Hk. by rewrite lookup_nil in Hk.
  - cbn [put_all] in Hrun.
    apply wbind_Ok in Hrun as ([] & w1 & Hput & Hrest).
    apply put_samples_Ok in Hput as [Harr ->].
    destruct (IH _ Hrest)
      as (Hn & Hms & Hram & Hst & Hmeta & Hall & Hdata & Hframe).
    { cbn [after_put nb_samples]. lia. }
    cbn [after_put nb_samples map_size_limit ram_gb_limit db_stats w_env
         data_db meta_db] in *.
    split_and!; [|done..| | | |].
    + rewrite Hn. cbn [length]. lia.
    + rewrite Hmeta. cbn [length]. rewrite Nat2Z.inj_succ.
      destruct l as [|s' l'].
      * done.
      * rewrite insert_insert_eq. do 2 f_equal. lia.
    + intros [|k] s0 Hk; [by injection Hk as <-|]. by apply (Hall k).
    + intros [|k] s0 Hk Hne.
      * injection Hk as <-. rewrite Hframe.
        -- destruct (decide (s = ∅)); [done|].
           rewrite Z.add_0_r. by rewrite lookup_insert_eq.
        -- intros k Hlt Heq. apply sample_key_inj in Heq; lia.
      * replace (nb_samples w + Z.of_nat (S k))
          with (nb_samples w + 1 + Z.of_nat k) by lia.
        by apply Hdata.
    + intros key Hkey. rewrite Hframe.
      * destruct (decide (s = ∅)); [done|].
        rewrite lookup_insert_ne; [done|].
        specialize (Hkey 0%nat ltac:(cbn [length]; lia)).
        rewrite Z.add_0_r in Hkey. congruence.
      * intros k Hlt.
        replace (nb_samples w + 1 + Z.of_nat k)
          with (nb_samples w + Z.of_nat (S k)) by lia.
        apply Hkey. cbn [length]. lia.
Qed.

(** Every entry of the data namespace after a run of [put_samples] calls
    was there before, or is the stored form of one of the mappings, under
    the key of its position. *)
Lemma put_all_entries l w w' key blob :
  put_all l w = (Ok tt, w') ->
  data_db (w_env w') !! key = Some blob ->
  data_db (w_env w) !! key = Some blob \/
  exists k s, l !! k = Some s /\ s <> ∅ /\ all_arrays s /\
              key = sample_key (nb_samples w + Z.of_nat k) /\
              blob = pack_sample s.
Proof.
  revert w. induction l as [|s l IH]; intros w Hrun Hlook.
  - injection Hrun as <-. by left.
  - cbn [put_all] in Hrun.
    apply wbind_Ok in Hrun as ([] & w1 & Hput & Hrest).
    apply put_samples_Ok in Hput as [Harr ->].
    destruct (IH _ Hrest Hlook) as [Hold|(k & s' & Hk & Hne & Harr' & -> & ->)].
    + cbn [after_put w_env data_db] in Hold.
      destruct (decide (s = ∅)) as [|Hne]; [by left|].
      destruct (decide (key = sample_key (nb_samples w))) as [->|Hkey].
      * rewrite lookup_insert_eq in Hold. injection Hold as <-.
        right. exists 0%nat, s. rewrite Z.add_0_r. done.
      * rewrite lookup_insert_ne in Hold by done. by left.
    + right. exists (S k), s'. cbn [after_put nb_samples].
      split_and!; [done..| |done]. f_equal. lia.
Qed.

(** X3. The entries of a store that a [Writer] filled from scratch are the
    stored forms of the mappings passed to [put_samples] that had at least
    one field, each a mapping of arrays, under the key of its position. *)
Theorem Writer_entries_are_samples l msl ram w0 w1 key blob :
  Writer_init empty_env msl ram = Ok w0 ->
  put_all l w0 = (Ok tt, w1) ->
  data_db (w_env w1) !! key = Some blob ->
  exists k s, l !! k = Some s /\ s <> ∅ /\ all_arrays s /\
              key = sample_key (Z.of_nat k) /\ blob = pack_sample s.
Proof.
  intros Hinit Hrun Hlook.
  destruct (Writer_init_Ok _ _ _ _ Hinit) as (Hm & Hr & _).
  rewrite Writer_init_create in Hinit by done. injection Hinit as <-.
  destruct (put_all_entries _ _ _ _ _ Hrun Hlook)
    as [Hold|(k & s & Hk & Hne & Harr & Hkey & Hblob)].
  - cbn [w_env empty_env data_db] in Hold. by rewrite lookup_empty in Hold.
  - cbn [nb_samples] in Hkey. rewrite Z.add_0_l in Hkey.
    by exists k, s.
Qed.

(** X1. Append and read back. After [n] successful [put_samples] calls on a
    fresh store, a [Reader] opened on it has length [n], and every call that
    was given a mapping with at least one field is read back, at its
    position, as the mapping that was passed. *)
Theorem put_all_read_back l msl ram w0 w1 :
  Writer_init empty_env msl ram = Ok w0 ->
  put_all l w0 = (Ok tt, w1) ->
  exists r,
    Reader_init (w_env w1) = Ok r /\
    Reader_len r = Z.of_nat (length l) /\
    forall k s, l !! k = Some s -> s <> ∅ ->
                get_sample r (Z.of_nat k) = Ok s.
Proof.
  intros Hinit Hrun.
  destruct (Writer_init_Ok _ _ _ _ Hinit) as (Hm & Hr & _).
  rewrite Writer_init_create in Hinit by done. injection Hinit as <-.
  destruct (put_all_Ok _ _ _ Hrun) as (Hn & _ & _ & _ & Hmeta & Hall & Hdata & _);
    [done|].
  cbn [nb_samples w_env meta_db empty_env] in *.
  assert (Hr0 : Reader_init (w_env w1)
                = Ok {| r_env := w_env w1;
                        r_nb_samples := Z.of_nat (length l) |}).
  { destruct l as [|s l].
    - apply Reader_init_no_count. by rewrite Hmeta.
    - apply Reader_init_count. rewrite Hmeta. by rewrite lookup_insert_eq. }
  eexists. split; [exact Hr0|]. split; [done|].
  intros k s Hk Hne. apply get_sample_stored.
  - cbn [r_nb_samples]. apply lookup_lt_Some in Hk. lia.
  - cbn [r_env]. by apply Hdata.
  - by apply (Hall k).
Qed.


(** C1, at the input on which the code departs from it. A [put_samples]
    call with a mapping without fields returns normally and moves the
    cursor, but the write sits inside the loop over the fields and is never
    reached: on a fresh store the [Reader] then reports length 1, and
    [get_sample(0)] raises [TypeError] instead of returning the mapping. *)
Theorem put_samples_empty_mapping_lost msl ram w0 w1 :
  Writer_init empty_env msl ram = Ok w0 ->
  put_samples ∅ w0 = (Ok tt, w1) ->
  data_db (w_env w1) = ∅ /\
  exists r, Reader_init (w_env w1) = Ok r /\
            Reader_len r = 1 /\
            get_sample r 0 = Raise TypeError.
Proof.
  intros Hinit [_ ->]%put_samples_Ok.
  destruct (Writer_init_Ok _ _ _ _ Hinit) as (Hm & Hr & _).
  rewrite Writer_init_create in Hinit by done. injection Hinit as <-.
  cbn [after_put w_env nb_samples data_db meta_db empty_env].
  destruct (decide (∅ = ∅)) as [_|Hne]; [|done]. split; [done|].
  eexists. split.
  - apply Reader_init_count. cbn [meta_db]. by rewrite lookup_insert_eq.
  - split; [done|]. apply get_sample_missing; [cbn; lia|].
    cbn [r_env data_db]. by rewrite lookup_empty.
Qed.

(** Reopening after [close] resumes at the cursor of the closed handle. *)
Lemma Writer_reopen w w' msl ram :
  0 < msl -> (0 < ram)%Q ->
  Writer_close w = (Ok tt, w') ->
  Writer_init (w_env w') msl ram =
    Ok {| w_env := w_env w'; map_size_limit := msl; ram_gb_limit := ram;
          nb_samples := nb_samples w; db_stats := "auto_update_stats" |}.
Proof.
  intros Hm Hr ->%Writer_close_Ok. apply Writer_init_resume; [done..|].
  cbn [with_env w_env meta_db]. by rewrite lookup_insert_eq.
Qed.

(** X2. Resume semantics. A [Writer] that made [n] successful [put_samples]
    calls on a fresh store and was closed leaves a store on which a new
    [Writer] starts with the cursor at [n], in the mode
    ["auto_update_stats"] (the first one was in ["create_stats"]). A call
    of [put_samples] on the new handle moves the cursor to [n + 1], and if
    its mapping has at least one field, the mapping is the entry of index
    [n] and is read back there. *)
Theorem Writer_resume l msl ram w0 w1 w2 msl' ram' :
  Writer_init empty_env msl ram = Ok w0 ->
  put_all l w0 = (Ok tt, w1) ->
  Writer_close w1 = (Ok tt, w2) ->
  0 < msl' -> (0 < ram')%Q ->
  exists w3,
    Writer_init (w_env w2) msl' ram' = Ok w3 /\
    db_stats w0 = "create_stats" /\
    nb_samples w3 = Z.of_nat (length l) /\
    db_stats w3 = "auto_update_stats" /\
    forall s w4,
      put_samples s w3 = (Ok tt, w4) ->
      nb_samples w4 = Z.of_nat (length l) + 1 /\
      (s <> ∅ ->
       data_db (w_env w4) !! sample_key (Z.of_nat (length l))
       = Some (pack_sample s) /\
       exists r, Reader_init (w_env w4) = Ok r /\
                 Reader_len r = Z.of_nat (length l) + 1 /\
                 get_sample r (Z.of_nat (length l)) = Ok s).
Proof.
  intros Hinit Hrun Hclose Hm' Hr'.
  destruct (Writer_init_Ok _ _ _ _ Hinit) as (Hm & Hr & _).
  rewrite Writer_init_create in Hinit by done. injection Hinit as <-.
  destruct (put_all_Ok _ _ _ Hrun) as (Hn & _); [done|].
  cbn [nb_samples] in Hn.
  eexists. split; [by apply Writer_reopen|].
  cbn [nb_samples db_stats]. split_and!; [done|lia|done|].
  intros s w4 [Harr ->]%put_samples_Ok.
  cbn [after_put nb_samples w_env data_db meta_db].
  rewrite Hn, Z.add_0_l. split; [done|]. intros Hne.
  destruct (decide (s = ∅)); [done|]. rewrite lookup_insert_eq.
  split; [done|]. eexists. split.
  - apply Reader_init_count. cbn [meta_db]. by rewrite lookup_insert_eq.
  - split; [done|]. apply get_sample_stored; [cbn; lia| |done].
    cbn [r_env data_db]. by rewrite lookup_insert_eq.
Qed.

(** C3, at the input on which the code departs from it. After [n]
    successful [put_samples] calls, [close] and a new [Writer] (whose
    cursor is [n]), a [put_samples] call with a mapping without fields
    returns normally but commits nothing at index [n]: the store has no
    entry under that key, while a [Reader] reports length [n + 1] and
    cannot read index [n]. *)
Theorem Writer_resume_empty_mapping_lost
    l msl ram w0 w1 w2 msl' ram' w3 w4 :
  Writer_init empty_env msl ram = Ok w0 ->
  put_all l w0 = (Ok tt, w1) ->
  Writer_close w1 = (Ok tt, w2) ->
  Writer_init (w_env w2) msl' ram' = Ok w3 ->
  put_samples ∅ w3 = (Ok tt, w4) ->
  nb_samples w3 = Z.of_nat (length l) /\
  data_db (w_env w4) !! sample_key (Z.of_nat (length l)) = None /\
  exists r, Reader_init (w_env w4) = Ok r /\
            Reader_len r = Z.of_nat (length l) + 1 /\
            get_sample r (Z.of_nat (length l)) = Raise TypeError.
Proof.
  intros Hinit Hrun Hclose Hinit' [_ ->]%put_samples_Ok.
  destruct (Writer_init_Ok _ _ _ _ Hinit) as (Hm & Hr & _).
  destruct (Writer_init_Ok _ _ _ _ Hinit') as (Hm' & Hr' & _).
  rewrite Writer_init_create in Hinit by done. injection Hinit as <-.
  destruct (put_all_Ok _ _ _ Hrun) as (Hn & _ & _ & _ & _ & _ & _ & Hframe);
    [done|].
  rewrite (Writer_reopen w1 w2) in Hinit' by done. injection Hinit' as <-.
  apply Writer_close_Ok in Hclose as ->.
  cbn [after_put with_env w_env nb_samples data_db meta_db empty_env] in *.
  destruct (decide (∅ = ∅)) as [_|Hne]; [|done].
  assert (Hnone : data_db (w_env w1) !! sample_key (Z.of_nat (length l))
                  = None).
  { rewrite Hframe; [by rewrite lookup_empty|].
    intros k Hk Heq. apply sample_key_inj in Heq; lia. }
  split; [lia|]. split; [done|]. eexists. split.
  - apply Reader_init_count. cbn [meta_db]. by rewrite lookup_insert_eq.
  - rewrite Hn, Z.add_0_l. split; [done|].
    apply get_sample_missing; [cbn; lia|done].
Qed.

(** Opening a [Writer] on a store without a count key is the create
    mode, with the cursor at 0. *)
Lemma Writer_init_create_mode (e : lmdb_env) msl ram w :
  meta_db e !! NB_SAMPLES = None ->
  Writer_init e msl ram = Ok w ->
  nb_samples w = 0 /\ db_stats w = "create_stats".
Proof.
  intros Hc Hinit.
  destruct (Writer_init_Ok _ _ _ _ Hinit) as (Hm & Hr & _).
  rewrite Writer_init_create in Hinit by done. by injection Hinit as <-.
Qed.

(** X13. A fresh store that a [Writer] opened and closed without a
    [put_samples] is a store with zero samples. *)
Lemma Writer_close_fresh_zero_samples msl ram w0 w1 :
  Writer_init empty_env msl ram = Ok w0 ->
  Writer_close w0 = (Ok tt, w1) ->
  zero_samples (w_env w1).
Proof.
  intros Hinit ->%Writer_close_Ok.
  destruct (Writer_init_Ok _ _ _ _ Hinit) as (Hm & Hr & _).
  rewrite Writer_init_create in Hinit by done. injection Hinit as <-.
  split; [done|]. cbn [with_env w_env meta_db nb_samples empty_env].
  by rewrite lookup_insert_eq.
Qed.

(** The methods of a [Writer] keep the data namespace a namespace of
    stored samples, whatever their outcome. *)
Lemma stored_samples_data (e e' : lmdb_env) :
  data_db e' = data_db e -> stored_samples e -> stored_samples e'.
Proof. intros Hd Hst key blob. rewrite Hd. apply Hst. Qed.

Lemma stored_samples_insert (e e' : lmdb_env) key samples :
  all_arrays samples ->
  data_db e' = (if decide (samples = ∅) then data_db e
                else <[key := pack_sample samples]> (data_db e)) ->
  stored_samples e -> stored_samples e'.
Proof.
  intros Harr Hd Hst key' blob. rewrite Hd.
  destruct (decide (samples = ∅)) as [|Hne]; [apply Hst|].
  destruct (decide (key' = key)) as [->|Hk].
  - rewrite lookup_insert_eq. intros [= <-]. eauto.
  - rewrite lookup_insert_ne by done. apply Hst.
Qed.

Lemma stored_samples_empty_env : stored_samples empty_env.
Proof. intros key blob Hl. cbn in Hl. by rewrite lookup_empty in Hl. Qed.

Lemma stored_samples_set_meta_str key v w :
  stored_samples (w_env w) -> stored_samples (w_env (set_meta_str key v w).2).
Proof.
  intros Hst. by destruct (set_meta_str_env key v w) as [->| ->].
Qed.

Lemma stored_samples_put_samples samples w :
  stored_samples (w_env w) -> stored_samples (w_env (put_samples samples w).2).
Proof.
  intros Hst. unfold put_samples.
  destruct (payload_bytes _ _) as [total|e] eqn:Hp; [|done].
  destruct (Qltb _ _); [done|].
  destruct (write_fields _ _ _ _ _) as [txn|e] eqn:Hw.
  - apply write_fields_samples in Hw as ->.
    destruct (txn_commit _ _) as [[]|]; [done..|]. cbv zeta.
    apply stored_samples_set_meta_str. cbn [with_nb_samples with_env w_env].
    eapply stored_samples_insert; [|done..].
    by eapply payload_bytes_all_arrays.
  - by destruct e.
Qed.

Lemma stored_samples_change_db_value key value safe_model answer w :
  stored_samples (w_env w) ->
  stored_samples (w_env (change_db_value key value safe_model answer w).2).
Proof.
  intros Hst. unfold change_db_value, change_value. cbv zeta.
  destruct (_ <? _); [|done]. destruct (_ && _); [done|].
  destruct (payload_bytes _ _) as [total|e] eqn:Hp; [|done].
  destruct (Qltb _ _); [done|].
  destruct (write_fields _ _ _ _ _) as [txn|e] eqn:Hw; [|done].
  apply write_fields_samples in Hw as ->.
  destruct (txn_commit _ _); [done|]. cbn [with_env w_env].
  eapply stored_samples_insert; [|done..].
  by eapply payload_bytes_all_arrays.
Qed.

Lemma stored_samples_Writer_close w :
  stored_samples (w_env w) -> stored_samples (w_env (Writer_close w).2).
Proof. apply stored_samples_set_meta_str. Qed.

(** A property of the handle that every step keeps is kept by a
    sequence of steps. *)
Lemma wbind_keeps {A C} (P : writer -> Prop) (m : W A) (k : A -> W C) w :
  (forall w, P w -> P (m w).2) ->
  (forall a w, P w -> P (k a w).2) ->
  P w -> P (wbind m k w).2.
Proof.
  intros Hm Hk Hw. unfold wbind. specialize (Hm w Hw).
  destruct (m w) as [[a|e] w1]; [by apply Hk|done].
Qed.

(** X4. Store invariant. A store whose entries are stored samples stays one
    under every method of a [Writer], whether the call returns or
    raises. *)
Theorem Writer_keeps_stored_samples w :
  stored_samples (w_env w) ->
  (forall samples, stored_samples (w_env (put_samples samples w).2)) /\
  (forall key value safe_model answer,
     stored_samples
       (w_env (change_db_value key value safe_model answer w).2)) /\
  (forall key v, stored_samples (w_env (set_meta_str key v w).2)) /\
  stored_samples (w_env (Writer_close w).2).
Proof.
  intros Hst. split_and!.
  - intros samples. by apply stored_samples_put_samples.
  - intros key value safe_model answer.
    by apply stored_samples_change_db_value.
  - intros key v. by apply stored_samples_set_meta_str.
  - by apply stored_samples_Writer_close.
Qed.

(* ===================================================================== *)
(** * The guards of the write path                                        *)
(* ===================================================================== *)

Lemma Qltb_true (a b : Q) : (a < b)%Q -> Qltb a b = true.
Proof.
  intros Hlt. unfold Qltb. destruct (Qle_bool b a) eqn:Hle; [|done].
  apply Qle_bool_iff in Hle. by apply Qle_not_lt in Hle.
Qed.

Lemma round_half_even_bound n d :
  0 < d -> - d <= 2 * (round_half_even n d * d - n) <= d.
Proof.
  intros Hd. unfold round_half_even. cbv zeta.
  pose proof (Z.div_mod n d ltac:(lia)) as Hn.
  pose proof (Z.mod_pos_bound n d Hd) as Hr.
  destruct (Z.ltb_spec (2 * (n mod d)) d); [nia|].
  destruct (Z.ltb_spec d (2 * (n mod d))); [nia|].
  destruct (Z.even (n / d)); nia.
Qed.

Lemma float_of_quotient_bound n d m e :
  0 < n -> 0 < d ->
  float_of_quotient n d = (m, e) ->
  let N := n * 2 ^ Z.max 0 (- e) in
  let D := d * 2 ^ Z.max 0 e in
  0 < D /\ 2 ^ 52 * D <= N /\ - D <= 2 * (m * D - N) <= D.
Proof.
  intros Hn Hd. unfold float_of_quotient. cbv zeta.
  set (e0 := Z.log2 n - Z.log2 d - 52).
  intros [= <- <-].
  set (e := if _ <? _ then _ else _).
  assert (HD : 0 < d * 2 ^ Z.max 0 e).
  { apply Z.mul_pos_pos; [done|]. apply Z.pow_pos_nonneg; lia. }
  split; [done|]. split; [|by apply round_half_even_bound].
  subst e. destruct (Z.ltb_spec (n * 2 ^ Z.max 0 (- e0)) (2 ^ 52 * (d * 2 ^ Z.max 0 e0)));
    [|done].
  pose proof (Z.log2_spec n Hn) as [Hn1 _].
  pose proof (Z.log2_spec d Hd) as [_ Hd2].
  pose proof (Z.log2_nonneg n). pose proof (Z.log2_nonneg d).
  set (a := Z.log2 n) in *. set (b := Z.log2 d) in *.
  assert (Hle : 2 ^ 52 * (2 ^ (b + 1) * 2 ^ Z.max 0 (e0 - 1))
                <= 2 ^ a * 2 ^ Z.max 0 (- (e0 - 1))).
  { rewrite <- !Z.pow_add_r by lia. apply Z.pow_le_mono_r; lia. }
  assert (0 < 2 ^ Z.max 0 (e0 - 1)) by (apply Z.pow_pos_nonneg; lia).
  assert (0 < 2 ^ Z.max 0 (- (e0 - 1))) by (apply Z.pow_pos_nonneg; lia).
  rewrite Z.add_1_r in Hle. fold (Z.succ b) in Hd2.
  nia.
Qed.

Lemma float_of_quotient_pos n d m e :
  0 < n -> 0 < d -> float_of_quotient n d = (m, e) -> 0 < m.
Proof.
  intros Hn Hd Hf.
  destruct (float_of_quotient_bound n d m e Hn Hd Hf) as (HD & HN & Hm).
  cbv zeta in *. nia.
Qed.

(** The two roundings of [gigabytes], as inequalities between integers:
    [num / den] is the value of the result. *)
Lemma gigabytes_bounds total :
  0 < total ->
  exists num den,
    0 < den /\
    gigabytes total = (num # Z.to_pos den)%Q /\
    (2 ^ 52 - 1) * total * den <= 2 ^ 52 * num * 1000000000 /\
    2 ^ 51 * num * 1000000000 <= (2 ^ 51 + 1) * total * den.
Proof.
  intros HT. unfold gigabytes. destruct (Z.leb_spec total 0); [lia|].
  destruct (float_of_quotient total 1) as [m1 e1] eqn:H1.
  destruct (float_of_quotient (m1 * _) _) as [m2 e2] eqn:H2.
  pose proof (float_of_quotient_pos _ _ _ _ HT Z.lt_0_1 H1) as Hm1.
  assert (HX : 0 < 2 ^ Z.max 0 e1) by (apply Z.pow_pos_nonneg; lia).
  assert (HY : 0 < 2 ^ Z.max 0 (- e1)) by (apply Z.pow_pos_nonneg; lia).
  assert (HZ : 0 < 2 ^ Z.max 0 e2) by (apply Z.pow_pos_nonneg; lia).
  assert (HW : 0 < 2 ^ Z.max 0 (- e2)) by (apply Z.pow_pos_nonneg; lia).
  destruct (float_of_quotient_bound _ _ _ _ HT Z.lt_0_1 H1) as (_ & G1 & F1).
  assert (Hn2 : 0 < m1 * 2 ^ Z.max 0 e1) by nia.
  assert (Hd2 : 0 < 2 ^ Z.max 0 (- e1) * 1000000000) by nia.
  destruct (float_of_quotient_bound _ _ _ _ Hn2 Hd2 H2) as (_ & G2 & F2).
  cbv zeta in F1, F2, G1, G2.
  set (X := 2 ^ Z.max 0 e1) in *. set (Y := 2 ^ Z.max 0 (- e1)) in *.
  set (Zp := 2 ^ Z.max 0 e2) in *. set (W := 2 ^ Z.max 0 (- e2)) in *.
  exists (m2 * Zp), W. split; [done|]. split.
  { unfold float_value. destruct (Z.leb_spec 0 e2).
    - subst Zp W. rewrite Z.max_r by lia.
      replace (Z.max 0 (- e2)) with 0 by lia. done.
    - subst Zp W. replace (Z.max 0 e2) with 0 by lia.
      rewrite Z.max_r by lia. by rewrite Z.mul_1_r. }
  assert (Hc : 2 ^ 53 = 9007199254740992) by done.
  assert (Hc' : 2 ^ 52 = 4503599627370496) by done.
  assert (Hc'' : 2 ^ 51 = 2251799813685248) by done.
  rewrite Hc' in G1, G2. rewrite Hc', Hc''. clearbody X Y Zp W. clear H1 H2.
  split.
  - assert (L1 : 9007199254740991 * (total * Y) <= 9007199254740992 * (m1 * X))
      by lia.
    assert (L2 : 9007199254740991 * (m1 * X * W)
                 <= 9007199254740992 * (m2 * Zp * (Y * 1000000000))) by lia.
    assert (L3 : (4503599627370495 * total * W) * Y
                 <= (4503599627370496 * (m2 * Zp) * 1000000000) * Y) by nia.
    by apply Z.mul_le_mono_pos_r in L3.
  - assert (U1 : 9007199254740992 * (m1 * X) <= 9007199254740993 * (total * Y))
      by lia.
    assert (U2 : 9007199254740992 * (m2 * Zp * (Y * 1000000000))
                 <= 9007199254740993 * (m1 * X * W)) by lia.
    assert (U3 : (2251799813685248 * (m2 * Zp) * 1000000000) * Y
                 <= (2251799813685249 * total * W) * Y) by nia.
    by apply Z.mul_le_mono_pos_r in U3.
Qed.

(** The result of [gigabytes] is below the exact quotient by no more than
    the two roundings. *)
Lemma gigabytes_lower total :
  0 <= total ->
  ((total # 1000000000) * (4503599627370495 # 4503599627370496)
   <= gigabytes total)%Q.
Proof.
  intros HT. destruct (Z.eq_dec total 0) as [->|Hne]; [done|].
  destruct (gigabytes_bounds total ltac:(lia))
    as (num & den & Hden & -> & Lo & _).
  unfold Qle. cbn [Qnum Qden Qmult]. rewrite Z2Pos.id by done.
  rewrite Pos2Z.inj_mul.
  change (2 ^ 52) with 4503599627370496 in Lo.
  change (4503599627370496 - 1) with 4503599627370495 in Lo. lia.
Qed.

Lemma gigabytes_upper total :
  0 <= total ->
  (gigabytes total
   <= (total # 1000000000) * (2251799813685249 # 2251799813685248))%Q.
Proof.
  intros HT. destruct (Z.eq_dec total 0) as [->|Hne]; [done|].
  destruct (gigabytes_bounds total ltac:(lia))
    as (num & den & Hden & -> & _ & Up).
  unfold Qle. cbn [Qnum Qden Qmult]. rewrite Z2Pos.id by done.
  rewrite Pos2Z.inj_mul.
  change (2 ^ 51) with 2251799813685248 in Up.
  change (2251799813685248 + 1) with 2251799813685249 in Up. lia.
Qed.

Lemma nbytes_nonneg a : 0 <= nbytes a.
Proof. unfold nbytes. lia. Qed.

Lemma sum_bytes_nonneg items : 0 <= sum_bytes items.
Proof.
  induction items as [|[k v] items IH]; [done|]. cbn [sum_bytes foldr snd].
  fold (sum_bytes items). pose proof nbytes_nonneg.
  destruct v; cbn [array_bytes]; [specialize (H a)|..]; lia.
Qed.

(** The byte count of the first loop is the payload, modulo [2 ^ 64]. *)
Lemma payload_bytes_sum items acc :
  (forall k v, (k, v) ∈ items -> is_ndarray v = true) ->
  payload_bytes items (acc mod 2 ^ 64)
  = Ok ((acc + sum_bytes items) mod 2 ^ 64).
Proof.
  revert acc. induction items as [|[k v] items IH]; intros acc Harr.
  - cbn [payload_bytes sum_bytes foldr]. by rewrite Z.add_0_r.
  - assert (Hv : is_ndarray v = true) by (apply (Harr k); by left).
    destruct v as [a| | |]; try done.
    cbn [payload_bytes sum_bytes foldr snd array_bytes].
    fold (sum_bytes items). rewrite Zplus_mod_idemp_l, IH.
    + do 2 f_equal. lia.
    + intros k' v' Hin. apply (Harr k'). by right.
Qed.

Lemma payload_bytes_payload_size samples :
  all_arrays samples ->
  payload_size samples < 2 ^ 64 ->
  payload_bytes (map_to_list samples) 0 = Ok (payload_size samples).
Proof.
  intros Harr Hlt. change 0 with (0 mod 2 ^ 64) at 1.
  rewrite payload_bytes_sum.
  - rewrite Z.add_0_l. f_equal. apply Z.mod_small.
    split; [apply sum_bytes_nonneg|done].
  - intros k v Hin%elem_of_map_to_list. by apply (Harr k).
Qed.

(** C5, as the code has it. The capacity check compares the limit with
    the payload in gigabytes as floating-point arithmetic gives it: the
    byte count converted to [float] and divided by [1e9], each rounded.
    A [put_samples] call with a mapping of arrays whose payload, less one
    part in [2 ^ 52], is above [ram_gb_limit] raises the [ValueError] of
    the check; nothing is written: the handle, with its cursor, and the
    store are as before, so that a [Reader] sees the length it saw before
    the call. A payload that is below the limit by one part in [2 ^ 51]
    is never refused by the check. *)
Theorem put_samples_over_ram_limit samples w :
  all_arrays samples ->
  payload_size samples < 2 ^ 64 ->
  (ram_gb_limit w
   < (payload_size samples # 1000000000) * (1 - (1 # 4503599627370496)))%Q ->
  (put_samples samples w).1 = Raise (ValueError RamLimitExceeded) /\
  (put_samples samples w).2 = w /\
  nb_samples (put_samples samples w).2 = nb_samples w /\
  Reader_init (w_env (put_samples samples w).2) = Reader_init (w_env w) /\
  forall w0,
    ((payload_size samples # 1000000000) * (1 + (1 # 2251799813685248))
     <= ram_gb_limit w0)%Q ->
    (put_samples samples w0).1 <> Raise (ValueError RamLimitExceeded).
Proof.
  intros Harr Hsize Hlt.
  pose proof (payload_bytes_payload_size _ Harr Hsize) as Hp.
  pose proof (sum_bytes_nonneg (map_to_list samples)) as Hnn.
  fold (payload_size samples) in Hnn.
  assert (Hq : Qltb (ram_gb_limit w) (gigabytes (payload_size samples))
               = true).
  { apply Qltb_true. eapply Qlt_le_trans; [exact Hlt|].
    by apply gigabytes_lower. }
  unfold put_samples. rewrite Hp, Hq. split_and!; [done..|].
  intros w0 Hle.
  assert (Hq0 : Qltb (ram_gb_limit w0) (gigabytes (payload_size samples))
                = false).
  { unfold Qltb. apply negb_false_iff, Qle_bool_iff.
    eapply Qle_trans; [|exact Hle]. by apply gigabytes_upper. }
  rewrite Hq0.
  destruct (write_fields _ _ _ _ _) as [txn|e] eqn:Hw.
  - destruct (txn_commit _ _) as [[]|]; [done..|]. cbv zeta.
    destruct (set_meta_str _ _ _) as [[[]|e] w1] eqn:Hs; [done|].
    apply set_meta_str_raises in Hs as [_ [[_ Hk]|[_ [-> | ->]]]]; done.
  - by rewrite (write_fields_raises _ _ _ _ _ _ Hw).
Qed.

(** C4, as the code has it. A mapping with a value that is not an array is
    not coerced: [put_samples] raises the [ValueError] of the type check
    before anything is written, and the handle and the store are as
    before. Only mappings of arrays are ever committed; their arrays are
    encoded as they were passed, and a committed mapping with at least one
    field is stored under the key of the cursor and read back from there
    as the mapping that was passed. *)
Theorem put_samples_rejects_non_array samples w k v :
  samples !! k = Some v ->
  is_ndarray v = false ->
  put_samples samples w = (Raise (ValueError UnsupportedDataType), w) /\
  forall s w',
    put_samples s w = (Ok tt, w') ->
    all_arrays s /\
    (forall f a, s !! f = Some (PArr a) ->
       packed_fields s !! f = Some (packb_array a)) /\
    (s <> ∅ -> 0 <= nb_samples w ->
     data_db (w_env w') !! sample_key (nb_samples w)
     = Some (pack_sample s) /\
     exists r,
       Reader_init (w_env w') = Ok r /\
       Reader_len r = nb_samples w + 1 /\
       get_sample r (nb_samples w) = Ok s).
Proof.
  intros Hk Hv. split.
  - unfold put_samples.
    by rewrite (payload_bytes_non_array _ _ k v)
      by (by apply elem_of_map_to_list || done).
  - intros s w' [Harr ->]%put_samples_Ok. split_and!; [done| |].
    + intros f a Hf. unfold packed_fields. by rewrite lookup_fmap, Hf.
    + intros Hne Hnb. cbn [after_put w_env data_db meta_db].
      destruct (decide (s = ∅)); [done|].
      split; [by rewrite lookup_insert_eq|].
      eexists. split.
      { apply Reader_init_count. cbn [meta_db]. by rewrite lookup_insert_eq. }
      split; [done|]. apply get_sample_stored; [cbn [r_nb_samples]; lia| |done].
      cbn [r_env data_db]. by rewrite lookup_insert_eq.
Qed.

(** X11. A full store. When the engine reports its declared capacity exhausted
    on the puts of the transaction, [put_samples] raises
    [AttributeError], and the handle and the store are as before. *)
Lemma put_samples_store_full samples w total :
  samples <> ∅ ->
  payload_bytes (map_to_list samples) 0 = Ok total ->
  (gigabytes total <= ram_gb_limit w)%Q ->
  (forall txn k v, map_full (map_size w) txn DATA_DB k v = true) ->
  put_samples samples w = (Raise AttributeError, w).
Proof.
  intros Hne Hp Hle Hfull. unfold put_samples. rewrite Hp.
  assert (Hq : Qltb (ram_gb_limit w) (gigabytes total) = false).
  { unfold Qltb. apply negb_false_iff. by apply Qle_bool_iff. }
  rewrite Hq. destruct (map_to_list samples) as [|[k v] items] eqn:Hl.
  - by apply map_to_list_empty_iff in Hl.
  - cbn [write_fields]. cbv zeta. by rewrite Hfull.
Qed.

(** X12. [Writer.__init__] refuses limits that are not positive. *)
Lemma Writer_init_rejects_limits (e : lmdb_env) msl ram :
  (msl <= 0 ->
   Writer_init e msl ram = Raise (ValueError MapSizeNotPositive)) /\
  (0 < msl -> (ram <= 0)%Q ->
   Writer_init e msl ram = Raise (ValueError RamLimitNotPositive)).
Proof.
  unfold Writer_init. split.
  - intros Hm. by destruct (Z.leb_spec msl 0); [|lia].
  - intros Hm Hr. destruct (Z.leb_spec msl 0); [lia|].
    apply Qle_bool_iff in Hr. by rewrite Hr.
Qed.

(* ===================================================================== *)
(** * Overwriting                                                         *)
(* ===================================================================== *)

(** X6. An index at or above the sample count is refused, and nothing
    changes. *)
Lemma change_db_value_not_below key value safe_model answer w :
  nb_samples w <= key ->
  change_db_value key value safe_model answer w
  = (Raise (ValueError KeyNotBelowSize), w).
Proof.
  intros Hk. unfold change_db_value. cbv zeta.
  by destruct (Z.ltb_spec key (nb_samples w)); [lia|].
Qed.

(** X14. Any index below the sample count passes the guard, the negative ones
    too: the outcome is never the out-of-range error. *)
Lemma change_db_value_below key value safe_model answer w :
  key < nb_samples w ->
  (change_db_value key value safe_model answer w).1
  <> Raise (ValueError KeyNotBelowSize).
Proof.
  intros Hk. unfold change_db_value, change_value. cbv zeta.
  destruct (Z.ltb_spec key (nb_samples w)); [|lia].
  destruct (_ && _); [done|].
  destruct (payload_bytes _ _) as [t|e] eqn:Hp.
  - destruct (Qltb _ _); [done|].
    destruct (write_fields _ _ _ _ _) as [txn|e] eqn:Hw.
    + by destruct (txn_commit _ _) as [[]|].
    + by rewrite (write_fields_raises _ _ _ _ _ _ Hw).
  - by rewrite (payload_bytes_raises _ _ _ Hp).
Qed.

(** X8. The confirmation gate of [change_db_value]: any answer other than
    "yes" (after stripping and lowering) ends the program. *)
Lemma change_db_value_declined key value answer w :
  key < nb_samples w ->
  py_lower (py_strip answer) <> "yes" ->
  change_db_value key value true answer w = (Raise SystemExit, w).
Proof.
  intros Hk Hans. unfold change_db_value. cbv zeta.
  destruct (Z.ltb_spec key (nb_samples w)); [|lia].
  destruct (String.eqb_spec (py_lower (py_strip answer)) "yes"); done.
Qed.

(** X7. The sample count is not changed by an overwrite, whatever its
    outcome. *)
Lemma change_db_value_count key value safe_model answer w :
  nb_samples (change_db_value key value safe_model answer w).2
  = nb_samples w.
Proof.
  unfold change_db_value, change_value. cbv zeta.
  destruct (_ <? _); [|done]. destruct (_ && _); [done|].
  destruct (payload_bytes _ _); [|done]. destruct (Qltb _ _); [done|].
  destruct (write_fields _ _ _ _ _); [|done]. by destruct (txn_commit _ _).
Qed.

(** An overwrite that returns normally has replaced the entry under the
    key of its index by the given mapping (if the mapping has a field) and
    has touched nothing else. *)
Lemma change_db_value_Ok key value safe_model answer w w' :
  change_db_value key value safe_model answer w = (Ok tt, w') ->
  key < nb_samples w /\
  all_arrays value /\
  w' = with_env w
         {| data_db := if decide (value = ∅) then data_db (w_env w)
                       else <[sample_key key := pack_sample value]>
                              (data_db (w_env w));
            meta_db := meta_db (w_env w) |}.
Proof.
  unfold change_db_value, change_value. cbv zeta.
  destruct (Z.ltb_spec key (nb_samples w)); [|done].
  destruct (_ && _); [done|].
  destruct (payload_bytes _ _) as [t|e] eqn:Hp; [|done].
  destruct (Qltb _ _); [done|].
  destruct (write_fields _ _ _ _ _) as [txn|e] eqn:Hw; [|done].
  destruct (txn_commit _ _); [done|].
  intros [= <-]. apply write_fields_samples in Hw as ->.
  split_and!; [done|by eapply payload_bytes_all_arrays|done].
Qed.

(** X5. In range, an overwrite changes the entry of its index only: every
    other index keeps its entry, the metadata and the count stay. *)
Lemma change_db_value_in_range k value safe_model answer w w' :
  0 <= k < nb_samples w ->
  change_db_value k value safe_model answer w = (Ok tt, w') ->
  nb_samples w' = nb_samples w /\
  meta_db (w_env w') = meta_db (w_env w) /\
  (value <> ∅ ->
   data_db (w_env w') !! sample_key k = Some (pack_sample value)) /\
  forall i, 0 <= i -> i <> k ->
    data_db (w_env w') !! sample_key i = data_db (w_env w) !! sample_key i.
Proof.
  intros Hk (_ & _ & ->)%change_db_value_Ok.
  cbn [with_env nb_samples w_env meta_db data_db]. split_and!; [done..| |].
  - intros Hne. destruct (decide (value = ∅)); [done|].
    by rewrite lookup_insert_eq.
  - intros i Hi Hik. destruct (decide (value = ∅)); [done|].
    rewrite lookup_insert_ne; [done|].
    intros Heq%sample_key_inj; lia.
Qed.

End Append.

(* ===================================================================== *)
(** * Bounds of the read path                                             *)
(* ===================================================================== *)

Section Bounds.
Context `{B : Backend}.

(** Indexing with an in-range index is [get_sample]. *)
Lemma Reader_getitem_in_range (r : reader) i :
  0 <= i < Reader_len r -> Reader_getitem r i = get_sample r i.
Proof.
  intros Hi. unfold Reader_getitem. cbv zeta.
  replace (0 >? i) with false
    by (symmetry; rewrite Z.gtb_ltb; apply Z.ltb_ge; lia).
  replace ((0 >? i) || (Reader_len r <=? i)) with false; [done|].
  symmetry. apply orb_false_intro; [rewrite Z.gtb_ltb; apply Z.ltb_ge|
    apply Z.leb_gt]; lia.
Qed.

(** Indexing with a negative index counts from the end. *)
Lemma Reader_getitem_negative (r : reader) i :
  - Reader_len r <= i < 0 ->
  Reader_getitem r i = get_sample r (i + Reader_len r).
Proof.
  intros Hi. unfold Reader_getitem. cbv zeta.
  replace (0 >? i) with true
    by (symmetry; rewrite Z.gtb_ltb; apply Z.ltb_lt; lia).
  replace ((0 >? i + Reader_len r) || (Reader_len r <=? i + Reader_len r))
    with false; [done|].
  symmetry. apply orb_false_intro; [rewrite Z.gtb_ltb; apply Z.ltb_ge|
    apply Z.leb_gt]; lia.
Qed.

Lemma Reader_getitem_out_of_range (r : reader) i :
  0 <= Reader_len r ->
  i < - Reader_len r \/ Reader_len r <= i ->
  Reader_getitem r i = Raise IndexError.
Proof.
  intros Hlen Hi. unfold Reader_getitem. cbv zeta.
  destruct (Z.gtb_spec 0 i).
  - replace ((0 >? i + Reader_len r) || (Reader_len r <=? i + Reader_len r))
      with true; [done|].
    symmetry. apply orb_true_iff. rewrite Z.gtb_ltb, Z.ltb_lt, Z.leb_le. lia.
  - replace ((0 >? i) || (Reader_len r <=? i)) with true; [done|].
    symmetry. apply orb_true_iff. rewrite Z.gtb_ltb, Z.ltb_lt, Z.leb_le. lia.
Qed.

(** C7, as the code has it. On a [Reader] of length at least 1, the
    wrap-around of negative indices is a feature of indexing
    ([reader[i]], [__getitem__]), not of [get_sample]: [reader[-1]] is
    [get_sample(len - 1)], while [get_sample(-1)], like [get_sample(i)]
    for every [i < 0], raises [IndexError]. [get_sample(len)] and
    [reader[len]] raise [IndexError], and so does [reader[i]] for every
    [i < -len]. *)
Theorem Reader_bounds (r : reader) :
  1 <= Reader_len r ->
  Reader_getitem r (-1) = get_sample r (Reader_len r - 1) /\
  get_sample r (-1) = Raise IndexError /\
  (forall i, i < 0 -> get_sample r i = Raise IndexError) /\
  get_sample r (Reader_len r) = Raise IndexError /\
  Reader_getitem r (Reader_len r) = Raise IndexError /\
  (forall i, i < - Reader_len r -> Reader_getitem r i = Raise IndexError).
Proof.
  intros Hlen. split_and!.
  - rewrite Reader_getitem_negative by lia. f_equal. lia.
  - apply get_sample_out_of_range. lia.
  - intros i Hi. apply get_sample_out_of_range. lia.
  - apply get_sample_out_of_range. unfold Reader_len. lia.
  - apply Reader_getitem_out_of_range; lia.
  - intros i Hi. apply Reader_getitem_out_of_range; lia.
Qed.

End Bounds.

(* ===================================================================== *)
(** * Merging two stores                                                  *)
(* ===================================================================== *)

Section Merge.
Context `{B : Backend}.

Lemma wlift_Ok {A} (r : result A) w a w' :
  wlift r w = (Ok a, w') -> r = Ok a /\ w' = w.
Proof. unfold wlift. by intros [= -> ->]. Qed.

(** A copy loop that returns normally has read every index and appended
    what it read, in order. *)
Lemma copy_samples_Ok (src : reader) idx w w' :
  copy_samples src idx w = (Ok tt, w') ->
  exists l,
    Forall2 (fun i s => Reader_getitem src i = Ok s) idx l /\
    put_all l w = (Ok tt, w').
Proof.
  revert w. induction idx as [|i idx IH]; intros w Hrun.
  - exists []. split; [constructor|done].
  - cbn [copy_samples] in Hrun.
    apply wbind_Ok in Hrun as (s & w1 & [Hget ->]%wlift_Ok & Hrun).
    apply wbind_Ok in Hrun as ([] & w2 & Hput & Hrest).
    destruct (IH _ Hrest) as (l & Hl & Hall).
    exists (s :: l). split; [by constructor|].
    cbn [put_all]. unfold wbind. by rewrite Hput.
Qed.

Lemma decode_keys_Ok l acc ks :
  decode_keys l acc = Ok ks ->
  forall k, k ∈ ks <-> k ∈ l.*1 \/ k ∈ acc.
Proof.
  revert acc. induction l as [|[k0 v0] l IH]; intros acc Hd k.
  - injection Hd as <-. cbn [fmap list_fmap]. split; [by right|].
    intros [Hk|Hk]; [by apply elem_of_nil in Hk|done].
  - cbn [decode_keys] in Hd.
    destruct (decode_str k0) as [s|] eqn:Hk0; [|done]. cbn [rbind] in Hd.
    apply decode_str_Ok in Hk0 as ->. rewrite (IH _ Hd k).
    rewrite fmap_cons. cbn [fst].
    rewrite elem_of_cons, elem_of_union, elem_of_singleton. tauto.
Qed.

(** The key set that [get_meta_key_info] returns is the set of the keys of
    the metadata namespace. *)
Lemma get_meta_key_info_Ok (r : reader) ks :
  get_meta_key_info r = Ok ks ->
  forall k, k ∈ ks <-> is_Some (meta_db (r_env r) !! k).
Proof.
  intros Hd k. rewrite (decode_keys_Ok _ _ _ Hd k).
  rewrite list_elem_of_fmap. split.
  - intros [([k' v] & -> & Hin%elem_of_map_to_list)|Hin]; [eauto|].
    by apply elem_of_empty in Hin.
  - intros [v Hv]. left. exists (k, v). split; [done|].
    by apply elem_of_map_to_list.
Qed.

(** The metadata copy writes, for every listed key other than the count
    key, the value that the source holds, and nothing else. *)
Lemma copy_meta_Ok (src : reader) keys w w' :
  copy_meta src keys w = (Ok tt, w') ->
  (forall k, k ∈ keys -> is_Some (meta_db (r_env src) !! k)) ->
  nb_samples w' = nb_samples w /\
  data_db (w_env w') = data_db (w_env w) /\
  forall k,
    meta_db (w_env w') !! k =
      if decide (k ∈ keys /\ k <> NB_SAMPLES)
      then meta_db (r_env src) !! k
      else meta_db (w_env w) !! k.
Proof.
  revert w. induction keys as [|i keys IH]; intros w Hrun Hkeys.
  - injection Hrun as <-. split_and!; [done..|]. intros k.
    case_decide as Hk; [|done]. destruct Hk as [Hk _].
    by apply elem_of_nil in Hk.
  - cbn [copy_meta] in Hrun.
    assert (Hkeys' : forall k, k ∈ keys -> is_Some (meta_db (r_env src) !! k))
      by (intros k Hk; apply Hkeys; by right).
    destruct (String.eqb_spec i "nb_samples") as [->|Hne].
    + destruct (IH _ Hrun Hkeys') as (Hn & Hd & Hm).
      split_and!; [done..|]. intros k. rewrite Hm.
      apply decide_ext. rewrite elem_of_cons. unfold NB_SAMPLES. tauto.
    + apply wbind_Ok in Hrun as (v & w1 & [Hget ->]%wlift_Ok & Hrun).
      apply wbind_Ok in Hrun as ([] & w2 & Hset & Hrest).
      destruct (Hkeys i) as [b Hb]; [by left|].
      rewrite get_meta_str_nonempty in Hget
        by by apply get_meta_str_Ok in Hget.
      cbn [key_bytes] in Hget. unfold encode_str in Hget at 1.
      rewrite Hb in Hget. apply decode_str_Ok in Hget as ->.
      apply set_meta_str_Ok in Hset as [_ ->].
      destruct (IH _ Hrest Hkeys') as (Hn & Hd & Hm).
      cbn [with_env nb_samples w_env txn_put data_db meta_db key_bytes] in *.
      unfold encode_str in Hm.
      split_and!; [done..|]. intros k. rewrite Hm.
      destruct (decide (k = i)) as [->|Hki].
      * rewrite lookup_insert_eq.
        rewrite (decide_True (P := i ∈ i :: keys /\ i <> NB_SAMPLES))
          by (split; [by left|done]).
        by case_decide.
      * rewrite lookup_insert_ne by done.
        apply decide_ext. rewrite elem_of_cons. tauto.
Qed.


End Merge.

(* ===================================================================== *)
(** * Ranged retrieval, slices and introspection                          *)
(* ===================================================================== *)

Section Retrieval.
Context `{B : Backend}.

Lemma collect_Ok {A} (f : Z -> result A) idx out l :
  collect f idx out = Ok l <->
  exists l', l = (out ++ l')%list /\ Forall2 (fun i x => f i = Ok x) idx l'.
Proof.
  revert out l. induction idx as [|i idx IH]; intros out l; cbn [collect].
  - split.
    + intros [= <-]. exists []. split; [by rewrite app_nil_r|constructor].
    + intros (l' & -> & ->%Forall2_nil_inv_l). by rewrite app_nil_r.
  - destruct (f i) as [x|e] eqn:Hfi; cbn [rbind].
    + rewrite IH. split.
      * intros (l' & -> & Hl'). exists (x :: l').
        split; [by rewrite <- app_assoc|]. by constructor.
      * intros (l' & -> & (y & l'' & Hy & Hl'' & ->)%Forall2_cons_inv_l).
        assert (y = x) as -> by congruence.
        exists l''. split; [by rewrite <- app_assoc|done].
    + split; [done|].
      intros (l' & _ & (y & l'' & Hy & _)%Forall2_cons_inv_l). congruence.
Qed.

Lemma collect_Raise {A} (f : Z -> result A) idx out e :
  collect f idx out = Raise e -> exists i, i ∈ idx /\ f i = Raise e.
Proof.
  revert out. induction idx as [|i idx IH]; intros out; cbn [collect]; [done|].
  destruct (f i) as [x|e'] eqn:Hfi; cbn [rbind].
  - intros (j & Hj & Hfj)%IH. exists j. split; [by right|done].
  - intros [= ->]. exists i. split; [by left|done].
Qed.

Lemma collect_ext {A} (f g : Z -> result A) idx out :
  (forall i, i ∈ idx -> f i = g i) -> collect f idx out = collect g idx out.
Proof.
  revert out. induction idx as [|i idx IH]; intros out Hfg; [done|].
  cbn [collect]. rewrite (Hfg i) by by left.
  destruct (g i); [|done]. cbn [rbind]. apply IH.
  intros j Hj. apply Hfg. by right.
Qed.

Lemma elem_of_py_range_from lo hi i :
  i ∈ py_range_from lo hi <-> lo <= i < hi.
Proof.
  unfold py_range_from. rewrite list_elem_of_fmap. split.
  - intros (k & -> & Hk%elem_of_seq). lia.
  - intros Hi. exists (Z.to_nat (i - lo)). split; [lia|].
    apply elem_of_seq. lia.
Qed.

Lemma length_py_range_from lo hi :
  length (py_range_from lo hi) = Z.to_nat (hi - lo).
Proof. unfold py_range_from. by rewrite length_fmap, length_seq. Qed.

Lemma lookup_py_range_from lo hi k j :
  py_range_from lo hi !! k = Some j -> j = lo + Z.of_nat k.
Proof.
  unfold py_range_from. rewrite list_lookup_fmap.
  destruct (seq 0 _ !! k) as [n|] eqn:Hn; [|done].
  apply lookup_seq in Hn as [-> _]. by intros [= <-].
Qed.

Lemma get_sample_read_entry (r : reader) i :
  0 <= i < r_nb_samples r -> get_sample r i = read_entry (r_env r) i.
Proof.
  intros Hi. unfold get_sample, read_entry.
  replace (0 >? i) with false by lia.
  replace (r_nb_samples r <=? i) with false by lia. done.
Qed.


(** X15. In range, [get_samples(i, size)] is the list
    [[get_sample(j) for j in range(i, i + size)]], exceptions included: it
    has [max(0, size)] items, and item [k] is what [get_sample(i + k)]
    returns. *)
Theorem get_samples_in_range (r : reader) i size :
  0 <= i -> i + size <= Reader_len r ->
  get_samples r i size
  = collect (get_sample r) (py_range_from i (i + size)) [] /\
  forall l, get_samples r i size = Ok l ->
    Z.of_nat (length l) = Z.max 0 size /\
    forall k s, l !! k = Some s -> get_sample r (i + Z.of_nat k) = Ok s.
Proof.
  unfold Reader_len. intros Hi Hsize.
  assert (Heq : get_samples r i size
                = collect (get_sample r) (py_range_from i (i + size)) []).
  { unfold get_samples.
    replace (0 >? i) with false by lia.
    replace (r_nb_samples r <=? i + size - 1) with false by lia.
    cbn [orb]. apply collect_ext. intros j Hj%elem_of_py_range_from.
    symmetry. apply get_sample_read_entry. lia. }
  split; [done|]. intros l Hl. rewrite Heq in Hl.
  apply collect_Ok in Hl as (l' & -> & Hall). cbn [app].
  split.
  - rewrite <- (Forall2_length _ _ _ Hall), length_py_range_from. lia.
  - intros k s Hk.
    destruct (Forall2_lookup_r _ _ _ _ _ Hall Hk) as (j & Hj & Hget).
    by apply lookup_py_range_from in Hj as ->.
Qed.

(** X16. The bounds of [get_samples]: a negative start, or a range that
    ends after the last sample, raises [IndexError]; a range without
    indices that passes the guard returns the empty list, also where its
    start lies at or after the end of the store. *)
Theorem get_samples_bounds (r : reader) i size :
  (i < 0 \/ Reader_len r < i + size ->
   get_samples r i size = Raise IndexError) /\
  (0 <= i -> size <= 0 -> i + size <= Reader_len r ->
   get_samples r i size = Ok []).
Proof.
  unfold Reader_len, get_samples. split.
  - intros [Hi|Hi].
    + by replace (0 >? i) with true by lia.
    + replace (r_nb_samples r <=? i + size - 1) with true by lia.
      by rewrite orb_true_r.
  - intros Hi Hsize Hlen.
    replace (0 >? i) with false by lia.
    replace (r_nb_samples r <=? i + size - 1) with false by lia.
    cbn [orb]. unfold py_range_from.
    by replace (Z.to_nat (i + size - i)) with 0%nat by lia.
Qed.


Lemma slice_indices_Returns start stop step len lo hi st :
  slice_indices start stop step len = Returns (lo, hi, st) ->
  0 <= len /\ st = default 1 step /\ st <> 0 /\
  (0 < st -> 0 <= lo <= len /\ 0 <= hi <= len) /\
  (st < 0 -> -1 <= lo <= len - 1 /\ -1 <= hi <= len - 1).
Proof.
  unfold slice_indices. destruct (Z.ltb_spec len 0); [done|]. cbv zeta.
  destruct (Z.eqb_spec (default 1 step) 0); [done|].
  intros [= <- <- <-].
  split_and!; [done..| |]; intros Hst;
    destruct start as [a|], stop as [b|];
    repeat match goal with
           | |- context [?x <? ?y] => destruct (Z.ltb_spec x y)
           end; lia.
Qed.

Lemma slice_indices_Throws start stop step len e :
  slice_indices start stop step len = Throws e ->
  e = LengthNegative /\ len < 0 \/
  e = SliceStepZero /\ 0 <= len /\ step = Some 0.
Proof.
  unfold slice_indices. destruct (Z.ltb_spec len 0).
  - intros [= <-]. by left.
  - cbv zeta. destruct (Z.eqb_spec (default 1 step) 0) as [Hst|]; [|done].
    intros [= <-]. right.
    destruct step as [st|]; cbn in Hst; [|done].
    subst. split_and!; [done|lia|done].
Qed.

Lemma range_length_nonneg start stop step : 0 <= range_length start stop step.
Proof.
  unfold range_length.
  destruct (Z.ltb_spec 0 step), (Z.ltb_spec start stop); cbn [andb];
    repeat match goal with
           | |- context [?x <? ?y] => destruct (Z.ltb_spec x y); cbn [andb]
           end; try lia.
  - assert (0 <= (stop - 1 - start) / step)
      by (apply Z.div_pos; lia). lia.
  - assert (0 <= (start - 1 - stop) / - step)
      by (apply Z.div_pos; lia). lia.
Qed.

Lemma lookup_py_range_step start stop step k j :
  py_range_step start stop step !! k = Some j ->
  j = start + Z.of_nat k * step /\
  Z.of_nat k < range_length start stop step.
Proof.
  unfold py_range_step. rewrite list_lookup_fmap.
  destruct (seq 0 _ !! k) as [n|] eqn:Hn; [|done].
  apply lookup_seq in Hn as [-> Hlt]. intros [= <-]. split; [done|].
  cbn [Nat.add]. lia.
Qed.

Lemma length_py_range_step start stop step :
  length (py_range_step start stop step)
  = Z.to_nat (range_length start stop step).
Proof. unfold py_range_step. by rewrite length_fmap, length_seq. Qed.

(** The members of [range(start, stop, step)] lie between [start] and
    [stop], [stop] left out. *)
Lemma elem_of_py_range_step start stop step i :
  i ∈ py_range_step start stop step ->
  (0 < step -> start <= i < stop) /\ (step < 0 -> stop < i <= start).
Proof.
  intros (k & Hk)%list_elem_of_lookup.
  apply lookup_py_range_step in Hk as [-> Hk].
  unfold range_length in Hk. split; intros Hst.
  - replace (0 <? step) with true in Hk by lia.
    destruct (Z.ltb_spec start stop); cbn [andb] in Hk.
    + pose proof (Z.mul_div_le (stop - 1 - start) step Hst). nia.
    + replace (step <? 0) with false in Hk by lia. cbn [andb] in Hk. lia.
  - replace (0 <? step) with false in Hk by lia.
    replace (step <? 0) with true in Hk by lia. cbn [andb] in Hk.
    destruct (Z.ltb_spec stop start).
    + pose proof (Z.mul_div_le (start - 1 - stop) (- step) ltac:(lia)). nia.
    + lia.
Qed.

(** Every index that a slice selects is an index of the store. *)
Lemma slice_indices_in_bounds start stop step len lo hi st i :
  slice_indices start stop step len = Returns (lo, hi, st) ->
  i ∈ py_range_step lo hi st -> 0 <= i < len.
Proof.
  intros (Hlen & _ & Hst & Hpos & Hneg)%slice_indices_Returns
         [Hup Hdown]%elem_of_py_range_step.
  destruct (Z.lt_total st 0) as [Hs|[Hs|Hs]]; [|done|].
  - specialize (Hneg Hs). specialize (Hdown Hs). lia.
  - specialize (Hpos Hs). specialize (Hup Hs). lia.
Qed.

Lemma py_len_Returns (r : reader) :
  0 <= Reader_len r -> py_len r = Returns (Reader_len r).
Proof.
  intros Hlen. unfold py_len. by replace (Reader_len r <? 0) with false by lia.
Qed.

Lemma py_len_Throws (r : reader) :
  Reader_len r < 0 -> py_len r = Throws NegativeLen.
Proof.
  intros Hlen. unfold py_len. by replace (Reader_len r <? 0) with true by lia.
Qed.

Lemma Reader_getitem_int_nonneg (r : reader) i :
  0 <= Reader_len r -> Reader_getitem_int r i = outcome_of (Reader_getitem r i).
Proof.
  intros Hlen. unfold Reader_getitem_int. by rewrite py_len_Returns.
Qed.

Lemma Reader_getitem_int_Returns (r : reader) i s :
  Reader_getitem_int r i = Returns s -> Reader_getitem r i = Ok s.
Proof.
  unfold Reader_getitem_int. destruct (py_len r); [|done].
  destruct (Reader_getitem r i); [|done]. by intros [= ->].
Qed.

Lemma Reader_getitem_slice_Returns (r : reader) start stop step lo hi st :
  slice_indices start stop step (Reader_len r) = Returns (lo, hi, st) ->
  Reader_getitem_key r (IdxSlice start stop step)
  = outcome_of
      (rbind (collect (get_sample r) (py_range_step lo hi st) [])
             (fun l => Ok (Many l))).
Proof.
  intros Hsl. unfold Reader_getitem_key.
  rewrite py_len_Returns by by apply slice_indices_Returns in Hsl as [? _].
  rewrite Hsl. do 2 f_equal.
  apply collect_ext. intros j Hj. apply Reader_getitem_in_range.
  by apply (slice_indices_in_bounds _ _ _ _ _ _ _ _ Hsl).
Qed.

(** X17. Slicing clamps. Whatever the bounds of a slice, the indices it
    selects are indices of the store: [reader[start:stop:step]] is the
    list [[get_sample(j) for j in range(lo, hi, st)]] for the clamped
    triple [(lo, hi, st)], and the bounds checks of [__getitem__] and of
    [get_sample] pass for every [j]. *)
Theorem Reader_getitem_slice_clamped (r : reader) start stop step lo hi st :
  slice_indices start stop step (Reader_len r) = Returns (lo, hi, st) ->
  (forall j, j ∈ py_range_step lo hi st -> 0 <= j < Reader_len r) /\
  Reader_getitem_key r (IdxSlice start stop step)
  = outcome_of
      (rbind (collect (get_sample r) (py_range_step lo hi st) [])
             (fun l => Ok (Many l))).
Proof.
  intros Hsl. split.
  - intros j Hj. by apply (slice_indices_in_bounds _ _ _ _ _ _ _ _ Hsl).
  - by apply Reader_getitem_slice_Returns.
Qed.

(** X18. The keys that [__getitem__] refuses, on a store whose count is
    below [2 ^ 63]. A slice with step zero raises the [ValueError] of
    [slice.indices], and a key that is neither an integer nor a slice
    raises [TypeError], whatever the count; on a store whose count is
    negative every integer and every slice raises the [ValueError] of
    [len]. No sample is read in these cases, and a slice does not fail in
    another way before the first sample is read. *)
Theorem Reader_getitem_key_refused (r : reader) start stop :
  (0 <= Reader_len r < 2 ^ 63 ->
   Reader_getitem_key r (IdxSlice start stop (Some 0))
   = Throws SliceStepZero) /\
  Reader_getitem_key r IdxOther = Throws (Of TypeError) /\
  (Reader_len r < 0 ->
   forall k step,
     Reader_getitem_key r (IdxInt k) = Throws NegativeLen /\
     Reader_getitem_key r (IdxSlice start stop step) = Throws NegativeLen) /\
  (forall step e,
     0 <= Reader_len r < 2 ^ 63 ->
     slice_indices start stop step (Reader_len r) = Throws e ->
     Reader_getitem_key r (IdxSlice start stop step) = Throws e /\
     e = SliceStepZero /\ step = Some 0).
Proof.
  split_and!.
  - intros [Hlen _]. unfold Reader_getitem_key.
    rewrite py_len_Returns by done.
    unfold slice_indices. by replace (Reader_len r <? 0) with false by lia.
  - done.
  - intros Hlen k step. unfold Reader_getitem_key, Reader_getitem_int.
    by rewrite py_len_Throws.
  - intros step e [Hlen _] He. unfold Reader_getitem_key.
    rewrite py_len_Returns by done. rewrite He. split; [done|].
    apply slice_indices_Throws in He as [[_ Hneg]|(-> & _ & ->)]; [lia|done].
Qed.

(** A loop over indices that can all be read returns what they hold. *)
Lemma collect_total {A} (f : Z -> result A) (P : Z -> A -> Prop) idx out :
  (forall i, i ∈ idx -> exists x, f i = Ok x /\ P i x) ->
  exists l', collect f idx out = Ok (out ++ l')%list /\ Forall2 P idx l'.
Proof.
  revert out. induction idx as [|i idx IH]; intros out Hf.
  - exists []. split; [by rewrite app_nil_r|constructor].
  - destruct (Hf i) as (x & Hx & HP); [by left|].
    destruct (IH (out ++ [x])%list) as (l' & Hl' & Hall).
    { intros j Hj. apply Hf. by right. }
    exists (x :: l'). split; [|by constructor].
    cbn [collect]. rewrite Hx. cbn [rbind]. by rewrite Hl', <- app_assoc.
Qed.

(** The [Reader] of a store that a [Writer] filled from scratch. *)
Lemma put_all_reader l msl ram w0 w1 :
  Writer_init empty_env msl ram = Ok w0 ->
  put_all l w0 = (Ok tt, w1) ->
  let r := {| r_env := w_env w1; r_nb_samples := Z.of_nat (length l) |} in
  Reader_init (w_env w1) = Ok r /\
  forall k s, l !! k = Some s -> s <> ∅ -> get_sample r (Z.of_nat k) = Ok s.
Proof.
  intros Hinit Hrun r.
  destruct (Writer_init_Ok _ _ _ _ Hinit) as (Hm & Hr & _).
  rewrite Writer_init_create in Hinit by done. injection Hinit as <-.
  destruct (put_all_Ok _ _ _ Hrun)
    as (Hn & _ & _ & _ & Hmeta & Hall & Hdata & _); [done|].
  cbn [nb_samples w_env meta_db empty_env] in *. split.
  - destruct l as [|s l].
    + apply Reader_init_no_count. by rewrite Hmeta.
    + apply Reader_init_count. rewrite Hmeta. by rewrite lookup_insert_eq.
  - intros k s Hk Hne. apply get_sample_stored.
    + cbn [r r_nb_samples]. apply lookup_lt_Some in Hk. lia.
    + cbn [r r_env]. by apply Hdata.
    + by apply (Hall k).
Qed.

(** Two lists that hold, position by position, the items of [l] at the
    same indices are equal. *)
Lemma Forall2_lookup_unique {A} (l : list A) idx items items' :
  Forall2 (fun j s => l !! Z.to_nat j = Some s) idx items ->
  Forall2 (fun j s => l !! Z.to_nat j = Some s) idx items' ->
  items = items'.
Proof.
  intros H. revert items'. induction H as [|j s idx items Hj _ IH];
    intros items' H'.
  - by apply Forall2_nil_inv_l in H' as ->.
  - apply Forall2_cons_inv_l in H' as (s' & items'' & Hj' & H' & ->).
    f_equal; [congruence|by apply IH].
Qed.

Lemma range_length_up start stop :
  range_length start stop 1 = Z.max 0 (stop - start).
Proof.
  unfold range_length. cbn [Z.ltb Z.compare andb].
  destruct (Z.ltb_spec start stop); cbn [andb].
  - rewrite Z.div_1_r. lia.
  - lia.
Qed.

Lemma range_length_down start stop :
  range_length start stop (-1) = Z.max 0 (start - stop).
Proof.
  unfold range_length. cbn [Z.ltb Z.compare andb Z.opp].
  destruct (Z.ltb_spec stop start).
  - rewrite Z.div_1_r. lia.
  - lia.
Qed.

(** [range(start, stop, 1)] is [range(start, stop)]. *)
Lemma py_range_step_1 start stop :
  py_range_step start stop 1 = py_range_from start stop.
Proof.
  unfold py_range_step, py_range_from. rewrite range_length_up.
  replace (Z.to_nat (Z.max 0 (stop - start)))
    with (Z.to_nat (stop - start)) by lia.
  apply list_fmap_ext. intros _ k _. lia.
Qed.


(** Reading a list of in-range indices from a store that a [Writer]
    filled from scratch with mappings that have fields. *)
Lemma collect_put_all l msl ram w0 w1 idx :
  Writer_init empty_env msl ram = Ok w0 ->
  put_all l w0 = (Ok tt, w1) ->
  (forall s, s ∈ l -> s <> ∅) ->
  (forall j, j ∈ idx -> 0 <= j < Z.of_nat (length l)) ->
  exists items,
    collect (get_sample {| r_env := w_env w1;
                           r_nb_samples := Z.of_nat (length l) |}) idx []
    = Ok items /\
    Forall2 (fun j s => l !! Z.to_nat j = Some s) idx items.
Proof.
  intros Hinit Hrun Hne Hidx.
  destruct (put_all_reader _ _ _ _ _ Hinit Hrun) as [_ Hget].
  apply (collect_total _ (fun j s => l !! Z.to_nat j = Some s) idx []).
  intros j Hj. specialize (Hidx j Hj).
  destruct (lookup_lt_is_Some_2 l (Z.to_nat j)) as [s Hs]; [lia|].
  exists s. split; [|done].
  replace j with (Z.of_nat (Z.to_nat j)) by lia.
  apply Hget; [done|]. apply Hne. by eapply list_elem_of_lookup_2.
Qed.

(** The slice [a:b] of a store that reaches to [b]. *)
Lemma slice_indices_window a b len :
  0 <= a <= b -> b <= len ->
  slice_indices (Some a) (Some b) None len = Returns (a, b, 1).
Proof.
  intros Hab Hb. unfold slice_indices. cbn [default].
  replace (len <? 0) with false by lia. cbn [Z.eqb Z.ltb Z.compare].
  destruct (Z.ltb_spec a 0), (Z.ltb_spec b 0); try lia.
  do 3 f_equal; lia.
Qed.

Lemma Forall2_window {A} (l : list A) (i n : nat) :
  (i + n <= length l)%nat ->
  Forall2 (fun j s => l !! Z.to_nat j = Some s)
          (py_range_from (Z.of_nat i) (Z.of_nat (i + n))) (take n (drop i l)).
Proof.
  intros Hin. apply Forall2_same_length_lookup_2.
  - rewrite length_py_range_from, length_take, length_drop. lia.
  - intros k j s Hj%lookup_py_range_from Hs. subst j.
    apply lookup_take_Some in Hs as [Hs _]. rewrite lookup_drop in Hs.
    by replace (Z.to_nat (Z.of_nat i + Z.of_nat k)) with (i + k)%nat by lia.
Qed.

(** X19. Windows read back. After successful [put_samples] calls on a
    fresh store with the mappings of a list [l], all with at least one
    field, [get_samples(i, n)] and [reader[i:i+n]] both return the window
    of [n] items of [l] from position [i]. *)
Theorem put_all_get_samples l msl ram w0 w1 (i n : nat) :
  Writer_init empty_env msl ram = Ok w0 ->
  put_all l w0 = (Ok tt, w1) ->
  (forall s, s ∈ l -> s <> ∅) ->
  (i + n <= length l)%nat ->
  exists r,
    Reader_init (w_env w1) = Ok r /\
    get_samples r (Z.of_nat i) (Z.of_nat n) = Ok (take n (drop i l)) /\
    Reader_getitem_key r
      (IdxSlice (Some (Z.of_nat i)) (Some (Z.of_nat (i + n))) None)
    = Returns (Many (take n (drop i l))).
Proof.
  intros Hinit Hrun Hne Hin.
  destruct (put_all_reader _ _ _ _ _ Hinit Hrun) as [Hr _].
  eexists. split; [exact Hr|].
  destruct (collect_put_all l msl ram w0 w1
              (py_range_from (Z.of_nat i) (Z.of_nat (i + n)))
              Hinit Hrun Hne) as (items & Hitems & Hall).
  { intros j Hj%elem_of_py_range_from. lia. }
  rewrite (Forall2_lookup_unique _ _ _ _ Hall (Forall2_window l i n Hin))
    in Hitems.
  split.
  - unfold get_samples. cbn [r_nb_samples r_env].
    replace (0 >? Z.of_nat i) with false by lia.
    replace (Z.of_nat (length l) <=? Z.of_nat i + Z.of_nat n - 1)
      with false by lia.
    cbn [orb]. replace (Z.of_nat i + Z.of_nat n) with (Z.of_nat (i + n)) by lia.
    rewrite <- Hitems. apply collect_ext.
    intros j Hj%elem_of_py_range_from. symmetry.
    apply get_sample_read_entry. cbn [r_nb_samples]. lia.
  - rewrite (Reader_getitem_slice_Returns _ _ _ _
               (Z.of_nat i) (Z.of_nat (i + n)) 1).
    + by rewrite py_range_step_1, Hitems.
    + apply slice_indices_window; unfold Reader_len; cbn [r_nb_samples]; lia.
Qed.


Lemma of_nat_ltb_0 (n : nat) : (Z.of_nat n <? 0) = false.
Proof. destruct (Z.ltb_spec (Z.of_nat n) 0); [lia|done]. Qed.

(** X20. Slices read back as slices of the list. After successful
    [put_samples] calls on a fresh store with the mappings of a list [l],
    all with at least one field, [reader[start:stop:step]] returns the
    items of [l] at the indices of the slice, in their order; [reader[:]]
    returns [l], and [reader[::-1]] returns [l] reversed. *)
Theorem put_all_slice l msl ram w0 w1 start stop step lo hi st :
  Writer_init empty_env msl ram = Ok w0 ->
  put_all l w0 = (Ok tt, w1) ->
  (forall s, s ∈ l -> s <> ∅) ->
  slice_indices start stop step (Z.of_nat (length l)) = Returns (lo, hi, st) ->
  exists r,
    Reader_init (w_env w1) = Ok r /\
    (exists items,
       Reader_getitem_key r (IdxSlice start stop step)
       = Returns (Many items) /\
       Forall2 (fun j s => l !! Z.to_nat j = Some s)
               (py_range_step lo hi st) items) /\
    Reader_getitem_key r (IdxSlice None None None) = Returns (Many l) /\
    Reader_getitem_key r (IdxSlice None None (Some (-1)))
    = Returns (Many (reverse l)).
Proof.
  intros Hinit Hrun Hne Hsl.
  destruct (put_all_reader _ _ _ _ _ Hinit Hrun) as [Hr _].
  eexists. split; [exact Hr|].
  assert (Hany : forall start stop step lo hi st,
            slice_indices start stop step (Z.of_nat (length l))
            = Returns (lo, hi, st) ->
            exists items,
              Reader_getitem_key
                {| r_env := w_env w1; r_nb_samples := Z.of_nat (length l) |}
                (IdxSlice start stop step)
              = Returns (Many items) /\
              Forall2 (fun j s => l !! Z.to_nat j = Some s)
                      (py_range_step lo hi st) items).
  { clear Hsl start stop step lo hi st. intros start stop step lo hi st Hsl.
    destruct (collect_put_all l msl ram w0 w1 (py_range_step lo hi st)
                Hinit Hrun Hne) as (items & Hitems & Hall).
    { intros j Hj. by apply (slice_indices_in_bounds _ _ _ _ _ _ _ _ Hsl). }
    exists items. split; [|done].
    rewrite (Reader_getitem_slice_Returns _ _ _ _ lo hi st) by done.
    by rewrite Hitems. }
  split_and!.
  - by apply Hany.
  - destruct (Hany None None None 0 (Z.of_nat (length l)) 1)
      as (items & -> & Hall).
    { unfold slice_indices. cbn [default].
      by rewrite of_nat_ltb_0. }
    do 2 f_equal. apply (Forall2_lookup_unique _ _ _ _ Hall).
    rewrite py_range_step_1.
    pose proof (Forall2_window l 0 (length l) ltac:(lia)) as Hw.
    by rewrite drop_0, firstn_all in Hw.
  - destruct (Hany None None (Some (-1)) (Z.of_nat (length l) - 1) (-1) (-1))
      as (items & -> & Hall).
    { unfold slice_indices. cbn [default].
      by rewrite of_nat_ltb_0. }
    do 2 f_equal. apply (Forall2_lookup_unique _ _ _ _ Hall).
    apply Forall2_same_length_lookup_2.
    + rewrite length_py_range_step, range_length_down, length_reverse. lia.
    + intros k j s [-> Hk]%lookup_py_range_step Hs.
      rewrite range_length_down in Hk.
      rewrite reverse_lookup in Hs by lia. rewrite <- Hs. f_equal. lia.
Qed.


Lemma Reader_getitem_Ok (r : reader) i s :
  Reader_getitem r i = Ok s -> exists j, get_sample r j = Ok s.
Proof.
  unfold Reader_getitem. destruct (_ || _); [done|]. eauto.
Qed.

Lemma Reader_getitem_zero_len (r : reader) i :
  Reader_len r = 0 -> Reader_getitem r i = Raise IndexError.
Proof.
  intros Hlen. unfold Reader_getitem. rewrite Hlen.
  destruct (Z.gtb_spec 0 i) as [Hi|Hi].
  - by replace (0 >? i + 0) with true by lia.
  - replace (0 <=? i) with true by lia. by rewrite orb_true_r.
Qed.

Lemma specification_of_arrays items spec0 :
  NoDup items.*1 ->
  (forall k v, (k, v) ∈ items -> is_ndarray v = true) ->
  exists spec,
    specification_of items spec0 = Ok spec /\
    forall k,
      spec !! k =
        match (list_to_map items : gmap string pyobj) !! k with
        | Some (PArr a) => Some (dtype a, shape a)
        | Some _ => None
        | None => spec0 !! k
        end.
Proof.
  revert spec0. induction items as [|[k0 v0] items IH]; intros spec0 Hnd Harr.
  - exists spec0. split; [done|]. intros k. cbn [list_to_map foldr].
    by rewrite lookup_empty.
  - rewrite fmap_cons in Hnd. apply NoDup_cons in Hnd as [Hk0 Hnd].
    assert (Hv0 : is_ndarray v0 = true) by (apply (Harr k0); by left).
    destruct v0 as [a| | |]; try done.
    destruct (IH (<[k0 := (dtype a, shape a)]> spec0) Hnd)
      as (spec & Hspec & Hlook).
    { intros k v Hkv. apply (Harr k). by right. }
    exists spec. split; [done|]. intros k. rewrite Hlook.
    cbn [list_to_map foldr uncurry].
    destruct (decide (k = k0)) as [->|Hk].
    + rewrite lookup_insert_eq.
      rewrite (not_elem_of_list_to_map_1 (M := gmap string)) by done.
      by rewrite lookup_insert_eq.
    + by rewrite !lookup_insert_ne by done.
Qed.

Lemma specification_of_non_array items spec0 k v :
  (k, v) ∈ items -> is_ndarray v = false ->
  specification_of items spec0 = Raise AttributeError.
Proof.
  revert spec0. induction items as [|[k0 v0] items IH]; intros spec0 Hin Hv.
  - by apply elem_of_nil in Hin.
  - apply elem_of_cons in Hin as [[= <- <-]|Hin].
    + by destruct v.
    + cbn [specification_of]. destruct v0; try done. by apply IH.
Qed.

(** X21. The specification of a sample. On a store that holds its samples
    as a [Writer] stores them, [get_data_specification(i)] returns, for a
    sample that [reader[i]] returns, the dtype and the shape of each of its
    arrays; it has an entry for every field of the sample, and
    [get_data_keys(i)] lists these fields, each once. *)
Theorem get_data_specification_stored (r : reader) i s :
  stored_samples (r_env r) ->
  Reader_getitem_int r i = Returns s ->
  get_data_specification r i = Returns (array_specification s) /\
  (forall k, is_Some (array_specification s !! k) <-> is_Some (s !! k)) /\
  exists keys,
    get_data_keys r i = Returns keys /\ NoDup keys /\
    forall k, k ∈ keys <-> is_Some (array_specification s !! k).
Proof.
  intros Hst Hint.
  pose proof (Reader_getitem_int_Returns _ _ _ Hint) as Hget.
  destruct (Reader_getitem_Ok _ _ _ Hget) as [j Hj].
  destruct (get_sample_stored_samples _ _ _ Hst Hj) as [_ Harr].
  assert (Hdom : forall k,
            is_Some (array_specification s !! k) <-> is_Some (s !! k)).
  { intros k. unfold array_specification. rewrite lookup_omap.
    destruct (s !! k) as [v|] eqn:Hv; cbn [mbind option_bind].
    - specialize (Harr _ _ Hv). by destruct v.
    - split; by intros [? ?]. }
  split_and!; [|done|].
  - unfold get_data_specification. rewrite Hint.
    destruct (specification_of_arrays (map_to_list s) ∅)
      as (spec & -> & Hlook).
    { apply NoDup_fst_map_to_list. }
    { intros k v Hkv%elem_of_map_to_list. by apply (Harr k). }
    cbn [outcome_of]. f_equal. apply map_eq. intros k.
    rewrite Hlook, list_to_map_to_list.
    unfold array_specification. rewrite lookup_omap.
    destruct (s !! k) as [v|] eqn:Hv; cbn [mbind option_bind]; [|done].
    by destruct v.
  - unfold get_data_keys. rewrite Hint. eexists.
    split; [done|]. split; [apply NoDup_fst_map_to_list|].
    intros k. rewrite Hdom, list_elem_of_fmap. split.
    + intros ([k' v] & -> & Hin%elem_of_map_to_list). eauto.
    + intros [v Hv]. exists (k, v). split; [done|].
      by apply elem_of_map_to_list.
Qed.

(** X22. Where the introspection calls fail. On a store of length zero,
    [get_data_keys], [get_data_specification] and [get_data_value] raise
    [IndexError] for every index, the default [i=0] included; an exception
    of [reader[i]] is passed on by all three; and a sample with a value
    that is not an array has no specification: [AttributeError]. *)
Theorem get_data_failures (r : reader) :
  (Reader_len r = 0 ->
   forall i key,
     get_data_keys r i = Throws (Of IndexError) /\
     get_data_specification r i = Throws (Of IndexError) /\
     get_data_value r i key = Throws (Of IndexError)) /\
  (forall i e key,
     Reader_getitem_int r i = Throws e ->
     get_data_keys r i = Throws e /\
     get_data_specification r i = Throws e /\
     get_data_value r i key = Throws e) /\
  (forall i s k v,
     Reader_getitem_int r i = Returns s ->
     s !! k = Some v -> is_ndarray v = false ->
     get_data_specification r i = Throws (Of AttributeError)).
Proof.
  assert (Hpass : forall i e key,
            Reader_getitem_int r i = Throws e ->
            get_data_keys r i = Throws e /\
            get_data_specification r i = Throws e /\
            get_data_value r i key = Throws e).
  { intros i e key He.
    unfold get_data_keys, get_data_specification, get_data_value.
    by rewrite He. }
  split_and!; [|done|].
  - intros Hlen i key. apply Hpass.
    rewrite Reader_getitem_int_nonneg by lia.
    by rewrite Reader_getitem_zero_len.
  - intros i s k v Hget Hk Hv. unfold get_data_specification.
    rewrite Hget.
    rewrite (specification_of_non_array _ _ k v); [done| |done].
    by apply elem_of_map_to_list.
Qed.

(** X23. A stored array is read back by name. After successful
    [put_samples] calls on a fresh store, [get_data_value(k, key)] returns
    the array that call [k] stored under [key], and raises [KeyError] when
    the mapping of call [k] had no such field; the index [k - n] names the
    same sample, and an index outside [-n, n) raises [IndexError]. *)
Theorem put_all_get_data_value l msl ram w0 w1 k s :
  Writer_init empty_env msl ram = Ok w0 ->
  put_all l w0 = (Ok tt, w1) ->
  l !! k = Some s -> s <> ∅ ->
  exists r,
    Reader_init (w_env w1) = Ok r /\
    (forall key,
       get_data_value r (Z.of_nat k) key
       = match s !! key with
         | Some v => Returns v
         | None => Throws KeyError
         end /\
       get_data_value r (Z.of_nat k - Z.of_nat (length l)) key
       = get_data_value r (Z.of_nat k) key) /\
    (forall i key,
       i < - Z.of_nat (length l) \/ Z.of_nat (length l) <= i ->
       get_data_value r i key = Throws (Of IndexError)).
Proof.
  intros Hinit Hrun Hk Hne.
  destruct (put_all_reader _ _ _ _ _ Hinit Hrun) as [Hr Hget].
  eexists. split; [exact Hr|].
  pose proof (lookup_lt_Some _ _ _ Hk) as Hlt.
  specialize (Hget _ _ Hk Hne).
  split.
  - intros key. unfold get_data_value.
    rewrite !Reader_getitem_int_nonneg
      by (unfold Reader_len; cbn [r_nb_samples]; lia).
    rewrite (Reader_getitem_negative _ (Z.of_nat k - Z.of_nat (length l)))
      by (unfold Reader_len; cbn [r_nb_samples]; lia).
    rewrite (Reader_getitem_in_range _ (Z.of_nat k))
      by (unfold Reader_len; cbn [r_nb_samples]; lia).
    unfold Reader_len. cbn [r_nb_samples].
    replace (Z.of_nat k - Z.of_nat (length l) + Z.of_nat (length l))
      with (Z.of_nat k) by lia.
    by rewrite Hget.
  - intros i key Hi. unfold get_data_value.
    rewrite Reader_getitem_int_nonneg
      by (unfold Reader_len; cbn [r_nb_samples]; lia).
    rewrite Reader_getitem_out_of_range; [done| |];
      unfold Reader_len; cbn [r_nb_samples]; lia.
Qed.

Lemma add_keys_elem dict_v ks k :
  k ∈ add_keys dict_v ks <-> is_Some (dict_v !! k) \/ k ∈ ks.
Proof.
  unfold add_keys.
  assert (Hgen : forall (l : list (string * string)) (acc : gset string),
            k ∈ foldl (fun ks kv => {[ kv.1 ]} ∪ ks) acc l
            <-> k ∈ l.*1 \/ k ∈ acc).
  { induction l as [|[k0 v0] l IH]; intros acc; cbn [foldl].
    - cbn [fmap list_fmap]. rewrite elem_of_nil. tauto.
    - rewrite IH, fmap_cons, elem_of_cons, elem_of_union, elem_of_singleton.
      cbn [fst]. tauto. }
  rewrite Hgen, list_elem_of_fmap. split.
  - intros [([k' v] & -> & Hin%elem_of_map_to_list)|Hin]; eauto.
  - intros [[v Hv]|Hin]; [left|by right].
    exists (k, v). split; [done|]. by apply elem_of_map_to_list.
Qed.

Lemma scan_entries_Ok l acc ks :
  scan_entries l acc = Ok ks ->
  forall k,
    k ∈ ks <->
    k ∈ acc \/
    exists key blob m,
      (key, blob) ∈ l /\ unpackb_dict blob = Ok m /\ is_Some (m !! k).
Proof.
  revert acc. induction l as [|[key0 blob0] l IH]; intros acc Hs k.
  - injection Hs as <-. split; [by left|].
    intros [Hk|(key & blob & m & Hin & _)]; [done|].
    by apply elem_of_nil in Hin.
  - cbn [scan_entries] in Hs.
    destruct (unpackb_dict blob0) as [m0|] eqn:Hm0; [|done].
    cbn [rbind] in Hs. rewrite (IH _ Hs k), add_keys_elem. split.
    + intros [[Hk|Hk]|(key & blob & m & Hin & Hm & Hk)].
      * right. exists key0, blob0, m0. split; [by left|done].
      * by left.
      * right. exists key, blob, m. split; [by right|done].
    + intros [Hk|(key & blob & m & Hin & Hm & Hk)]; [by left; right|].
      apply elem_of_cons in Hin as [[= -> ->]|Hin].
      * left. left. congruence.
      * right. by exists key, blob, m.
Qed.

Lemma scan_entries_total l acc :
  (forall key blob, (key, blob) ∈ l -> exists m, unpackb_dict blob = Ok m) ->
  exists ks, scan_entries l acc = Ok ks.
Proof.
  revert acc. induction l as [|[key0 blob0] l IH]; intros acc Hl.
  - by exists acc.
  - destruct (Hl key0 blob0) as [m Hm]; [by left|].
    cbn [scan_entries]. rewrite Hm. cbn [rbind]. apply IH.
    intros key blob Hin. apply (Hl key). by right.
Qed.

(** X24. The field names of a store. On a store that holds its samples as
    a [Writer] stores them, [get_data_key_info] returns the set of the
    field names of all stored samples, whatever the count says; every
    field of a sample that [get_sample] returns is in it. *)
Theorem get_data_key_info_stored (r : reader) :
  stored_samples (r_env r) ->
  exists ks,
    get_data_key_info r = Ok ks /\
    (forall k,
       k ∈ ks <->
       exists key s,
         data_db (r_env r) !! key = Some (pack_sample s) /\
         is_Some (s !! k)) /\
    (forall i s k,
       get_sample r i = Ok s -> is_Some (s !! k) -> k ∈ ks).
Proof.
  intros Hst. unfold get_data_key_info.
  destruct (scan_entries_total (map_to_list (data_db (r_env r))) ∅)
    as [ks Hks].
  { intros key blob Hin%elem_of_map_to_list.
    destruct (Hst _ _ Hin) as (s & _ & _ & ->). unfold pack_sample.
    rewrite unpackb_packb_dict. eauto. }
  exists ks. split; [done|].
  assert (Hchar : forall k,
            k ∈ ks <->
            exists key s,
              data_db (r_env r) !! key = Some (pack_sample s) /\
              is_Some (s !! k)).
  { intros k. rewrite (scan_entries_Ok _ _ _ Hks k). split.
    - intros [Hk|(key & blob & m & Hin%elem_of_map_to_list & Hm & Hk)].
      + by apply elem_of_empty in Hk.
      + destruct (Hst _ _ Hin) as (s & _ & _ & ->). unfold pack_sample in Hm.
        rewrite unpackb_packb_dict in Hm. injection Hm as <-.
        exists key, s. split; [done|]. unfold packed_fields in Hk.
        rewrite lookup_fmap in Hk. by apply fmap_is_Some in Hk.
    - intros (key & s & Hin & Hk). right.
      exists key, (pack_sample s), (packed_fields s). split_and!.
      + by apply elem_of_map_to_list.
      + unfold pack_sample. by rewrite unpackb_packb_dict.
      + unfold packed_fields. rewrite lookup_fmap. by apply fmap_is_Some. }
  split; [done|]. intros i s k Hget Hk. apply Hchar.
  unfold get_sample in Hget.
  destruct ((0 >? i) || (r_nb_samples r <=? i)); [done|]. cbv zeta in Hget.
  destruct (data_db (r_env r) !! sample_key i) as [blob|] eqn:Hl; [|done].
  destruct (Hst _ _ Hl) as (s' & _ & Harr & ->).
  exists (sample_key i), s'. split; [done|].
  unfold pack_sample in Hget. rewrite unpackb_packb_dict in Hget.
  cbn [rbind] in Hget. rewrite decode_fields_packed in Hget by done.
  by injection Hget as ->.
Qed.


(** X30. A plain slice is a ranged retrieval. For [0 <= a <= b <= len],
    [reader[a:b]] and [get_samples(a, b - a)] return the same list, or
    raise the same exception. *)
Theorem Reader_getitem_slice_get_samples (r : reader) a b :
  0 <= a <= b -> b <= Reader_len r ->
  Reader_getitem_key r (IdxSlice (Some a) (Some b) None)
  = outcome_of (rbind (get_samples r a (b - a)) (fun l => Ok (Many l))).
Proof.
  intros Hab Hb.
  rewrite (Reader_getitem_slice_Returns _ _ _ _ a b 1)
    by by apply slice_indices_window.
  rewrite py_range_step_1. do 2 f_equal.
  unfold get_samples, Reader_len in *.
  replace (0 >? a) with false by lia.
  replace (r_nb_samples r <=? a + (b - a) - 1) with false by lia.
  cbn [orb]. replace (a + (b - a)) with b by lia.
  apply collect_ext. intros j Hj%elem_of_py_range_from.
  apply get_sample_read_entry. lia.
Qed.

End Retrieval.

(* ===================================================================== *)
(** * Metadata and repair                                                 *)
(* ===================================================================== *)

Section Metadata.
Context `{B : Backend}.

(** A [Writer] that opens on a store starts at the length that a [Reader]
    of the store reports. *)
Lemma Writer_init_Reader_init (e : lmdb_env) msl ram w :
  Writer_init e msl ram = Ok w ->
  Reader_init e = Ok {| r_env := e; r_nb_samples := nb_samples w |}.
Proof.
  unfold Writer_init. destruct (msl <=? 0); [done|].
  destruct (Qle_bool ram 0); [done|].
  unfold check_db_stats, Reader_init. rewrite get_meta_str_count.
  cbn [w_env]. unfold encode_str, NB_SAMPLES.
  destruct (meta_db e !! "nb_samples") as [v|] eqn:Hv.
  - destruct (String.eqb_spec v "") as [->|Hne].
    + by intros [= <-].
    + destruct (decode_str v) as [s|]; [|done]. cbn [rbind].
      destruct (py_int s) as [n|]; [|done]. cbn [rbind].
      by intros [= <-].
  - by intros [= <-].
Qed.


Lemma repair_windows_size_inv (e e' : lmdb_env) :
  repair_windows_size e = (Ok tt, e') ->
  exists w,
    Writer_init e 1 (3 # 1) = Ok w /\
    e' = {| data_db := data_db e;
            meta_db := <[NB_SAMPLES := py_str_int (nb_samples w)]>
                         (meta_db e) |}.
Proof.
  unfold repair_windows_size.
  destruct (Writer_init e 1 (3 # 1)) as [w|] eqn:Hinit; [|done].
  destruct (Writer_close w) as [res w'] eqn:Hclose. intros [= -> <-].
  destruct (Writer_init_Ok _ _ _ _ Hinit) as (_ & _ & He & _).
  apply Writer_close_Ok in Hclose as ->. exists w. split; [done|].
  cbn [with_env w_env]. by rewrite He.
Qed.

(** X25. What a repair changes. When [repair_windows_size] returns
    normally, the data namespace and every metadata key other than the
    count key are as before; the count key holds the decimal rendering of
    the length that a [Reader] reported before, and a [Reader] opened
    afterwards reports the same length. A second repair that returns
    normally changes nothing. *)
Theorem repair_windows_size_Ok (e e' : lmdb_env) :
  repair_windows_size e = (Ok tt, e') ->
  data_db e' = data_db e /\
  (forall k, k <> NB_SAMPLES -> meta_db e' !! k = meta_db e !! k) /\
  (exists n,
     Reader_init e = Ok {| r_env := e; r_nb_samples := n |} /\
     Reader_init e' = Ok {| r_env := e'; r_nb_samples := n |} /\
     meta_db e' !! NB_SAMPLES = Some (py_str_int n)) /\
  (forall e'', repair_windows_size e' = (Ok tt, e'') -> e'' = e').
Proof.
  intros (w & Hinit & ->)%repair_windows_size_inv.
  cbn [data_db meta_db]. split_and!.
  - done.
  - intros k Hk. by rewrite lookup_insert_ne.
  - exists (nb_samples w). split_and!.
    + by apply (Writer_init_Reader_init _ _ _ _ Hinit).
    + apply Reader_init_count. cbn [meta_db]. by rewrite lookup_insert_eq.
    + by rewrite lookup_insert_eq.
  - intros e'' (w' & Hinit' & ->)%repair_windows_size_inv.
    rewrite (Writer_init_resume _ _ _ (nb_samples w)) in Hinit'; [|done..|].
    + injection Hinit' as <-. cbn [nb_samples data_db meta_db].
      by rewrite insert_insert_eq.
    + cbn [meta_db]. by rewrite lookup_insert_eq.
Qed.

(** X26. Where a repair fails. [repair_windows_size] leaves the store as
    it is when it raises. It raises [ValueError] on a store whose count
    entry is not empty and is not the UTF-8 text of an integer that [int]
    reads, although a [Reader] opens such a store, with length zero; this
    is the case of every entry that is not UTF-8, and of every ASCII
    entry that is not an integer literal. *)
Theorem repair_windows_size_raises (e : lmdb_env) :
  (forall ex e', repair_windows_size e = (Raise ex, e') -> e' = e) /\
  (forall v ex,
     meta_db e !! NB_SAMPLES = Some v -> v <> "" ->
     rbind (decode_str v) py_int = Raise ex ->
     (exists why,
        ex = ValueError why /\
        repair_windows_size e = (Raise (ValueError why), e)) /\
     Reader_init e = Ok {| r_env := e; r_nb_samples := 0 |}) /\
  (forall v,
     meta_db e !! NB_SAMPLES = Some v -> v <> "" ->
     utf8_valid v = false \/
     (all_chars is_ascii v = true /\ ~ int_literal v) ->
     exists why, repair_windows_size e = (Raise (ValueError why), e)).
Proof.
  assert (Hraise : forall v ex,
            meta_db e !! NB_SAMPLES = Some v -> v <> "" ->
            rbind (decode_str v) py_int = Raise ex ->
            (exists why,
               ex = ValueError why /\
               repair_windows_size e = (Raise (ValueError why), e)) /\
            Reader_init e = Ok {| r_env := e; r_nb_samples := 0 |}).
  { intros v ex Hv Hne Hex.
    assert (Hwhy : exists why, ex = ValueError why).
    { destruct (decode_str v) as [s|] eqn:Hs; cbn [rbind] in Hex.
      - by apply py_int_raises in Hex.
      - injection Hex as <-. apply decode_str_raises in Hs. eauto. }
    destruct Hwhy as [why ->]. split.
    + exists why. split; [done|].
      unfold repair_windows_size, Writer_init, check_db_stats.
      cbn [Z.leb Z.compare Qle_bool Qnum Qden Z.mul Pos.mul w_env].
      unfold encode_str. fold NB_SAMPLES. rewrite Hv.
      apply String.eqb_neq in Hne. rewrite Hne.
      destruct (decode_str v) as [s|]; cbn [rbind] in *.
      * by rewrite Hex.
      * by injection Hex as ->.
    + unfold Reader_init. rewrite get_meta_str_count, Hv.
      destruct (decode_str v) as [s|]; cbn [rbind] in *.
      * by rewrite Hex.
      * by injection Hex as ->. }
  split_and!; [|done|].
  - intros ex e'. unfold repair_windows_size.
    destruct (Writer_init e 1 (3 # 1)) as [w|] eqn:Hinit;
      [|by intros [= _ <-]].
    destruct (Writer_init_Ok _ _ _ _ Hinit) as (_ & _ & He & _).
    unfold Writer_close.
    destruct (set_meta_str _ _ _) as [[[]|ex'] w'] eqn:Hs; [done|].
    apply set_meta_str_raises in Hs as [-> _]. by intros [= _ <-].
  - intros v Hv Hne Hbad.
    destruct (rbind (decode_str v) py_int) as [n|ex] eqn:Hex.
    + exfalso. unfold decode_str in Hex. destruct Hbad as [Hutf|[Ha Hlit]].
      * by rewrite Hutf in Hex.
      * rewrite (utf8_valid_ascii _ Ha) in Hex. cbn [rbind] in Hex.
        by apply Hlit, (py_int_literal v n).
    + destruct (Hraise v ex Hv Hne Hex) as [(why & _ & Hrep) _]. eauto.
Qed.

(** X27. Metadata round trip. After [set_meta_str(key, s)] returned
    normally, [get_meta_str(key)] returns [s] (for [s] a well-formed
    string), be the key given as [str] or as [bytes]; every other
    metadata key, the data namespace and the cursor are as before. *)
Theorem set_meta_str_get_meta_str key s w w' :
  set_meta_str key s w = (Ok tt, w') ->
  (utf8_valid s = true ->
   get_meta_str (w_env w') key = Ok s /\
   get_meta_str (w_env w') (KStr (key_bytes key)) = Ok s /\
   get_meta_str (w_env w') (KBytes (key_bytes key)) = Ok s) /\
  (forall key', key_bytes key' <> key_bytes key ->
     get_meta_str (w_env w') key' = get_meta_str (w_env w) key') /\
  data_db (w_env w') = data_db (w_env w) /\
  nb_samples w' = nb_samples w.
Proof.
  intros [Hk ->]%set_meta_str_Ok.
  cbn [with_env w_env nb_samples txn_put data_db meta_db].
  unfold encode_str. split_and!; [|..|done|done].
  - intros Hs. rewrite !get_meta_str_nonempty by done.
    cbn [key_bytes meta_db]. unfold encode_str.
    rewrite !lookup_insert_eq. unfold decode_str. by rewrite Hs.
  - intros key' Hk'. unfold get_meta_str. cbv zeta. cbn [meta_db].
    by rewrite lookup_insert_ne.
Qed.

Lemma decode_keys_total l acc :
  (forall k v, (k, v) ∈ l -> utf8_valid k = true) ->
  exists ks, decode_keys l acc = Ok ks.
Proof.
  revert acc. induction l as [|[k0 v0] l IH]; intros acc Hl.
  - by exists acc.
  - cbn [decode_keys]. unfold decode_str at 1.
    rewrite (Hl k0 v0) by by left. cbn [rbind]. apply IH.
    intros k v Hin. apply (Hl k v). by right.
Qed.

Lemma decode_keys_invalid l acc k v :
  (k, v) ∈ l -> utf8_valid k = false ->
  decode_keys l acc = Raise (ValueError UnicodeDecode).
Proof.
  revert acc. induction l as [|[k0 v0] l IH]; intros acc Hin Hk.
  - by apply elem_of_nil in Hin.
  - cbn [decode_keys]. unfold decode_str at 1.
    destruct (utf8_valid k0) eqn:Hk0; cbn [rbind]; [|done].
    apply elem_of_cons in Hin as [[= -> ->]|Hin]; [congruence|].
    by apply IH.
Qed.

(** X28. The metadata keys. [get_meta_key_info] returns the set of the
    keys of the metadata namespace when all of them are UTF-8, the count
    key among them once a [Writer] was closed on the store; one key that
    is not UTF-8 makes it raise [UnicodeDecodeError]. *)
Theorem get_meta_key_info_keys (r : reader) :
  ((forall k, is_Some (meta_db (r_env r) !! k) -> utf8_valid k = true) ->
   exists ks,
     get_meta_key_info r = Ok ks /\
     forall k, k ∈ ks <-> is_Some (meta_db (r_env r) !! k)) /\
  (forall k, is_Some (meta_db (r_env r) !! k) -> utf8_valid k = false ->
     get_meta_key_info r = Raise (ValueError UnicodeDecode)) /\
  (forall w w' ks,
     Writer_close w = (Ok tt, w') -> r_env r = w_env w' ->
     get_meta_key_info r = Ok ks -> NB_SAMPLES ∈ ks).
Proof.
  split_and!.
  - intros Hutf. unfold get_meta_key_info.
    destruct (decode_keys_total (map_to_list (meta_db (r_env r))) ∅)
      as [ks Hks].
    { intros k v Hin%elem_of_map_to_list. apply Hutf. eauto. }
    exists ks. split; [done|]. by apply get_meta_key_info_Ok.
  - intros k [v Hv] Hk. unfold get_meta_key_info.
    apply (decode_keys_invalid _ _ k v); [|done].
    by apply elem_of_map_to_list.
  - intros w w' ks Hclose He Hks.
    apply (get_meta_key_info_Ok _ _ Hks). rewrite He.
    apply Writer_close_Ok in Hclose as ->. cbn [with_env w_env meta_db].
    rewrite lookup_insert_eq. eauto.
Qed.

End Metadata.

(* ===================================================================== *)
(** * Merging into a store that holds samples                             *)
(* ===================================================================== *)

Section MergeAppend.
Context `{B : Backend}.

Lemma lookup_py_range n k j : py_range n !! k = Some j -> j = Z.of_nat k.
Proof.
  unfold py_range. rewrite list_lookup_fmap.
  destruct (seq 0 _ !! k) as [i|] eqn:Hi; [|done].
  apply lookup_seq in Hi as [-> _]. by intros [= <-].
Qed.

Lemma length_py_range n : length (py_range n) = Z.to_nat n.
Proof. unfold py_range. by rewrite length_fmap, length_seq. Qed.

(** The copy loop of [merge_db] over a source of stored samples: the
    cursor moves by the length of the source, every sample of the source
    is stored at the cursor plus its index, and nothing else changes but
    the count entry. *)
Lemma copy_samples_range (src : reader) w w' :
  stored_samples (r_env src) ->
  copy_samples src (py_range (r_nb_samples src)) w = (Ok tt, w') ->
  0 <= nb_samples w ->
  nb_samples w' = nb_samples w + Z.max 0 (r_nb_samples src) /\
  (forall k, k <> NB_SAMPLES ->
     meta_db (w_env w') !! k = meta_db (w_env w) !! k) /\
  (forall k, 0 <= k < r_nb_samples src ->
     exists s, get_sample src k = Ok s /\ all_arrays s /\
               data_db (w_env w') !! sample_key (nb_samples w + k)
               = Some (pack_sample s)) /\
  (forall i, 0 <= i < nb_samples w ->
     data_db (w_env w') !! sample_key i = data_db (w_env w) !! sample_key i).
Proof.
  intros Hst Hcopy Hnb.
  apply copy_samples_Ok in Hcopy as (l & Hl & Hput).
  pose proof (Forall2_length _ _ _ Hl) as Hlen.
  rewrite length_py_range in Hlen.
  destruct (put_all_Ok _ _ _ Hput Hnb)
    as (Hn & _ & _ & _ & Hmeta & Hall & Hdata & Hframe).
  split_and!.
  - lia.
  - intros k Hk. rewrite Hmeta. destruct l; [done|].
    by rewrite lookup_insert_ne.
  - intros k Hk.
    destruct (lookup_lt_is_Some_2 l (Z.to_nat k)) as [s Hs]; [lia|].
    destruct (Forall2_lookup_r _ _ _ _ _ Hl Hs) as (j & Hj & Hget).
    apply lookup_py_range in Hj as ->.
    rewrite Z2Nat.id in Hget by lia.
    rewrite Reader_getitem_in_range in Hget by (unfold Reader_len; lia).
    destruct (get_sample_stored_samples _ _ _ Hst Hget) as [Hne Harr].
    exists s. split_and!; [done..|].
    specialize (Hdata _ _ Hs Hne). by rewrite Z2Nat.id in Hdata by lia.
  - intros i Hi. apply Hframe. intros k Hk Heq.
    apply sample_key_inj in Heq; lia.
Qed.

Lemma copy_meta_keys (src : reader) ks w w' :
  get_meta_key_info src = Ok ks ->
  copy_meta src (elements ks) w = (Ok tt, w') ->
  nb_samples w' = nb_samples w /\
  data_db (w_env w') = data_db (w_env w) /\
  forall k, k <> NB_SAMPLES ->
    meta_db (w_env w') !! k =
      match meta_db (r_env src) !! k with
      | Some v => Some v
      | None => meta_db (w_env w) !! k
      end.
Proof.
  intros Hks Hcopy.
  apply copy_meta_Ok in Hcopy as (Hn & Hd & Hm).
  2:{ intros k Hk%elem_of_elements. by apply (get_meta_key_info_Ok _ _ Hks). }
  split_and!; [done..|]. intros k Hk. rewrite Hm. case_decide as Hin.
  - destruct Hin as [Hin%elem_of_elements _].
    apply (get_meta_key_info_Ok _ _ Hks) in Hin as [v Hv]. by rewrite Hv.
  - destruct (meta_db (r_env src) !! k) as [v|] eqn:Hv; [|done].
    exfalso. apply Hin. split; [|done]. apply elem_of_elements.
    apply (get_meta_key_info_Ok _ _ Hks). eauto.
Qed.

(** X29. Merging appends. Let A and B hold their samples as a [Writer]
    stores them, and let [merge_db] into a target that a [Reader] opens
    with length [m >= 0] return normally. Then the target has length
    [m + len(A) + len(B)]; its first [m] indices read as before, the next
    [len(A)] read as the samples of A in order, and the last [len(B)] as
    the samples of B in order. Every metadata key other than the count
    key holds B's value if B has the key, else A's if A has it, else the
    target's own; the count key holds the new length. *)
Theorem merge_db_appends
    (A_env B_env T0 T : lmdb_env) (msl : Z) (rA rB rT0 : reader) :
  stored_samples A_env -> stored_samples B_env ->
  Reader_init A_env = Ok rA -> Reader_init B_env = Ok rB ->
  Reader_init T0 = Ok rT0 -> 0 <= Reader_len rT0 ->
  merge_db T0 A_env B_env msl = (Ok tt, T) ->
  exists rT,
    Reader_init T = Ok rT /\
    Reader_len rT
    = Reader_len rT0 + Z.max 0 (Reader_len rA) + Z.max 0 (Reader_len rB) /\
    (forall k, 0 <= k < Reader_len rT0 ->
       get_sample rT k = get_sample rT0 k) /\
    (forall k, 0 <= k < Reader_len rA ->
       get_sample rT (Reader_len rT0 + k) = get_sample rA k) /\
    (forall k, 0 <= k < Reader_len rB ->
       get_sample rT (Reader_len rT0 + Z.max 0 (Reader_len rA) + k)
       = get_sample rB k) /\
    (forall k, k <> NB_SAMPLES ->
       meta_db T !! k = match meta_db B_env !! k with
                        | Some v => Some v
                        | None => match meta_db A_env !! k with
                                  | Some v => Some v
                                  | None => meta_db T0 !! k
                                  end
                        end) /\
    meta_db T !! NB_SAMPLES
    = Some (py_str_int (Reader_len rT0 + Z.max 0 (Reader_len rA)
                        + Z.max 0 (Reader_len rB))).
Proof.
  intros HstA HstB HrA HrB HrT0 Hm Hmerge.
  assert (HeA : r_env rA = A_env) by by apply Reader_init_env.
  assert (HeB : r_env rB = B_env) by by apply Reader_init_env.
  assert (HeT : r_env rT0 = T0) by by apply Reader_init_env.
  rewrite <- HeA in HstA. rewrite <- HeB in HstB.
  unfold merge_db in Hmerge.
  destruct (Writer_init T0 msl (3 # 1)) as [w0|] eqn:Hinit;
    [|by injection Hmerge].
  destruct (Writer_init_Ok _ _ _ _ Hinit) as (_ & _ & Hw0 & _).
  pose proof (Writer_init_Reader_init _ _ _ _ Hinit) as Hr0.
  rewrite HrT0 in Hr0. injection Hr0 as Hr0.
  assert (Hn0 : nb_samples w0 = Reader_len rT0)
    by (unfold Reader_len; rewrite Hr0; done).
  rewrite HrA, HrB in Hmerge. cbv zeta in Hmerge.
  destruct (wbind _ _ _) as [res w5] eqn:Hrun in Hmerge.
  injection Hmerge as -> <-.
  apply wbind_Ok in Hrun as ([] & w1 & HcopyA & Hrun).
  apply wbind_Ok in Hrun as (ka & w1' & [Hka ->]%wlift_Ok & Hrun).
  apply wbind_Ok in Hrun as ([] & w2 & HmetaA & Hrun).
  apply wbind_Ok in Hrun as ([] & w3 & HcopyB & Hrun).
  apply wbind_Ok in Hrun as (kb & w3' & [Hkb ->]%wlift_Ok & Hrun).
  apply wbind_Ok in Hrun as ([] & w4 & HmetaB & Hclose).
  apply copy_samples_range in HcopyA as (Hn1 & Hmeta1 & Hdata1 & Hframe1);
    [|done|lia].
  apply (copy_meta_keys _ _ _ _ Hka) in HmetaA as (Hn2 & Hd2 & Hmeta2).
  apply copy_samples_range in HcopyB as (Hn3 & Hmeta3 & Hdata3 & Hframe3);
    [|done|lia].
  apply (copy_meta_keys _ _ _ _ Hkb) in HmetaB as (Hn4 & Hd4 & Hmeta4).
  apply Writer_close_Ok in Hclose as ->.
  cbn [with_env w_env data_db meta_db].
  unfold Reader_len in *.
  assert (Hcount : nb_samples w4
                   = r_nb_samples rT0 + Z.max 0 (r_nb_samples rA)
                     + Z.max 0 (r_nb_samples rB)) by lia.
  eexists. split.
  { apply Reader_init_count. cbn [meta_db]. by rewrite lookup_insert_eq. }
  cbn [r_nb_samples]. split; [done|]. split_and!.
  - intros k Hk. rewrite !get_sample_read_entry by (cbn [r_nb_samples]; lia).
    unfold read_entry. cbn [r_env data_db]. cbv zeta.
    rewrite Hd4, Hframe3, Hd2, Hframe1, Hw0, HeT by lia. done.
  - intros k Hk. destruct (Hdata1 k Hk) as (s & Hget & Harr & Hlook).
    rewrite Hget. apply get_sample_stored; [cbn [r_nb_samples]; lia| |done].
    cbn [r_env data_db]. rewrite Hd4, Hframe3, Hd2 by lia.
    by rewrite <- Hn0.
  - intros k Hk. destruct (Hdata3 k Hk) as (s & Hget & Harr & Hlook).
    rewrite Hget. apply get_sample_stored; [cbn [r_nb_samples]; lia| |done].
    cbn [r_env data_db]. rewrite Hd4.
    replace (r_nb_samples rT0 + Z.max 0 (r_nb_samples rA) + k)
      with (nb_samples w2 + k) by lia. done.
  - intros k Hk. rewrite lookup_insert_ne by done.
    rewrite Hmeta4, Hmeta3, Hmeta2, Hmeta1, HeA, HeB, Hw0 by done. done.
  - rewrite lookup_insert_eq. by rewrite Hcount.
Qed.

End MergeAppend.

(* ===================================================================== *)
(** * The statements on concrete stores                                   *)
(* ===================================================================== *)

Lemma put_all_read_back_witness :
  exists r,
    Reader_init (B:=toy_backend)
      (w_env (put_all (B:=toy_backend) [ex_a0; ∅; ex_a1] fresh_writer).2)
    = Ok r /\
    Reader_len r = Z.of_nat (length [ex_a0; ∅; ex_a1]) /\
    forall k s, [ex_a0; ∅; ex_a1] !! k = Some s -> s <> ∅ ->
                get_sample (B:=toy_backend) r (Z.of_nat k) = Ok s.
Proof.
  apply (put_all_read_back (B:=toy_backend) [ex_a0; ∅; ex_a1] 1 (3 # 1)
           fresh_writer).
  - reflexivity.
  - vm_compute. reflexivity.
Defined.

Lemma put_samples_empty_mapping_lost_witness :
  data_db (w_env (put_samples (B:=toy_backend) ∅ fresh_writer).2) = ∅ /\
  exists r,
    Reader_init (B:=toy_backend)
      (w_env (put_samples (B:=toy_backend) ∅ fresh_writer).2)
    = Ok r /\
    Reader_len r = 1 /\
    get_sample (B:=toy_backend) r 0 = Raise TypeError.
Proof.
  apply (put_samples_empty_mapping_lost (B:=toy_backend) 1 (3 # 1)
           fresh_writer).
  - reflexivity.
  - vm_compute. reflexivity.
Defined.

Lemma Writer_resume_empty_mapping_lost_witness :
  let w2 := (wbind (put_all (B:=toy_backend) [ex_a0; ex_a1])
                   (fun _ => Writer_close (B:=toy_backend)) fresh_writer).2 in
  let w3 := {| w_env := w_env w2; map_size_limit := 50;
               ram_gb_limit := 3 # 1; nb_samples := 2;
               db_stats := "auto_update_stats" |} in
  let w4 := (put_samples (B:=toy_backend) ∅ w3).2 in
  nb_samples w3 = Z.of_nat (length [ex_a0; ex_a1]) /\
  data_db (w_env w4) !! sample_key (Z.of_nat (length [ex_a0; ex_a1])) = None /\
  exists r, Reader_init (B:=toy_backend) (w_env w4) = Ok r /\
            Reader_len r = Z.of_nat (length [ex_a0; ex_a1]) + 1 /\
            get_sample (B:=toy_backend) r (Z.of_nat (length [ex_a0; ex_a1]))
            = Raise TypeError.
Proof.
  intros w2 w3 w4.
  apply (Writer_resume_empty_mapping_lost (B:=toy_backend)
           [ex_a0; ex_a1] 1 (3 # 1) fresh_writer
           (put_all (B:=toy_backend) [ex_a0; ex_a1] fresh_writer).2
           w2 50 (3 # 1) w3 w4).
  - reflexivity.
  - vm_compute. reflexivity.
  - vm_compute. reflexivity.
  - vm_compute. reflexivity.
  - vm_compute. reflexivity.
Defined.

Lemma Writer_resume_witness :
  let w1 := (put_all (B:=toy_backend) [ex_a0; ex_a1] fresh_writer).2 in
  let w2 := (Writer_close (B:=toy_backend) w1).2 in
  exists w3,
    Writer_init (B:=toy_backend) (w_env w2) 50 (1 # 2) = Ok w3 /\
    db_stats fresh_writer = "create_stats" /\
    nb_samples w3 = Z.of_nat (length [ex_a0; ex_a1]) /\
    db_stats w3 = "auto_update_stats" /\
    forall s w4,
      put_samples (B:=toy_backend) s w3 = (Ok tt, w4) ->
      nb_samples w4 = Z.of_nat (length [ex_a0; ex_a1]) + 1 /\
      (s <> ∅ ->
       data_db (w_env w4) !! sample_key (Z.of_nat (length [ex_a0; ex_a1]))
       = Some (pack_sample (B:=toy_backend) s) /\
       exists r, Reader_init (B:=toy_backend) (w_env w4) = Ok r /\
                 Reader_len r = Z.of_nat (length [ex_a0; ex_a1]) + 1 /\
                 get_sample (B:=toy_backend) r
                   (Z.of_nat (length [ex_a0; ex_a1])) = Ok s).
Proof.
  intros w1 w2.
  apply (Writer_resume (B:=toy_backend) [ex_a0; ex_a1] 1 (3 # 1)
           fresh_writer w1 w2 50 (1 # 2)).
  - reflexivity.
  - vm_compute. reflexivity.
  - vm_compute. reflexivity.
  - lia.
  - reflexivity.
Defined.

(** C4 fails as stated: a mapping with the scalar 5 under ["x"] is not
    coerced and committed by [put_samples]; the call raises, and the store
    stays empty. *)
Lemma put_samples_scalar_not_committed :
  (put_samples (B:=toy_backend) {[ "x" := PInt 5 ]} fresh_writer).1
  = Raise (ValueError UnsupportedDataType) /\
  data_db (w_env (put_samples (B:=toy_backend) {[ "x" := PInt 5 ]}
                    fresh_writer).2) = ∅ /\
  ~ exists w',
      put_samples (B:=toy_backend) {[ "x" := PInt 5 ]} fresh_writer
      = (Ok tt, w').
Proof.
  split_and!.
  - vm_compute. reflexivity.
  - vm_compute. reflexivity.
  - intros [w' Hput]. vm_compute in Hput. discriminate Hput.
Qed.

Lemma put_samples_rejects_non_array_witness :
  put_samples (B:=toy_backend) {[ "x" := PInt 5 ]} fresh_writer
  = (Raise (ValueError UnsupportedDataType), fresh_writer) /\
  forall s w',
    put_samples (B:=toy_backend) s fresh_writer = (Ok tt, w') ->
    all_arrays s /\
    (forall f a, s !! f = Some (PArr a) ->
       packed_fields (B:=toy_backend) s !! f
       = Some (packb_array (Backend:=toy_backend) a)) /\
    (s <> ∅ -> 0 <= nb_samples fresh_writer ->
     data_db (w_env w') !! sample_key (nb_samples fresh_writer)
     = Some (pack_sample (B:=toy_backend) s) /\
     exists r,
       Reader_init (B:=toy_backend) (w_env w') = Ok r /\
       Reader_len r = nb_samples fresh_writer + 1 /\
       get_sample (B:=toy_backend) r (nb_samples fresh_writer) = Ok s).
Proof.
  apply (put_samples_rejects_non_array (B:=toy_backend)
           {[ "x" := PInt 5 ]} fresh_writer "x" (PInt 5)).
  - vm_compute. reflexivity.
  - reflexivity.
Defined.

Lemma put_samples_over_ram_limit_witness :
  (put_samples (B:=toy_backend) ex_a0 tight_writer).1
  = Raise (ValueError RamLimitExceeded) /\
  (put_samples (B:=toy_backend) ex_a0 tight_writer).2 = tight_writer /\
  nb_samples (put_samples (B:=toy_backend) ex_a0 tight_writer).2
  = nb_samples tight_writer /\
  Reader_init (B:=toy_backend)
    (w_env (put_samples (B:=toy_backend) ex_a0 tight_writer).2)
  = Reader_init (B:=toy_backend) (w_env tight_writer) /\
  forall w0,
    ((payload_size ex_a0 # 1000000000) * (1 + (1 # 2251799813685248))
     <= ram_gb_limit w0)%Q ->
    (put_samples (B:=toy_backend) ex_a0 w0).1
    <> Raise (ValueError RamLimitExceeded).
Proof.
  apply (put_samples_over_ram_limit (B:=toy_backend) ex_a0 tight_writer).
  - intros k v Hk. unfold ex_a0 in Hk.
    apply lookup_singleton_Some in Hk as [_ <-]. reflexivity.
  - vm_compute. reflexivity.
  - vm_compute. reflexivity.
Defined.

(** C5, at an input on which the code departs from it. The limit is the
    [float] [3e-9], which lies below three billionths; a payload of three
    bytes is above it, and is accepted: counted in gigabytes it rounds to
    the limit itself. *)
Lemma put_samples_rounding_accepted :
  payload_size {[ "x" := PArr ex_bytes3 ]} = 3 /\
  (ram_gb_limit rounding_writer * (1000000000 # 1) < 3 # 1)%Q /\
  (put_samples (B:=toy_backend) {[ "x" := PArr ex_bytes3 ]}
     rounding_writer).1 = Ok tt /\
  nb_samples (put_samples (B:=toy_backend) {[ "x" := PArr ex_bytes3 ]}
                rounding_writer).2 = 1.
Proof. split_and!; vm_compute; reflexivity. Qed.

(** C6, at the input on which the code departs from it. On a store with
    one sample, [change_db_value(-1, ...)] (with the confirmation switched
    off) does not raise: the guard only asks for [key < nb_samples], and
    the call adds an entry under the key ["-000000001"], which is the key
    of no sample. The count stays 1, and the store holds two entries. *)
Theorem change_db_value_negative_index_accepted :
  let w1 := (put_samples (B:=toy_backend) ex_a0 fresh_writer).2 in
  nb_samples w1 = 1 /\
  exists w2,
    change_db_value (B:=toy_backend) (-1) ex_b0 false "" w1 = (Ok tt, w2) /\
    sample_key (-1) = "-000000001" /\
    data_db (w_env w2) !! "-000000001"
    = Some (pack_sample (B:=toy_backend) ex_b0) /\
    data_db (w_env w2) !! sample_key 0
    = Some (pack_sample (B:=toy_backend) ex_a0) /\
    size (data_db (w_env w2)) = 2%nat /\
    nb_samples w2 = 1.
Proof.
  intros w1. split; [reflexivity|].
  exists (change_db_value (B:=toy_backend) (-1) ex_b0 false "" w1).2.
  split_and!; vm_compute; reflexivity.
Qed.

(** C7 fails as stated: on a store with the two samples of store A,
    [get_sample(-1)] raises, while [get_sample(len - 1)] returns the last
    sample. *)
Lemma get_sample_minus_one_raises :
  1 <= Reader_len ex_reader_A /\
  get_sample (B:=toy_backend) ex_reader_A (-1) = Raise IndexError /\
  get_sample (B:=toy_backend) ex_reader_A (Reader_len ex_reader_A - 1)
  = Ok ex_a1 /\
  get_sample (B:=toy_backend) ex_reader_A (-1)
  <> get_sample (B:=toy_backend) ex_reader_A (Reader_len ex_reader_A - 1).
Proof.
  split_and!.
  - vm_compute. discriminate.
  - vm_compute. reflexivity.
  - vm_compute. reflexivity.
  - vm_compute. discriminate.
Qed.

Lemma Reader_bounds_witness :
  Reader_getitem (B:=toy_backend) ex_reader_A (-1)
  = get_sample (B:=toy_backend) ex_reader_A (Reader_len ex_reader_A - 1) /\
  get_sample (B:=toy_backend) ex_reader_A (-1) = Raise IndexError /\
  (forall i, i < 0 ->
             get_sample (B:=toy_backend) ex_reader_A i = Raise IndexError) /\
  get_sample (B:=toy_backend) ex_reader_A (Reader_len ex_reader_A)
  = Raise IndexError /\
  Reader_getitem (B:=toy_backend) ex_reader_A (Reader_len ex_reader_A)
  = Raise IndexError /\
  (forall i, i < - Reader_len ex_reader_A ->
             Reader_getitem (B:=toy_backend) ex_reader_A i = Raise IndexError).
Proof.
  apply (Reader_bounds (B:=toy_backend) ex_reader_A).
  vm_compute. discriminate.
Defined.

Ltac stored_steps :=
  repeat match goal with
    | |- stored_samples (w_env (wbind _ _ _).2) =>
        apply (wbind_keeps (fun w => stored_samples (w_env w)));
        [intros ? ?|intros ? ? ?|]; cbv beta
    | |- stored_samples (w_env (put_samples _ _).2) =>
        apply stored_samples_put_samples
    | |- stored_samples (w_env (set_meta_str _ _ _).2) =>
        apply stored_samples_set_meta_str
    | |- stored_samples (w_env (Writer_close _).2) =>
        apply stored_samples_Writer_close
    | |- stored_samples (w_env fresh_writer) =>
        apply stored_samples_empty_env
    | |- stored_samples _ => assumption
    end.

Lemma ex_stores_stored_samples :
  stored_samples (B:=toy_backend) ex_store_A /\
  stored_samples (B:=toy_backend) ex_store_B.
Proof. split; [unfold ex_store_A|unfold ex_store_B]; stored_steps. Qed.


(** The merged store of the example, key by key. *)
Example ex_merged_metadata :
  meta_db ex_merged !! "origin" = Some "B" /\
  meta_db ex_merged !! "note" = Some "first" /\
  meta_db ex_merged !! "extra" = Some "second" /\
  meta_db ex_merged !! "nb_samples" = Some "3" /\
  meta_db ex_store_A !! "nb_samples" = Some "2" /\
  meta_db ex_store_B !! "nb_samples" = Some "1".
Proof. split_and!; vm_compute; reflexivity. Qed.

Lemma get_meta_str_absent_witness :
  get_meta_str empty_env (KStr "note") = Ok "None" /\
  String.length "None" = 4%nat /\
  get_meta_str {| data_db := ∅; meta_db := {[ "note" := "None" ]} |}
               (KStr "note")
  = get_meta_str empty_env (KStr "note").
Proof.
  apply (get_meta_str_absent empty_env
           {| data_db := ∅; meta_db := {[ "note" := "None" ]} |}
           (KStr "note")); [discriminate|reflexivity..].
Defined.

(** C10, at the input on which the code departs from it: the empty key is
    absent from every store, and the engine refuses the lookup. *)
Lemma get_meta_str_empty_key_raises :
  meta_db ex_store_A !! key_bytes (KStr "") = None /\
  get_meta_str ex_store_A (KStr "") = Raise BadValsizeError /\
  get_meta_str ex_store_A (KBytes "") = Raise BadValsizeError.
Proof. split_and!; vm_compute; reflexivity. Qed.



(** The handles and readers of the examples are the ones that the
    constructors give. *)
Example ex_handles :
  Writer_init (B:=toy_backend) empty_env 1 (3 # 1) = Ok fresh_writer /\
  Writer_init (B:=toy_backend) ex_store_A 10 (3 # 1) = Ok ex_writer_A /\
  Reader_init (B:=toy_backend) ex_store_A = Ok ex_reader_A /\
  Reader_init (B:=toy_backend) ex_store_B = Ok ex_reader_B.
Proof. split_and!; vm_compute; reflexivity. Qed.

Lemma change_db_value_not_below_witness :
  change_db_value (B:=toy_backend) 2 ex_b0 false "" ex_writer_A
  = (Raise (ValueError KeyNotBelowSize), ex_writer_A).
Proof.
  apply (change_db_value_not_below (B:=toy_backend) 2 ex_b0 false ""
           ex_writer_A).
  cbn [ex_writer_A nb_samples]. lia.
Defined.

Lemma change_db_value_in_range_witness :
  let w' := (change_db_value (B:=toy_backend) 1 ex_b0 true " Yes "
               ex_writer_A).2 in
  nb_samples w' = nb_samples ex_writer_A /\
  meta_db (w_env w') = meta_db (w_env ex_writer_A) /\
  (ex_b0 <> ∅ ->
   data_db (w_env w') !! sample_key 1
   = Some (pack_sample (B:=toy_backend) ex_b0)) /\
  forall i, 0 <= i -> i <> 1 ->
    data_db (w_env w') !! sample_key i
    = data_db (w_env ex_writer_A) !! sample_key i.
Proof.
  intros w'.
  apply (change_db_value_in_range (B:=toy_backend) 1 ex_b0 true " Yes "
           ex_writer_A w').
  - cbn [ex_writer_A nb_samples]. lia.
  - vm_compute. reflexivity.
Defined.

Lemma change_db_value_declined_witness :
  change_db_value (B:=toy_backend) 1 ex_b0 true "no" ex_writer_A
  = (Raise SystemExit, ex_writer_A).
Proof.
  apply (change_db_value_declined (B:=toy_backend) 1 ex_b0 "no" ex_writer_A).
  - vm_compute. reflexivity.
  - vm_compute. discriminate.
Defined.


Lemma put_samples_store_full_witness :
  put_samples (B:=full_backend) ex_a0 fresh_writer
  = (Raise AttributeError, fresh_writer).
Proof.
  apply (put_samples_store_full (B:=full_backend) ex_a0 fresh_writer 16).
  - vm_compute. discriminate.
  - vm_compute. reflexivity.
  - vm_compute. discriminate.
  - reflexivity.
Defined.

Lemma Writer_close_fresh_zero_samples_witness :
  zero_samples (B:=toy_backend)
    (w_env (Writer_close (B:=toy_backend) fresh_writer).2).
Proof.
  apply (Writer_close_fresh_zero_samples (B:=toy_backend) 1 (3 # 1)
           fresh_writer (Writer_close (B:=toy_backend) fresh_writer).2).
  - reflexivity.
  - vm_compute. reflexivity.
Defined.

Lemma Writer_entries_are_samples_witness :
  exists k s,
    [ex_a0; ∅; ex_a1] !! k = Some s /\ s <> ∅ /\ all_arrays s /\
    sample_key 2 = sample_key (Z.of_nat k) /\
    pack_sample (B:=toy_backend) ex_a1 = pack_sample (B:=toy_backend) s.
Proof.
  apply (Writer_entries_are_samples (B:=toy_backend) [ex_a0; ∅; ex_a1]
           1 (3 # 1) fresh_writer
           (put_all (B:=toy_backend) [ex_a0; ∅; ex_a1] fresh_writer).2).
  - reflexivity.
  - vm_compute. reflexivity.
  - vm_compute. reflexivity.
Defined.

Lemma Writer_keeps_stored_samples_witness :
  (forall samples,
     stored_samples (B:=toy_backend)
       (w_env (put_samples (B:=toy_backend) samples fresh_writer).2)) /\
  (forall key value safe_model answer,
     stored_samples (B:=toy_backend)
       (w_env (change_db_value (B:=toy_backend) key value safe_model answer
                 fresh_writer).2)) /\
  (forall key v,
     stored_samples (B:=toy_backend)
       (w_env (set_meta_str (B:=toy_backend) key v fresh_writer).2)) /\
  stored_samples (B:=toy_backend)
    (w_env (Writer_close (B:=toy_backend) fresh_writer).2).
Proof.
  apply (Writer_keeps_stored_samples (B:=toy_backend) fresh_writer).
  intros key blob Hl. vm_compute in Hl. discriminate Hl.
Defined.

Lemma change_db_value_below_witness :
  (change_db_value (B:=toy_backend) (-1) ex_b0 false "" ex_writer_A).1
  <> Raise (ValueError KeyNotBelowSize).
Proof.
  apply (change_db_value_below (B:=toy_backend) (-1) ex_b0 false ""
           ex_writer_A).
  cbn [ex_writer_A nb_samples]. lia.
Defined.

Lemma get_samples_in_range_witness :
  get_samples (B:=toy_backend) ex_reader_A 0 2
  = collect (get_sample (B:=toy_backend) ex_reader_A)
            (py_range_from 0 (0 + 2)) [] /\
  forall l, get_samples (B:=toy_backend) ex_reader_A 0 2 = Ok l ->
    Z.of_nat (length l) = Z.max 0 2 /\
    forall k s, l !! k = Some s ->
      get_sample (B:=toy_backend) ex_reader_A (0 + Z.of_nat k) = Ok s.
Proof.
  apply (get_samples_in_range (B:=toy_backend) ex_reader_A 0 2).
  - lia.
  - cbn [Reader_len ex_reader_A r_nb_samples]. lia.
Defined.

Lemma Reader_getitem_slice_clamped_witness :
  (forall j, j ∈ py_range_step 0 2 2 -> 0 <= j < Reader_len ex_reader_A) /\
  Reader_getitem_key (B:=toy_backend) ex_reader_A
    (IdxSlice (Some (-100)) (Some 100) (Some 2))
  = outcome_of
      (rbind (collect (get_sample (B:=toy_backend) ex_reader_A)
                      (py_range_step 0 2 2) [])
             (fun l => Ok (Many l))).
Proof.
  apply (Reader_getitem_slice_clamped (B:=toy_backend) ex_reader_A
           (Some (-100)) (Some 100) (Some 2) 0 2 2).
  vm_compute. reflexivity.
Defined.

Ltac nonempty_items :=
  let s := fresh "s" in
  let Hs := fresh "Hs" in
  let Heq := fresh "Heq" in
  intros s Hs;
  repeat (apply elem_of_cons in Hs as [->|Hs];
          [intros Heq; vm_compute in Heq; discriminate Heq|]);
  by apply elem_of_nil in Hs.

Lemma put_all_get_samples_witness :
  exists r,
    Reader_init (B:=toy_backend)
      (w_env (put_all (B:=toy_backend) [ex_a0; ex_a1; ex_b0] fresh_writer).2)
    = Ok r /\
    get_samples (B:=toy_backend) r (Z.of_nat 1) (Z.of_nat 2)
    = Ok (take 2 (drop 1 [ex_a0; ex_a1; ex_b0])) /\
    Reader_getitem_key (B:=toy_backend) r
      (IdxSlice (Some (Z.of_nat 1)) (Some (Z.of_nat (1 + 2))) None)
    = Returns (Many (take 2 (drop 1 [ex_a0; ex_a1; ex_b0]))).
Proof.
  apply (put_all_get_samples (B:=toy_backend) [ex_a0; ex_a1; ex_b0]
           1 (3 # 1) fresh_writer).
  - reflexivity.
  - vm_compute. reflexivity.
  - nonempty_items.
  - cbn [length]. lia.
Defined.

Lemma put_all_slice_witness :
  exists r,
    Reader_init (B:=toy_backend)
      (w_env (put_all (B:=toy_backend) [ex_a0; ex_a1; ex_b0] fresh_writer).2)
    = Ok r /\
    (exists items,
       Reader_getitem_key (B:=toy_backend) r
         (IdxSlice None None (Some (-2)))
       = Returns (Many items) /\
       Forall2 (fun j s => [ex_a0; ex_a1; ex_b0] !! Z.to_nat j = Some s)
               (py_range_step 2 (-1) (-2)) items) /\
    Reader_getitem_key (B:=toy_backend) r (IdxSlice None None None)
    = Returns (Many [ex_a0; ex_a1; ex_b0]) /\
    Reader_getitem_key (B:=toy_backend) r (IdxSlice None None (Some (-1)))
    = Returns (Many (reverse [ex_a0; ex_a1; ex_b0])).
Proof.
  apply (put_all_slice (B:=toy_backend) [ex_a0; ex_a1; ex_b0]
           1 (3 # 1) fresh_writer).
  - reflexivity.
  - vm_compute. reflexivity.
  - nonempty_items.
  - vm_compute. reflexivity.
Defined.

Lemma get_data_specification_stored_witness :
  get_data_specification (B:=toy_backend) ex_reader_A (-1)
  = Returns (array_specification ex_a1) /\
  (forall k, is_Some (array_specification ex_a1 !! k)
             <-> is_Some (ex_a1 !! k)) /\
  exists keys,
    get_data_keys (B:=toy_backend) ex_reader_A (-1) = Returns keys /\
    NoDup keys /\
    forall k, k ∈ keys <-> is_Some (array_specification ex_a1 !! k).
Proof.
  apply (get_data_specification_stored (B:=toy_backend) ex_reader_A (-1)
           ex_a1).
  - apply ex_stores_stored_samples.
  - vm_compute. reflexivity.
Defined.

Lemma put_all_get_data_value_witness :
  exists r,
    Reader_init (B:=toy_backend)
      (w_env (put_all (B:=toy_backend) [ex_a0; ex_a1] fresh_writer).2)
    = Ok r /\
    (forall key,
       get_data_value (B:=toy_backend) r (Z.of_nat 1) key
       = match ex_a1 !! key with
         | Some v => Returns v
         | None => Throws KeyError
         end /\
       get_data_value (B:=toy_backend) r
         (Z.of_nat 1 - Z.of_nat (length [ex_a0; ex_a1])) key
       = get_data_value (B:=toy_backend) r (Z.of_nat 1) key) /\
    (forall i key,
       i < - Z.of_nat (length [ex_a0; ex_a1])
       \/ Z.of_nat (length [ex_a0; ex_a1]) <= i ->
       get_data_value (B:=toy_backend) r i key = Throws (Of IndexError)).
Proof.
  apply (put_all_get_data_value (B:=toy_backend) [ex_a0; ex_a1]
           1 (3 # 1) fresh_writer _ 1%nat ex_a1).
  - reflexivity.
  - vm_compute. reflexivity.
  - reflexivity.
  - intros Heq. vm_compute in Heq. discriminate Heq.
Defined.

Lemma get_data_key_info_stored_witness :
  exists ks,
    get_data_key_info (B:=toy_backend) ex_reader_A = Ok ks /\
    (forall k,
       k ∈ ks <->
       exists key s,
         data_db (r_env ex_reader_A) !! key
         = Some (pack_sample (B:=toy_backend) s) /\
         is_Some (s !! k)) /\
    (forall i s k,
       get_sample (B:=toy_backend) ex_reader_A i = Ok s ->
       is_Some (s !! k) -> k ∈ ks).
Proof.
  apply (get_data_key_info_stored (B:=toy_backend) ex_reader_A).
  apply ex_stores_stored_samples.
Defined.

Lemma repair_windows_size_Ok_witness :
  let e' := (repair_windows_size (B:=toy_backend) empty_env).2 in
  data_db e' = data_db empty_env /\
  (forall k, k <> NB_SAMPLES -> meta_db e' !! k = meta_db empty_env !! k) /\
  (exists n,
     Reader_init (B:=toy_backend) empty_env
     = Ok {| r_env := empty_env; r_nb_samples := n |} /\
     Reader_init (B:=toy_backend) e'
     = Ok {| r_env := e'; r_nb_samples := n |} /\
     meta_db e' !! NB_SAMPLES = Some (py_str_int n)) /\
  (forall e'',
     repair_windows_size (B:=toy_backend) e' = (Ok tt, e'') -> e'' = e').
Proof.
  intros e'.
  apply (repair_windows_size_Ok (B:=toy_backend) empty_env e').
  vm_compute. reflexivity.
Defined.

Lemma set_meta_str_get_meta_str_witness :
  let w' := (set_meta_str (B:=toy_backend) (KStr "note") "first"
               ex_writer_A).2 in
  (utf8_valid "first" = true ->
   get_meta_str (w_env w') (KStr "note") = Ok "first" /\
   get_meta_str (w_env w') (KStr (key_bytes (KStr "note"))) = Ok "first" /\
   get_meta_str (w_env w') (KBytes (key_bytes (KStr "note"))) = Ok "first") /\
  (forall key', key_bytes key' <> key_bytes (KStr "note") ->
     get_meta_str (w_env w') key' = get_meta_str (w_env ex_writer_A) key') /\
  data_db (w_env w') = data_db (w_env ex_writer_A) /\
  nb_samples w' = nb_samples ex_writer_A.
Proof.
  intros w'.
  apply (set_meta_str_get_meta_str (B:=toy_backend) (KStr "note") "first"
           ex_writer_A w').
  vm_compute. reflexivity.
Defined.

Lemma merge_db_appends_witness :
  exists rT,
    Reader_init (B:=toy_backend) ex_merged_again = Ok rT /\
    Reader_len rT
    = Reader_len ex_reader_merged + Z.max 0 (Reader_len ex_reader_A)
      + Z.max 0 (Reader_len ex_reader_B) /\
    (forall k, 0 <= k < Reader_len ex_reader_merged ->
       get_sample (B:=toy_backend) rT k
       = get_sample (B:=toy_backend) ex_reader_merged k) /\
    (forall k, 0 <= k < Reader_len ex_reader_A ->
       get_sample (B:=toy_backend) rT (Reader_len ex_reader_merged + k)
       = get_sample (B:=toy_backend) ex_reader_A k) /\
    (forall k, 0 <= k < Reader_len ex_reader_B ->
       get_sample (B:=toy_backend) rT
         (Reader_len ex_reader_merged + Z.max 0 (Reader_len ex_reader_A) + k)
       = get_sample (B:=toy_backend) ex_reader_B k) /\
    (forall k, k <> NB_SAMPLES ->
       meta_db ex_merged_again !! k
       = match meta_db ex_store_B !! k with
         | Some v => Some v
         | None => match meta_db ex_store_A !! k with
                   | Some v => Some v
                   | None => meta_db ex_merged !! k
                   end
         end) /\
    meta_db ex_merged_again !! NB_SAMPLES
    = Some (py_str_int (Reader_len ex_reader_merged
                        + Z.max 0 (Reader_len ex_reader_A)
                        + Z.max 0 (Reader_len ex_reader_B))).
Proof.
  apply (merge_db_appends (B:=toy_backend) ex_store_A ex_store_B ex_merged
           ex_merged_again 10 ex_reader_A ex_reader_B ex_reader_merged).
  - apply ex_stores_stored_samples.
  - apply ex_stores_stored_samples.
  - vm_compute. reflexivity.
  - vm_compute. reflexivity.
  - vm_compute. reflexivity.
  - cbn [Reader_len ex_reader_merged r_nb_samples]. lia.
  - vm_compute. reflexivity.
Defined.

Lemma Reader_getitem_slice_get_samples_witness :
  Reader_getitem_key (B:=toy_backend) ex_reader_A
    (IdxSlice (Some 1) (Some 2) None)
  = outcome_of
      (rbind (get_samples (B:=toy_backend) ex_reader_A 1 (2 - 1))
             (fun l => Ok (Many l))).
Proof.
  apply (Reader_getitem_slice_get_samples (B:=toy_backend) ex_reader_A 1 2).
  - lia.
  - cbn [Reader_len ex_reader_A r_nb_samples]. lia.
Defined.

(** The confirmation of [change_db_value] strips the white space of
    every script: the answer "yes" behind a no-break space is taken. A
    failed commit moves the cursor of [put_samples] and stores nothing. *)
Example ex_answer_and_commit :
  py_lower (py_strip ex_answer_nbsp) = "yes" /\
  change_db_value (B:=toy_backend) 1 ex_b0 true ex_answer_nbsp ex_writer_A
  = change_db_value (B:=toy_backend) 1 ex_b0 false "" ex_writer_A /\
  (change_db_value (B:=toy_backend) 1 ex_b0 true ex_answer_nbsp
     ex_writer_A).1 = Ok tt /\
  put_samples (B:=commit_full_backend) ex_a0 fresh_writer
  = (Raise AttributeError, with_nb_samples fresh_writer 1) /\
  py_int (B:=toy_backend) (String (ascii_of_nat 28) "12")
  = Raise (ValueError InvalidLiteralForInt) /\
  py_int (B:=toy_backend) " 1_2 " = Ok 12.
Proof. split_and!; vm_compute; reflexivity. Qed.

(** The failures of X18, X26 and X28 on concrete stores: a count entry
    that is not a number stops the repair and not the [Reader]; a metadata
    key that is not UTF-8 stops [get_meta_key_info]; a negative count
    makes [len] fail. *)
Example ex_bad_stores :
  repair_windows_size (B:=toy_backend) ex_store_bad_count
  = (Raise (ValueError InvalidLiteralForInt), ex_store_bad_count) /\
  Reader_init (B:=toy_backend) ex_store_bad_count
  = Ok {| r_env := ex_store_bad_count; r_nb_samples := 0 |} /\
  get_meta_key_info {| r_env := ex_store_bad_key; r_nb_samples := 0 |}
  = Raise (ValueError UnicodeDecode) /\
  Reader_init (B:=toy_backend) ex_store_negative_count
  = Ok {| r_env := ex_store_negative_count; r_nb_samples := -1 |} /\
  Reader_getitem_key (B:=toy_backend)
    {| r_env := ex_store_negative_count; r_nb_samples := -1 |} (IdxInt 0)
  = Throws NegativeLen.
Proof. split_and!; vm_compute; reflexivity. Qed.
